(** * Performance tracking and alerting of the model-registry dashboard

    A shallow embedding of [performance.py] (classes [PerformanceMetrics],
    [MetricsCollector] and [PerformanceMonitor]) together with the part of
    [models.py] it reads ([ModelInfo]).

    Conventions of the embedding:
    - Python numbers are rationals ([Q]); [==] is equality of values. A
      [float] is the rational it denotes, and the arithmetic of the code
      is the arithmetic of IEEE 754 binary64: the exact result rounded to
      the nearest double, ties to even ([Num.fround], with gradual
      underflow). Infinities and NaN are not modelled, so the embedding is
      that of the code on values below 2^1024 in magnitude. A literal such
      as [0.1] is the double nearest to it ([Num.float 0.1]); a literal
      written without [Num.float] is a double as it stands. A division
      whose divisor is a run-time value is [py_div], which fails ([None])
      where Python raises [ZeroDivisionError]. [sum] adds from the left,
      one rounded addition per element.
    - Python strings are [string]; dictionaries whose iteration order is
      irrelevant are [gmap string _]; dictionary literals that are returned
      to the caller are association lists in insertion order.
    - The mutable monitor and collector objects are records threaded
      through the operations; what the code obtains from the host
      ([psutil], [secrets], the clock) is an explicit [Host] record.
    - A computation that may raise returns [option]; [None] is the raised
      exception. *)

From Stdlib Require Import QArith Qabs Qpower Lqa Ascii String.
From stdpp Require Import gmap strings list fin_maps.

(** ** Numbers *)

Module Num.

(** [a > b] and [a < b] on Python numbers. *)
Definition gtb (a b : Q) : bool := negb (Qle_bool a b).
Definition ltb (a b : Q) : bool := negb (Qle_bool b a).
Definition leb (a b : Q) : bool := Qle_bool a b.

(** Truth value of a number: every number but zero is true. *)
Definition truthy (a : Q) : bool := negb (Qeq_bool a 0).

(** [2 ** e] for an integer exponent of either sign. *)
Definition pow2 (e : Z) : Q :=
  if (0 <=? e)%Z then inject_Z (2 ^ e) else 1 # Z.to_pos (2 ^ (- e)).

(** The exponent [k] with [2 ** k <= a < 2 ** (k + 1)], for [0 < a]. *)
Definition ilog2 (a : Q) : Z :=
  let k := (Z.log2 (Qnum a) - Z.log2 (Zpos (Qden a)))%Z in
  if Qle_bool (pow2 k) a then k else (k - 1)%Z.

(** The integer nearest to [a], the even one of two that are equally
    near, for [0 <= a]. *)
Definition rne (a : Q) : Z :=
  let f := (Qnum a / Zpos (Qden a))%Z in
  let r := (Qnum a mod Zpos (Qden a))%Z in
  match (2 * r ?= Zpos (Qden a))%Z with
  | Lt => f
  | Gt => (f + 1)%Z
  | Eq => if Z.even f then f else (f + 1)%Z
  end.

(** The exponent of the last bit of the significand of the double nearest
    to [a], for [0 < a]: 52 below the exponent of [a], and at least
    [-1074], the exponent of the smallest subnormal number. *)
Definition expo (a : Q) : Z := Z.max (ilog2 a - 52) (-1074).

(** The multiple of [2 ** expo a] nearest to [a], for [0 <= a]. *)
Definition round_pos (a : Q) : Q :=
  inject_Z (rne (a / pow2 (expo a))) * pow2 (expo a).

(** Rounding to binary64, to the nearest double and to the even one of
    two that are equally near. The result is a fraction in lowest terms,
    and equal values have the same result; [Binary64.fround_mono] and
    [Binary64.fround_error] below state that the rounding is monotone and
    that its error is at most [2 ** -53] times the magnitude of a number
    that is not below the smallest normal double. *)
Definition fround (x : Q) : Q :=
  let x := Qred x in
  if Qeq_bool x 0 then 0%Q
  else
    let r := Qred (round_pos (Qabs x)) in
    if Qle_bool 0 x then r else Qred (- r).

(** The value of a decimal literal of the source. *)
Definition float (x : Q) : Q := fround x.


(** [a + b], [a - b], [a * b] and [a / b] on floats ([b] not zero). *)
Definition fadd (a b : Q) : Q := fround (a + b).
Definition fsub (a b : Q) : Q := fround (a - b).
Definition fmul (a b : Q) : Q := fround (a * b).
Definition fdiv (a b : Q) : Q := fround (a / b).

(** [a / b] with a run-time divisor. *)
Definition py_div (a b : Q) : option Q :=
  if Qeq_bool b 0 then None else Some (fdiv a b).

(** [sum(xs)]: starts from [0] and adds from the left, one rounded
    addition per element (the [sum] of CPython before 3.12; later
    versions compensate the rounding errors of a sum of floats). *)
Definition py_sum (xs : list Q) : Q := fold_left fadd xs 0%Q.

End Num.

(** ** Data model *)

(** [models.ModelInfo]. *)
Record ModelInfo := {
  name : string;
  task_type : string;
  library : string;
  size_mb : option Q;
  downloads : option Z;
  last_modified : option string;
  tags : list string
}.

(** [performance.PerformanceMetrics]. *)
Record PerformanceMetrics := {
  model_name : string;
  timestamp : string;
  memory_usage_mb : Q;
  cpu_usage_percent : Q;
  inference_time_ms : Q;
  throughput_tokens_per_sec : Q;
  model_size_mb : Q;
  gpu_usage_percent : option Q;
  error_rate : Q;
  status : string
}.

(** Values stored in the dictionary built by [to_dict]. *)
Inductive PyVal :=
| VStr (s : string)
| VNum (q : Q)
| VNone.

Definition opt_num (o : option Q) : PyVal :=
  match o with Some q => VNum q | None => VNone end.

(** [PerformanceMetrics.to_dict]. *)
Definition to_dict (m : PerformanceMetrics) : list (string * PyVal) :=
  [ ("model_name", VStr (model_name m));
    ("timestamp", VStr (timestamp m));
    ("memory_usage_mb", VNum (memory_usage_mb m));
    ("cpu_usage_percent", VNum (cpu_usage_percent m));
    ("inference_time_ms", VNum (inference_time_ms m));
    ("throughput_tokens_per_sec", VNum (throughput_tokens_per_sec m));
    ("model_size_mb", VNum (model_size_mb m));
    ("gpu_usage_percent", opt_num (gpu_usage_percent m));
    ("error_rate", VNum (error_rate m));
    ("status", VStr (status m)) ].

(** The dictionary appended by [_check_thresholds] for one violation. *)
Record Alert := {
  a_type : string;
  a_metric : string;
  a_value : Q;
  a_threshold : Q;
  a_model : string;
  a_timestamp : string;
  a_severity : string
}.

(** ** PerformanceMonitor: threshold evaluation *)

(** [PerformanceMonitor.__init__]: the default threshold table. *)
Definition default_thresholds : gmap string Q :=
  <["max_memory_mb" := 2048%Q]>
  (<["max_cpu_percent" := 80%Q]>
  (<["max_inference_time_ms" := 1000%Q]>
  (<["min_throughput_tokens_per_sec" := 50%Q]>
  (<["max_error_rate" := 10%Q]> ∅)))).

(** The [checks] list of [_check_thresholds]:
    (metric name, observed value, threshold key). *)
Definition checks (metrics : PerformanceMetrics) : list (string * Q * string) :=
  [ ("memory_usage_mb", memory_usage_mb metrics, "max_memory_mb");
    ("cpu_usage_percent", cpu_usage_percent metrics, "max_cpu_percent");
    ("inference_time_ms", inference_time_ms metrics, "max_inference_time_ms");
    ("error_rate", error_rate metrics, "max_error_rate") ].

(** [threshold and cond threshold]: the guard of both checks; a missing
    key ([.get] gives [None]) and a zero threshold are false. *)
Definition guarded (threshold : option Q) (cond : Q -> bool) : option Q :=
  match threshold with
  | Some t => if Num.truthy t && cond t then Some t else None
  | None => None
  end.

(** One iteration of the [for] loop of [_check_thresholds]. *)
Definition check_step (thresholds : gmap string Q) (metrics : PerformanceMetrics)
    (alerts : list Alert) (c : string * Q * string) : list Alert :=
  let '(metric_name, value, threshold_key) := c in
  match guarded (thresholds !! threshold_key) (fun t => Num.gtb value t) with
  | Some threshold =>
      alerts ++ [ {| a_type := "threshold_exceeded";
                     a_metric := metric_name;
                     a_value := value;
                     a_threshold := threshold;
                     a_model := model_name metrics;
                     a_timestamp := timestamp metrics;
                     a_severity :=
                       if Num.gtb value (Num.fmul threshold 1.5)
                       then "high" else "medium" |} ]
  | None => alerts
  end.

(** [PerformanceMonitor._check_thresholds]. *)
Definition check_thresholds (thresholds : gmap string Q)
    (metrics : PerformanceMetrics) : list Alert :=
  let alerts := fold_left (check_step thresholds metrics) (checks metrics) [] in
  match guarded (thresholds !! "min_throughput_tokens_per_sec")
                (fun t => Num.ltb (throughput_tokens_per_sec metrics) t) with
  | Some min_throughput =>
      alerts ++ [ {| a_type := "throughput_low";
                     a_metric := "throughput_tokens_per_sec";
                     a_value := throughput_tokens_per_sec metrics;
                     a_threshold := min_throughput;
                     a_model := model_name metrics;
                     a_timestamp := timestamp metrics;
                     a_severity := "medium" |} ]
  | None => alerts
  end.

(** ** PerformanceMonitor: state, tracking, trends *)

(** The state of a [MetricsCollector] object ([baseline_metrics] is never
    read or written and is left out). *)
Record MetricsCollector := {
  collection_history : list PerformanceMetrics
}.

(** The state of a [PerformanceMonitor] object. *)
Record PerformanceMonitor := {
  metrics_collector : MetricsCollector;
  performance_history : gmap string (list PerformanceMetrics);
  alerts : list Alert;
  thresholds : gmap string Q
}.

(** [PerformanceMonitor.__init__]. *)
Definition new_monitor : PerformanceMonitor :=
  {| metrics_collector := {| collection_history := [] |};
     performance_history := ∅;
     alerts := [];
     thresholds := default_thresholds |}.

(** [l[-k]] for [k >= 1]; [None] is [IndexError]. *)
Definition index_from_end {A} (l : list A) (k : nat) : option A :=
  if decide (k ≤ length l)%nat then l !! (length l - k)%nat else None.

(** The body of [_calculate_trends] once [history] is fetched. *)
Definition trends_of (history : list PerformanceMetrics)
    : option (list (string * string)) :=
  if decide (length history < 2)%nat then
    Some [ ("trend", "insufficient_data") ]
  else
    recent ← index_from_end history 1;
    previous ← index_from_end history 2;
    let memory_change :=
      Num.fsub (memory_usage_mb recent) (memory_usage_mb previous) in
    let memory :=
      if Num.gtb memory_change 10 then "increasing"
      else if Num.ltb memory_change (-10) then "decreasing"
      else "stable" in
    let cpu_change :=
      Num.fsub (cpu_usage_percent recent) (cpu_usage_percent previous) in
    let cpu :=
      if Num.gtb cpu_change 5 then "increasing"
      else if Num.ltb cpu_change (-5) then "decreasing"
      else "stable" in
    let time_change :=
      Num.fsub (inference_time_ms recent) (inference_time_ms previous) in
    let performance :=
      if Num.gtb time_change 50 then "degrading"
      else if Num.ltb time_change (-50) then "improving"
      else "stable" in
    Some [ ("memory", memory); ("cpu", cpu); ("performance", performance) ].

(** [PerformanceMonitor._calculate_trends]. *)
Definition calculate_trends (self : PerformanceMonitor) (model_name : string)
    : option (list (string * string)) :=
  trends_of (default [] (performance_history self !! model_name)).

(** The dictionary returned by [track_performance]. *)
Record TrackResult := {
  r_model_name : string;
  r_current_metrics : list (string * PyVal);
  r_alerts : list Alert;
  r_trends : list (string * string);
  r_status : string
}.

(** [PerformanceMonitor.track_performance]: the monitor after the call and
    the returned dictionary. *)
Definition track_performance (self : PerformanceMonitor) (model_name : string)
    (metrics : PerformanceMetrics) : option (PerformanceMonitor * TrackResult) :=
  let history0 :=
    match performance_history self !! model_name with
    | None => <[model_name := []]> (performance_history self)
    | Some _ => performance_history self
    end in
  let history1 := alter (fun h => h ++ [metrics]) model_name history0 in
  let new_alerts := check_thresholds (thresholds self) metrics in
  let self1 :=
    {| metrics_collector := metrics_collector self;
       performance_history := history1;
       alerts := alerts self ++ new_alerts;
       thresholds := thresholds self |} in
  trends ← calculate_trends self1 model_name;
  Some (self1,
        {| r_model_name := model_name;
           r_current_metrics := to_dict metrics;
           r_alerts := new_alerts;
           r_trends := trends;
           r_status := status metrics |}).

(** ** PerformanceMonitor: summaries *)

Record Averages := {
  avg_memory_usage_mb : Q;
  avg_cpu_usage_percent : Q;
  avg_inference_time_ms : Q;
  avg_throughput_tokens_per_sec : Q
}.

Record Summary := {
  s_model_name : string;
  s_latest_metrics : list (string * PyVal);
  s_averages : Averages;
  s_metrics_count : nat;
  s_alerts_count : nat;
  s_status : string
}.

(** What [get_model_summary] returns: the dictionary with the single key
    ["error"], or a summary. *)
Inductive SummaryResult :=
| SummaryError (message : string)
| SummaryOk (summary : Summary).

(** [len(l)] as a number. *)
Definition len {A} (l : list A) : Q := inject_Z (Z.of_nat (length l)).

(** [PerformanceMonitor.get_model_summary]. *)
Definition get_model_summary (self : PerformanceMonitor) (model_name : string)
    : option SummaryResult :=
  let history := default [] (performance_history self !! model_name) in
  if decide (history = []) then
    Some (SummaryError "No performance data available")
  else
    latest ← index_from_end history 1;
    avg_memory ← Num.py_div (Num.py_sum (memory_usage_mb <$> history)) (len history);
    avg_cpu ← Num.py_div (Num.py_sum (cpu_usage_percent <$> history)) (len history);
    avg_inference ← Num.py_div (Num.py_sum (inference_time_ms <$> history)) (len history);
    let total_throughput := Num.py_sum (throughput_tokens_per_sec <$> history) in
    avg_throughput ← Num.py_div total_throughput (len history);
    let model_alerts := filter (fun a => a_model a = model_name) (alerts self) in
    Some (SummaryOk
      {| s_model_name := model_name;
         s_latest_metrics := to_dict latest;
         s_averages :=
           {| avg_memory_usage_mb := avg_memory;
              avg_cpu_usage_percent := avg_cpu;
              avg_inference_time_ms := avg_inference;
              avg_throughput_tokens_per_sec := avg_throughput |};
         s_metrics_count := length history;
         s_alerts_count := length model_alerts;
         s_status := status latest |}).

Record Overview := {
  total_models_monitored : nat;
  total_metrics_collected : nat;
  total_alerts : nat;
  status_distribution : gmap string nat;
  monitoring_thresholds : gmap string Q
}.

(** One iteration of the status loop of [get_system_overview]: the guard
    [if history] and the index [history[-1]] together are [last]. *)
Definition count_status (history : list PerformanceMetrics)
    (status_counts : gmap string nat) : gmap string nat :=
  match last history with
  | Some latest =>
      <[status latest := (default 0 (status_counts !! status latest) + 1)%nat]>
        status_counts
  | None => status_counts
  end.

(** [PerformanceMonitor.get_system_overview]. *)
Definition get_system_overview (self : PerformanceMonitor) : Overview :=
  {| total_models_monitored := size (performance_history self);
     total_metrics_collected :=
       map_fold (fun _ history acc => (acc + length history)%nat) 0%nat
                (performance_history self);
     total_alerts := length (alerts self);
     status_distribution :=
       map_fold (fun _ history counts => count_status history counts) ∅
                (performance_history self);
     monitoring_thresholds := thresholds self |}.

(** ** MetricsCollector *)

(** What one call of [collect_metrics] obtains from outside the program. *)
Record Host := {
  (** [psutil.Process().memory_info().rss]; [None] when it raises *)
  rss : option Z;
  (** [psutil.cpu_percent(interval=0.1)]; [None] when it raises *)
  cpu_percent : option Q;
  (** [secrets.choice([True, False])] *)
  has_gpu : bool;
  (** [secrets.SystemRandom().uniform(20.0, 80.0)] *)
  gpu_draw : Q;
  (** [secrets.SystemRandom().uniform(0.0, 5.0)] *)
  error_draw : Q;
  (** [secrets.SystemRandom().random()] *)
  status_draw : Q;
  (** [datetime.now().isoformat()] *)
  now : string
}.

(** [MetricsCollector._get_memory_usage]. *)
Definition get_memory_usage (host : Host) : Q :=
  match rss host with
  | Some bytes => Num.fdiv (Num.fdiv (inject_Z bytes) 1024) 1024
  | None => 512.0%Q
  end.

(** [MetricsCollector._get_cpu_usage]. *)
Definition get_cpu_usage (host : Host) : Q :=
  match cpu_percent host with
  | Some percent => percent
  | None => 25.0%Q
  end.

(** [MetricsCollector._get_gpu_usage]. *)
Definition get_gpu_usage (host : Host) : option Q :=
  if has_gpu host then Some (gpu_draw host) else None.

(** Truth value of an optional number ([if model.size_mb]). *)
Definition opt_truthy (o : option Q) : bool :=
  match o with Some q => Num.truthy q | None => false end.

Definition task_multipliers : gmap string Q :=
  list_to_map
    [ ("text-generation", 2.0%Q);
      ("text-classification", 1.0%Q);
      ("question-answering", 1.5%Q);
      ("summarization", Num.float 1.8);
      ("translation", Num.float 1.6) ].

(** [MetricsCollector._simulate_inference_time]. *)
Definition simulate_inference_time (model : ModelInfo) : Q :=
  let base_time := 50.0%Q in
  let base_time :=
    match size_mb model with
    | Some size =>
        if Num.truthy size then
          let size_factor := Num.fdiv size 1000 in
          Num.fmul base_time (Num.fadd 1 (Num.fmul size_factor 0.5))
        else base_time
    | None => base_time
    end in
  let multiplier := default 1.0%Q (task_multipliers !! task_type model) in
  Num.fmul base_time multiplier.

Definition task_throughputs : gmap string Q :=
  list_to_map
    [ ("text-generation", 80.0%Q);
      ("text-classification", 200.0%Q);
      ("question-answering", 120.0%Q);
      ("summarization", 60.0%Q);
      ("translation", 90.0%Q) ].

(** [MetricsCollector._simulate_throughput]. *)
Definition simulate_throughput (model : ModelInfo) : Q :=
  let base_throughput := 100.0%Q in
  default base_throughput (task_throughputs !! task_type model).

(** [str.lower] on the ASCII letters; other characters are kept. *)
Definition lower_ascii (c : ascii) : ascii :=
  let n := nat_of_ascii c in
  if (65 <=? n)%nat && (n <=? 90)%nat then ascii_of_nat (n + 32) else c.

Fixpoint lower (s : string) : string :=
  match s with
  | EmptyString => EmptyString
  | String c s' => String (lower_ascii c) (lower s')
  end.

(** [pattern in s]: [pattern] occurs in [s] as a contiguous substring. *)
Fixpoint contains (pattern s : string) : bool :=
  String.prefix pattern s ||
  match s with
  | EmptyString => false
  | String _ s' => contains pattern s'
  end.

(** The dictionary [size_estimates], in the order of its literal, which is
    the order the [for] loop visits it. *)
Definition size_estimates : list (string * Q) :=
  [ ("bert-base", 440.0%Q);
    ("bert-large", 1340.0%Q);
    ("gpt2", 548.0%Q);
    ("distilbert", 268.0%Q);
    ("roberta-base", 498.0%Q);
    ("t5-small", 242.0%Q);
    ("t5-base", 892.0%Q) ].

(** The loop of [_estimate_model_size] over the remaining items. *)
Fixpoint estimate_loop (items : list (string * Q)) (lowered : string) : Q :=
  match items with
  | [] => 300.0%Q
  | (pattern, size) :: rest =>
      if contains pattern lowered then size else estimate_loop rest lowered
  end.

(** [MetricsCollector._estimate_model_size]. *)
Definition estimate_model_size (model : ModelInfo) : Q :=
  estimate_loop size_estimates (lower (name model)).

(** [MetricsCollector._simulate_error_rate]. *)
Definition simulate_error_rate (host : Host) : Q := error_draw host.

Definition statuses : list string := [ "healthy"; "warning"; "degraded" ].
Definition base_weights : list Q :=
  [ Num.float 0.8; Num.float 0.15; Num.float 0.05 ].
Definition complex_tasks : list string := [ "text-generation"; "summarization" ].

(** The weights of [_determine_status] before they are normalised; a
    [ModelInfo] always has the attribute [task_type]. *)
Definition adjusted_weights (model : ModelInfo) : list Q :=
  let weights := base_weights in
  let weights :=
    if opt_truthy (size_mb model) &&
       match size_mb model with Some size => Num.gtb size 1000 | None => false end
    then
      alter (fun w => Num.fadd w (Num.float 0.02)) 2%nat
        (alter (fun w => Num.fadd w (Num.float 0.08)) 1%nat
          (alter (fun w => Num.fsub w (Num.float 0.1)) 0%nat weights))
    else weights in
  if bool_decide (task_type model ∈ complex_tasks) then
    alter (fun w => Num.fadd w (Num.float 0.01)) 2%nat
      (alter (fun w => Num.fadd w (Num.float 0.04)) 1%nat
        (alter (fun w => Num.fsub w (Num.float 0.05)) 0%nat weights))
  else weights.

(** The selection loop of [_determine_status] from position [i] on, with
    the fallback [statuses[0]] after the loop. *)
Fixpoint select_status (random_value cumulative : Q) (i : nat) (weights : list Q)
    : option string :=
  match weights with
  | [] => statuses !! 0%nat
  | weight :: rest =>
      let cumulative := Num.fadd cumulative weight in
      if Num.leb random_value cumulative then statuses !! i
      else select_status random_value cumulative (S i) rest
  end.

(** [MetricsCollector._determine_status]. *)
Definition determine_status (host : Host) (model : ModelInfo) : option string :=
  let weights := adjusted_weights model in
  let total_weight := Num.py_sum weights in
  weights ← mapM (fun w => Num.py_div w total_weight) weights;
  select_status (status_draw host) 0 0 weights.

(** [model.size_mb or self._estimate_model_size(model)]. *)
Definition size_or_estimate (model : ModelInfo) : Q :=
  match size_mb model with
  | Some size => if Num.truthy size then size else estimate_model_size model
  | None => estimate_model_size model
  end.

(** [MetricsCollector.collect_metrics]: the sample and the collector after
    the call. *)
Definition collect_metrics (host : Host) (self : MetricsCollector)
    (model : ModelInfo) : option (PerformanceMetrics * MetricsCollector) :=
  status ← determine_status host model;
  let metrics :=
    {| model_name := name model;
       timestamp := now host;
       memory_usage_mb := get_memory_usage host;
       cpu_usage_percent := get_cpu_usage host;
       inference_time_ms := simulate_inference_time model;
       throughput_tokens_per_sec := simulate_throughput model;
       model_size_mb := size_or_estimate model;
       gpu_usage_percent := get_gpu_usage host;
       error_rate := simulate_error_rate host;
       status := status |} in
  Some (metrics,
        {| collection_history := collection_history self ++ [metrics] |}).

(** ** The threshold rule, as a relation between a sample, the thresholds
    and the alerts *)

(** The alerts for one upper-bounded metric: none unless the value is
    strictly above the threshold; then one, whose severity is high exactly
    when the value is strictly above one and a half times the threshold,
    the product being the float product. *)
Definition exceeded_rule (metrics : PerformanceMetrics) (metric : string)
    (value threshold : Q) (out : list Alert) : Prop :=
  ((value <= threshold)%Q -> out = []) /\
  ((threshold < value)%Q ->
     exists severity,
       out = [ {| a_type := "threshold_exceeded";
                  a_metric := metric;
                  a_value := value;
                  a_threshold := threshold;
                  a_model := model_name metrics;
                  a_timestamp := timestamp metrics;
                  a_severity := severity |} ] /\
       ((Num.fmul threshold 1.5 < value)%Q -> severity = "high") /\
       ((value <= Num.fmul threshold 1.5)%Q -> severity = "medium")).

(** The alerts for the throughput: none unless it is strictly below the
    minimum; then one of medium severity. *)
Definition throughput_rule (metrics : PerformanceMetrics) (threshold : Q)
    (out : list Alert) : Prop :=
  ((threshold <= throughput_tokens_per_sec metrics)%Q -> out = []) /\
  ((throughput_tokens_per_sec metrics < threshold)%Q ->
     out = [ {| a_type := "throughput_low";
                a_metric := "throughput_tokens_per_sec";
                a_value := throughput_tokens_per_sec metrics;
                a_threshold := threshold;
                a_model := model_name metrics;
                a_timestamp := timestamp metrics;
                a_severity := "medium" |} ]).

(** The five thresholds of a table in which all of them are set. *)
Record Limits := {
  max_memory_mb : Q;
  max_cpu_percent : Q;
  max_inference_time_ms : Q;
  max_error_rate : Q;
  min_throughput_tokens_per_sec : Q
}.

Definition has_limits (thresholds : gmap string Q) (l : Limits) : Prop :=
  thresholds !! "max_memory_mb" = Some (max_memory_mb l) /\
  thresholds !! "max_cpu_percent" = Some (max_cpu_percent l) /\
  thresholds !! "max_inference_time_ms" = Some (max_inference_time_ms l) /\
  thresholds !! "max_error_rate" = Some (max_error_rate l) /\
  thresholds !! "min_throughput_tokens_per_sec" =
    Some (min_throughput_tokens_per_sec l).

Definition nonzero_limits (l : Limits) : Prop :=
  ~ (max_memory_mb l == 0)%Q /\
  ~ (max_cpu_percent l == 0)%Q /\
  ~ (max_inference_time_ms l == 0)%Q /\
  ~ (max_error_rate l == 0)%Q /\
  ~ (min_throughput_tokens_per_sec l == 0)%Q.

(** The rule of the evaluator: the alerts of memory, cpu, inference time
    and error rate, then of the throughput, in this order. *)
Definition threshold_rule (l : Limits) (metrics : PerformanceMetrics)
    (out : list Alert) : Prop :=
  exists a_mem a_cpu a_time a_err a_thr,
    out = a_mem ++ a_cpu ++ a_time ++ a_err ++ a_thr /\
    exceeded_rule metrics "memory_usage_mb"
      (memory_usage_mb metrics) (max_memory_mb l) a_mem /\
    exceeded_rule metrics "cpu_usage_percent"
      (cpu_usage_percent metrics) (max_cpu_percent l) a_cpu /\
    exceeded_rule metrics "inference_time_ms"
      (inference_time_ms metrics) (max_inference_time_ms l) a_time /\
    exceeded_rule metrics "error_rate"
      (error_rate metrics) (max_error_rate l) a_err /\
    throughput_rule metrics (min_throughput_tokens_per_sec l) a_thr.

(** A sample with every metric at a given value. *)
Definition sample (model ts : string) (mem cpu time thr err : Q) (st : string)
    : PerformanceMetrics :=
  {| model_name := model; timestamp := ts;
     memory_usage_mb := mem; cpu_usage_percent := cpu;
     inference_time_ms := time; throughput_tokens_per_sec := thr;
     model_size_mb := 300; gpu_usage_percent := None;
     error_rate := err; status := st |}.

Definition default_limits : Limits :=
  {| max_memory_mb := 2048; max_cpu_percent := 80;
     max_inference_time_ms := 1000; max_error_rate := 10;
     min_throughput_tokens_per_sec := 50 |}.

(** A threshold is disabled in a table when its key is missing or its
    value is zero. *)
Definition disabled (thresholds : gmap string Q) (key : string) : Prop :=
  thresholds !! key = None \/
  exists t, thresholds !! key = Some t /\ (t == 0)%Q.

(** The default table with the memory threshold set to zero, and a sample
    that uses 5 MB of memory and violates no other threshold. *)
Definition zero_memory_thresholds : gmap string Q :=
  <["max_memory_mb" := 0%Q]> default_thresholds.

Definition zero_memory_limits : Limits :=
  {| max_memory_mb := 0; max_cpu_percent := 80;
     max_inference_time_ms := 1000; max_error_rate := 10;
     min_throughput_tokens_per_sec := 50 |}.

Definition quiet_sample : PerformanceMetrics :=
  sample "bert-base-uncased" "2024-01-01T00:00:00" 5 10 100 200 1 "healthy".

(** A sample that violates every default threshold. *)
Definition loud_sample : PerformanceMetrics :=
  sample "gpt2" "2024-01-01T00:00:00" 4000 90 1001 20 16 "degraded".

(** The default table with the error-rate threshold set to 0.1, and a
    sample whose error rate is 0.15000000000000002. *)
Definition tenth_error_thresholds : gmap string Q :=
  <["max_error_rate" := Num.float 0.1]> default_thresholds.

Definition error_sample : PerformanceMetrics :=
  sample "gpt2" "2024-01-01T00:00:00" 5 10 100 200
    (Num.float 0.15000000000000002) "healthy".

(** The rule for one upper-bounded metric under a threshold table: no
    alert when the threshold is disabled, the alerts of [exceeded_rule]
    when it is set and not zero. *)
Definition metric_rule (thresholds : gmap string Q)
    (metrics : PerformanceMetrics) (metric : string) (value : Q) (key : string)
    (out : list Alert) : Prop :=
  (disabled thresholds key -> out = []) /\
  (forall t, thresholds !! key = Some t -> ~ (t == 0)%Q ->
     exceeded_rule metrics metric value t out).

(** The same for the minimum throughput. *)
Definition floor_rule (thresholds : gmap string Q)
    (metrics : PerformanceMetrics) (out : list Alert) : Prop :=
  (disabled thresholds "min_throughput_tokens_per_sec" -> out = []) /\
  (forall t, thresholds !! "min_throughput_tokens_per_sec" = Some t ->
     ~ (t == 0)%Q -> throughput_rule metrics t out).

(** The rule of the evaluator for any table. *)
Definition guarded_threshold_rule (thresholds : gmap string Q)
    (metrics : PerformanceMetrics) (out : list Alert) : Prop :=
  exists a_mem a_cpu a_time a_err a_thr,
    out = a_mem ++ a_cpu ++ a_time ++ a_err ++ a_thr /\
    metric_rule thresholds metrics "memory_usage_mb"
      (memory_usage_mb metrics) "max_memory_mb" a_mem /\
    metric_rule thresholds metrics "cpu_usage_percent"
      (cpu_usage_percent metrics) "max_cpu_percent" a_cpu /\
    metric_rule thresholds metrics "inference_time_ms"
      (inference_time_ms metrics) "max_inference_time_ms" a_time /\
    metric_rule thresholds metrics "error_rate"
      (error_rate metrics) "max_error_rate" a_err /\
    floor_rule thresholds metrics a_thr.

(** The table of [zero_memory_thresholds] without a minimum throughput. *)
Definition no_floor_thresholds : gmap string Q :=
  delete "min_throughput_tokens_per_sec" zero_memory_thresholds.

(** ** The trend rule *)

(** The direction of one metric from the change [delta] between the two
    newest samples, with strict comparisons against [bound]. *)
Definition direction_rule (delta bound : Q) (up down : string) (out : string)
    : Prop :=
  ((bound < delta)%Q -> out = up) /\
  ((delta < - bound)%Q -> out = down) /\
  ((- bound <= delta)%Q -> (delta <= bound)%Q -> out = "stable").

Definition history_of (self : PerformanceMonitor) (model_name : string)
    : list PerformanceMetrics :=
  default [] (performance_history self !! model_name).

(** A monitor whose history of ["gpt2"] is the given list. *)
Definition monitor_with (history : list PerformanceMetrics) : PerformanceMonitor :=
  {| metrics_collector := {| collection_history := [] |};
     performance_history := {[ "gpt2" := history ]};
     alerts := [];
     thresholds := default_thresholds |}.

(** Samples of ["gpt2"] that differ in their memory use only. *)
Definition mem_sample (ts : string) (mem : Q) : PerformanceMetrics :=
  sample "gpt2" ts mem 10 100 80 1 "healthy".

(** Samples of ["gpt2"] that differ in their cpu use only. *)
Definition cpu_sample (ts : string) (cpu : Q) : PerformanceMetrics :=
  sample "gpt2" ts 100 cpu 100 80 1 "healthy".

(** ** Sequences of tracking calls *)

(** A caller that tracks one sample after the other (the loop of
    [Main.py]), collecting the returned dictionaries. *)
Fixpoint track_all (self : PerformanceMonitor)
    (calls : list (string * PerformanceMetrics))
    : option (PerformanceMonitor * list TrackResult) :=
  match calls with
  | [] => Some (self, [])
  | (model_name, metrics) :: rest =>
      step ← track_performance self model_name metrics;
      rest_run ← track_all step.1 rest;
      Some (rest_run.1, step.2 :: rest_run.2)
  end.

(** The samples that a sequence of calls tracks under a model name, in
    call order. *)
Definition samples_for (model : string)
    (calls : list (string * PerformanceMetrics)) : list PerformanceMetrics :=
  snd <$> filter (fun c => c.1 = model) calls.

(** The alerts of the evaluator for each call of a sequence, in call
    order. *)
Definition alerts_for (thresholds : gmap string Q)
    (calls : list (string * PerformanceMetrics)) : list (list Alert) :=
  (fun c => check_thresholds thresholds c.2) <$> calls.

(** ** Means and counts, as the summary is specified *)

(** The sum of a list of floats: the elements are added to [acc] one
    after the other, in list order. *)
Fixpoint total_from (acc : Q) (xs : list Q) : Q :=
  match xs with
  | [] => acc
  | x :: xs' => total_from (Num.fadd acc x) xs'
  end.

Definition total (xs : list Q) : Q := total_from 0%Q xs.

(** [a] is the arithmetic mean of the non-empty list [xs] of floats: their
    sum divided by their number. *)
Definition mean_of (xs : list Q) (a : Q) : Prop :=
  xs <> [] /\ a = Num.fdiv (total xs) (len xs).


(** The number of alerts of a log that carry the given model name. *)
Fixpoint count_model (model : string) (log : list Alert) : nat :=
  match log with
  | [] => 0
  | a :: log' =>
      ((if String.eqb (a_model a) model then 1 else 0) + count_model model log')%nat
  end.


(** A monitor whose history of ["gpt2"] has the memory readings 0.1, 0.2
    and 0.3. *)
Definition tenths_monitor : PerformanceMonitor :=
  monitor_with [ mem_sample "t0" (Num.float 0.1);
                 mem_sample "t1" (Num.float 0.2);
                 mem_sample "t2" (Num.float 0.3) ].

(** ** Reachable monitors *)

(** The monitors that a program can hold: a new one, changed by calls of
    [track_performance], by assignments to the attribute [thresholds], and
    by uses of the collector it owns. Nothing else writes the histories or
    the log. *)
Inductive reachable : PerformanceMonitor -> Prop :=
| reach_new : reachable new_monitor
| reach_track self model metrics self' result :
    reachable self ->
    track_performance self model metrics = Some (self', result) ->
    reachable self'
| reach_thresholds self table :
    reachable self ->
    reachable {| metrics_collector := metrics_collector self;
                 performance_history := performance_history self;
                 alerts := alerts self;
                 thresholds := table |}
| reach_collector self collector :
    reachable self ->
    reachable {| metrics_collector := collector;
                 performance_history := performance_history self;
                 alerts := alerts self;
                 thresholds := thresholds self |}.

(** The sum of the counts of a histogram. *)
Definition histogram_total (counts : gmap string nat) : nat :=
  map_fold (fun _ n acc => (n + acc)%nat) 0%nat counts.

(** The status of the last sample of a history. *)
Definition latest_status (history : list PerformanceMetrics) : option string :=
  status <$> last history.

(** The number of tracked models whose last sample has the status [st]. *)
Definition models_with_status (st : string)
    (histories : gmap string (list PerformanceMetrics)) : nat :=
  size (filter (fun kv => latest_status kv.2 = Some st) histories).

(** No stored history is empty. *)
Definition all_nonempty (histories : gmap string (list PerformanceMetrics))
    : Prop :=
  forall model h, histories !! model = Some h -> h <> [].

(** The three models of [Main.py], each tracked once on a new monitor. *)
Definition three_calls : list (string * PerformanceMetrics) :=
  [ ("bert-base-uncased",
     sample "bert-base-uncased" "t0" 512 25 50 200 1 "healthy");
    ("gpt2", sample "gpt2" "t1" 512 25 100 80 2 "warning");
    ("distilbert-base-uncased",
     sample "distilbert-base-uncased" "t2" 512 25 50 200 3 "healthy") ].

Definition three_models_monitor : PerformanceMonitor :=
  match track_all new_monitor three_calls with
  | Some run => run.1
  | None => new_monitor
  end.

(** ** The collector, as specified *)

(** The multiplier of a task type, by cases. *)
Definition task_multiplier (task : string) : Q :=
  if String.eqb task "text-generation" then 2.0%Q
  else if String.eqb task "text-classification" then 1.0%Q
  else if String.eqb task "question-answering" then 1.5%Q
  else if String.eqb task "summarization" then Num.float 1.8
  else if String.eqb task "translation" then Num.float 1.6
  else 1.0%Q.

(** The scaling by the declared size, [1 + (size_mb / 1000) * 0.5] in
    floats; nothing is scaled without one. *)
Definition size_scale (declared : option Q) : Q :=
  match declared with
  | Some size => Num.fadd 1 (Num.fmul (Num.fdiv size 1000) 0.5)
  | None => 1%Q
  end.

(** The inference time as specified: the base 50.0, times the scaling,
    times the multiplier of the task, as float products in this order. *)
Definition inference_time_rule (declared : option Q) (task : string) : Q :=
  Num.fmul (Num.fmul 50.0 (size_scale declared)) (task_multiplier task).

(** A descriptor of the [transformers] library. *)
Definition descriptor (model_name task : string) (declared : option Q)
    : ModelInfo :=
  {| name := model_name; task_type := task; library := "transformers";
     size_mb := declared; downloads := None; last_modified := None;
     tags := [] |}.

(** A host on which [psutil] fails, without GPU, with the given draw for
    the status. *)
Definition blind_host (draw : Q) : Host :=
  {| rss := None; cpu_percent := None; has_gpu := false; gpu_draw := 20%Q;
     error_draw := 1%Q; status_draw := draw; now := "2024-01-01T00:00:00" |}.

Definition new_collector : MetricsCollector := {| collection_history := [] |}.

(** [pattern] occurs in [s]: [s] is some text, then [pattern], then some
    text. *)
Definition occurs (pattern s : string) : Prop :=
  exists pre post, s = String.append pre (String.append pattern post).

(** The size estimate read as the spec words it, by the longest pattern
    of the table that occurs in the lower-cased name (the earlier one of
    two patterns of the same length), 300.0 when none occurs. *)
Definition longer (best : option (string * Q)) (entry : string * Q)
    : option (string * Q) :=
  match best with
  | Some b =>
      if (String.length b.1 <? String.length entry.1)%nat
      then Some entry else best
  | None => Some entry
  end.

Definition longest_match (lowered : string) : option (string * Q) :=
  fold_left
    (fun best entry => if contains entry.1 lowered then longer best entry else best)
    size_estimates None.

Definition estimate_by_longest_match (model_name : string) : Q :=
  match longest_match (lower model_name) with
  | Some entry => entry.2
  | None => 300.0%Q
  end.

(** The third model of [Main.py]. *)
Definition distilbert : ModelInfo :=
  descriptor "distilbert-base-uncased" "text-classification" None.

(** ** The status weights, as specified *)

(** The declared size exceeds 1000 MB. *)
Definition is_large (m : ModelInfo) : bool :=
  match size_mb m with
  | Some size => Num.gtb size 1000
  | None => false
  end.

(** The task type is text-generation or summarization. *)
Definition is_complex (m : ModelInfo) : bool :=
  String.eqb (task_type m) "text-generation" ||
  String.eqb (task_type m) "summarization".

Record Weights := {
  w_healthy : Q;
  w_warning : Q;
  w_degraded : Q
}.

(** The base weights. *)
Definition base : Weights :=
  {| w_healthy := Num.float 0.8;
     w_warning := Num.float 0.15;
     w_degraded := Num.float 0.05 |}.

(** A shift of [dh] from healthy, of [dw] to warning and of [dd] to
    degraded. *)
Definition shift (dh dw dd : Q) (w : Weights) : Weights :=
  {| w_healthy := Num.fsub (w_healthy w) dh;
     w_warning := Num.fadd (w_warning w) dw;
     w_degraded := Num.fadd (w_degraded w) dd |}.

(** The base weights with the shifts of the two adjustments. *)
Definition shifted (large complex : bool) : Weights :=
  let w := base in
  let w :=
    if large
    then shift (Num.float 0.10) (Num.float 0.08) (Num.float 0.02) w
    else w in
  if complex
  then shift (Num.float 0.05) (Num.float 0.04) (Num.float 0.01) w
  else w.

(** The sum of three weights as floats, and as numbers. *)
Definition weight_sum (w : Weights) : Q :=
  Num.fadd (Num.fadd (w_healthy w) (w_warning w)) (w_degraded w).


Definition renormalized (w : Weights) : Weights :=
  {| w_healthy := Num.fdiv (w_healthy w) (weight_sum w);
     w_warning := Num.fdiv (w_warning w) (weight_sum w);
     w_degraded := Num.fdiv (w_degraded w) (weight_sum w) |}.

Definition status_weights (m : ModelInfo) : Weights :=
  renormalized (shifted (is_large m) (is_complex m)).




(** * The rest of [performance.py] *)

(** [sum(1 for m in metrics_history if m.status == "healthy")]. *)
Definition count_healthy (metrics_history : list PerformanceMetrics) : nat :=
  length (filter (fun m => status m = "healthy") metrics_history).

(** [StatisticsCalculator.calculate_uptime_stats]; the returned dictionary
    is the list of its entries in insertion order. *)
Definition calculate_uptime_stats (metrics_history : list PerformanceMetrics)
    : option (list (string * Q)) :=
  if decide (metrics_history = []) then
    Some [ ("uptime_percentage", 0.0%Q) ]
  else
    let healthy_count := count_healthy metrics_history in
    ratio ← Num.py_div (inject_Z (Z.of_nat healthy_count)) (len metrics_history);
    let uptime_percentage := Num.fmul ratio 100 in
    Some [ ("uptime_percentage", uptime_percentage);
           ("total_measurements", len metrics_history);
           ("healthy_measurements", inject_Z (Z.of_nat healthy_count)) ].

(** An alert records a real violation: its value is strictly beyond the
    non-zero threshold it stores, and its severity follows from the two
    (the product of the threshold and 1.5 is the float product). *)
Definition alert_wf (a : Alert) : Prop :=
  ~ (a_threshold a == 0)%Q /\
  ((a_type a = "threshold_exceeded" /\
    (a_threshold a < a_value a)%Q /\
    (((Num.fmul (a_threshold a) 1.5 < a_value a)%Q /\ a_severity a = "high") \/
     ((a_value a <= Num.fmul (a_threshold a) 1.5)%Q /\
      a_severity a = "medium"))) \/
   (a_type a = "throughput_low" /\
    a_metric a = "throughput_tokens_per_sec" /\
    (a_value a < a_threshold a)%Q /\
    a_severity a = "medium")).

(** A history of 57 healthy samples followed by 43 degraded ones. *)
Definition mixed_history : list PerformanceMetrics :=
  replicate 57 quiet_sample ++ replicate 43 loud_sample.

(** The number of samples in all histories. *)
Definition sum_lengths (histories : gmap string (list PerformanceMetrics)) : nat :=
  map_fold (fun _ history acc => (acc + length history)%nat) 0%nat histories.

(** What holds of every alert raised for a sample. *)
Definition from_sample (metrics : PerformanceMetrics) (a : Alert) : Prop :=
  a_model a = model_name metrics /\
  a_timestamp a = timestamp metrics /\
  alert_wf a.

(** A new monitor after tracking [loud_sample]. *)
Definition loud_monitor : PerformanceMonitor :=
  match track_all new_monitor [("gpt2", loud_sample)] with
  | Some run => run.1
  | None => new_monitor
  end.

(** * [models.py] *)

(** Whitespace as [str.strip] sees it, among the ASCII characters: tab to
    carriage return, the four separators 28 to 31, and the space. *)
Definition is_space (c : ascii) : bool :=
  let n := nat_of_ascii c in
  ((9 <=? n)%nat && (n <=? 13)%nat) || ((28 <=? n)%nat && (n <=? 31)%nat) ||
  (n =? 32)%nat.

Fixpoint lstrip (s : string) : string :=
  match s with
  | EmptyString => EmptyString
  | String c s' => if is_space c then lstrip s' else s
  end.

Fixpoint rstrip (s : string) : string :=
  match s with
  | EmptyString => EmptyString
  | String c s' =>
      match rstrip s' with
      | EmptyString => if is_space c then EmptyString else String c EmptyString
      | r => String c r
      end
  end.

(** [str.strip]. *)
Definition strip (s : string) : string := rstrip (lstrip s).

(** [s.replace(old, new)] for single characters. *)
Fixpoint replace_char (old new : ascii) (s : string) : string :=
  match s with
  | EmptyString => EmptyString
  | String c s' =>
      String (if Ascii.eqb c old then new else c) (replace_char old new s')
  end.

(** [ModelInfo(...)]: the fields given to the constructor, changed by
    [__post_init__]. *)
Definition new_ModelInfo (n t l : string) (size : option Q) (count : option Z)
    (modified : option string) (labels : option (list string)) : ModelInfo :=
  {| name := strip (lower n);
     task_type :=
       if String.eqb t "" then t else replace_char " " "-" (lower t);
     library := l;
     size_mb := size;
     downloads := count;
     last_modified := modified;
     tags := default [] labels |}.

(** [ModelInfo.get_model_id]. *)
Definition get_model_id (m : ModelInfo) : string :=
  String.append (name m)
    (String.append "_"
      (String.append (task_type m) (String.append "_" (library m)))).

(** [ModelInfo.is_large_model]. *)
Definition is_large_model (m : ModelInfo) : bool :=
  match size_mb m with
  | None => false
  | Some size => Num.gtb size 1024
  end.

(** The keys of [ModelValidator.VALID_LIBRARIES]. *)
Definition VALID_LIBRARIES : list string :=
  [ "transformers"; "diffusers"; "sentence-transformers"; "timm" ].

(** The keys of [ModelValidator.VALID_TASK_TYPES]. *)
Definition VALID_TASK_TYPES : list string :=
  [ "text-classification"; "text-generation"; "question-answering";
    "summarization"; "translation"; "image-classification";
    "object-detection"; "text-to-image"; "image-to-text" ].

(** The character class [[a-zA-Z0-9\-_/]]. *)
Definition name_char (c : ascii) : bool :=
  let n := nat_of_ascii c in
  ((97 <=? n)%nat && (n <=? 122)%nat) || ((65 <=? n)%nat && (n <=? 90)%nat) ||
  ((48 <=? n)%nat && (n <=? 57)%nat) ||
  (n =? 45)%nat || (n =? 95)%nat || (n =? 47)%nat.

(** The rest of a match of [[a-zA-Z0-9\-_/]+$] after its first character:
    more characters of the class, then the end of the string or a line feed
    that ends the string (where [$] matches too). *)
Fixpoint name_rest (s : string) : bool :=
  match s with
  | EmptyString => true
  | String c s' =>
      if name_char c then name_rest s'
      else Ascii.eqb c "010" && String.eqb s' ""
  end.

(** [re.match(r"^[a-zA-Z0-9\-_/]+$", name)] succeeds. *)
Definition name_pattern (s : string) : bool :=
  match s with
  | EmptyString => false
  | String c s' => name_char c && name_rest s'
  end.

(** [ModelValidator._validate_model_name]. *)
Definition validate_model_name (n : string) : bool :=
  if String.eqb n "" then false
  else name_pattern n && (String.length n <=? 100)%nat.

(** [ModelValidator._validate_task_type]. *)
Definition validate_task_type (t : string) : bool :=
  if String.eqb t "" then false
  else bool_decide (lower t ∈ VALID_TASK_TYPES).

(** [ModelValidator._validate_library]. *)
Definition validate_library (l : string) : bool :=
  if String.eqb l "" then false
  else bool_decide (lower l ∈ VALID_LIBRARIES).

(** [ModelValidator._validate_size]. *)
Definition validate_size (size : Q) : bool := Num.gtb size 0.

(** [ModelValidator._validate_downloads]. *)
Definition validate_downloads (count : Z) : bool := (0 <=? count)%Z.

(** The messages of [validate_model], each as its kind and the value that
    the message text shows. *)
Inductive ValidationError :=
| InvalidModelName (n : string)
| InvalidTaskType (t : string)
| InvalidLibrary (l : string)
| InvalidSize (size : Q)
| InvalidDownloads (count : Z).

(** The state of a [ModelValidator]. *)
Record ModelValidator := {
  errors : list ValidationError
}.

(** [ModelValidator.validate_model]: the validator after the call and the
    returned flag. *)
Definition validate_model (self : ModelValidator) (m : ModelInfo)
    : ModelValidator * bool :=
  let errors0 : list ValidationError := [] in
  let errors1 :=
    if negb (validate_model_name (name m))
    then errors0 ++ [InvalidModelName (name m)] else errors0 in
  let errors2 :=
    if negb (validate_task_type (task_type m))
    then errors1 ++ [InvalidTaskType (task_type m)] else errors1 in
  let errors3 :=
    if negb (validate_library (library m))
    then errors2 ++ [InvalidLibrary (library m)] else errors2 in
  let errors4 :=
    match size_mb m with
    | Some size =>
        if negb (validate_size size) then errors3 ++ [InvalidSize size]
        else errors3
    | None => errors3
    end in
  let errors5 :=
    match downloads m with
    | Some count =>
        if negb (validate_downloads count)
        then errors4 ++ [InvalidDownloads count] else errors4
    | None => errors4
    end in
  ({| errors := errors5 |}, (length errors5 =? 0)%nat).

(** The dictionary returned by [compare_models]. *)
Record Comparison := {
  same_task : bool;
  same_library : bool;
  size_difference : option Q;
  download_difference : option Z
}.

(** [compare_models]. *)
Definition compare_models (model1 model2 : ModelInfo) : Comparison :=
  {| same_task := String.eqb (task_type model1) (task_type model2);
     same_library := String.eqb (library model1) (library model2);
     size_difference :=
       match size_mb model1, size_mb model2 with
       | Some size1, Some size2 =>
           if Num.truthy size1 && Num.truthy size2
           then Some (Qabs (Num.fsub size1 size2)) else None
       | _, _ => None
       end;
     download_difference :=
       match downloads model1, downloads model2 with
       | Some count1, Some count2 =>
           if negb (count1 =? 0)%Z && negb (count2 =? 0)%Z
           then Some (Z.abs (count1 - count2)) else None
       | _, _ => None
       end |}.

(** The character [c] occurs in [s]. *)
Fixpoint has_char (c : ascii) (s : string) : bool :=
  match s with
  | EmptyString => false
  | String x s' => Ascii.eqb x c || has_char c s'
  end.

(** * [model_manager.py]: the model manager *)

(** The state of a [ModelManager]: the dictionary [models] as the list of
    its items in insertion order, which is the order of its loops, and the
    dictionary [model_groups]. *)
Record ModelManager := {
  models : list (string * ModelInfo);
  model_groups : gmap string (list string)
}.

(** [ModelManager.__init__]. *)
Definition new_manager : ModelManager :=
  {| models := []; model_groups := ∅ |}.

(** [model_id in self.models]. *)
Definition has_model_id (self : ModelManager) (model_id : string) : bool :=
  bool_decide (model_id ∈ (models self).*1).

(** One block of [_update_groups]: create the group when it is missing,
    then append the identifier to it. *)
Definition group_add (groups : gmap string (list string))
    (group model_id : string) : gmap string (list string) :=
  let groups :=
    match groups !! group with
    | None => <[group := []]> groups
    | Some _ => groups
    end in
  alter (fun ids => ids ++ [model_id]) group groups.

(** [ModelManager._update_groups]. *)
Definition update_groups (self : ModelManager) (m : ModelInfo) : ModelManager :=
  let task_group := String.append "task_" (task_type m) in
  let groups := group_add (model_groups self) task_group (get_model_id m) in
  let lib_group := String.append "library_" (library m) in
  let groups := group_add groups lib_group (get_model_id m) in
  {| models := models self; model_groups := groups |}.

(** [ModelManager.add_model]: the manager after the call and the returned
    flag. *)
Definition add_model (self : ModelManager) (m : ModelInfo)
    : ModelManager * bool :=
  let model_id := get_model_id m in
  if has_model_id self model_id then (self, false)
  else
    (update_groups
       {| models := models self ++ [(model_id, m)];
          model_groups := model_groups self |} m,
     true).

(** The condition of [_cleanup_groups] for a group to be deleted. *)
Definition is_empty_group (self : ModelManager) (ids : list string) : bool :=
  bool_decide (ids = []) ||
  negb (existsb (fun mid => has_model_id self mid) ids).

(** [ModelManager._cleanup_groups]. *)
Definition cleanup_groups (self : ModelManager) : ModelManager :=
  {| models := models self;
     model_groups :=
       filter (fun kv => is_empty_group self kv.2 = false) (model_groups self) |}.

(** The loop of [remove_model] and of [get_model]: the first item whose
    model has the given name. *)
Definition find_by_name (self : ModelManager) (model_name : string)
    : option (string * ModelInfo) :=
  List.find (fun kv => String.eqb (name kv.2) model_name) (models self).

(** [ModelManager.remove_model]: the manager after the call and the
    returned flag. *)
Definition remove_model (self : ModelManager) (model_name : string)
    : ModelManager * bool :=
  match fst <$> find_by_name self model_name with
  | Some model_id =>
      if String.eqb model_id "" then (self, false)
      else
        (cleanup_groups
           {| models := filter (fun kv => kv.1 <> model_id) (models self);
              model_groups := model_groups self |},
         true)
  | None => (self, false)
  end.

(** [ModelManager.get_model]. *)
Definition get_model (self : ModelManager) (model_name : string)
    : option ModelInfo :=
  snd <$> find_by_name self model_name.

(** [ModelManager.get_all_models]. *)
Definition get_all_models (self : ModelManager) : list ModelInfo :=
  (models self).*2.

(** [ModelManager.get_models_by_task]. *)
Definition get_models_by_task (self : ModelManager) (task : string)
    : list ModelInfo :=
  filter (fun m => task_type m = lower task) (get_all_models self).

(** [ModelManager.get_models_by_library]. *)
Definition get_models_by_library (self : ModelManager) (lib : string)
    : list ModelInfo :=
  filter (fun m => library m = lower lib) (get_all_models self).

(** [counts[key] = counts.get(key, 0) + 1]. *)
Definition count_key (key : string) (counts : gmap string nat) : gmap string nat :=
  <[key := (default 0 (counts !! key) + 1)%nat]> counts.

(** The four accumulators of the loop of [get_statistics]. *)
Record StatLoop := {
  task_counts : gmap string nat;
  library_counts : gmap string nat;
  total_size : Q;
  large_models : nat
}.

(** One iteration of the loop of [get_statistics]. *)
Definition stat_step (acc : StatLoop) (m : ModelInfo) : StatLoop :=
  let sized := opt_truthy (size_mb m) in
  {| task_counts := count_key (task_type m) (task_counts acc);
     library_counts := count_key (library m) (library_counts acc);
     total_size :=
       match size_mb m with
       | Some size => if sized then Num.fadd (total_size acc) size else total_size acc
       | None => total_size acc
       end;
     large_models :=
       if sized && is_large_model m then (large_models acc + 1)%nat
       else large_models acc |}.

Record Statistics := {
  total_models : nat;
  task_distribution : gmap string nat;
  library_distribution : gmap string nat;
  total_size_mb : Q;
  average_size_mb : Q;
  large_models_count : nat
}.

(** What [get_statistics] returns: the dictionary with the single entry
    [total_models], or the full statistics. *)
Inductive StatisticsResult :=
| NoModels (total : nat)
| SomeModels (statistics : Statistics).

(** [ModelManager.get_statistics]. *)
Definition get_statistics (self : ModelManager) : option StatisticsResult :=
  let all := get_all_models self in
  if decide (all = []) then Some (NoModels 0)
  else
    let acc :=
      fold_left stat_step all
        {| task_counts := ∅; library_counts := ∅; total_size := 0;
           large_models := 0 |} in
    average ←
      (if decide (all = []) then Some 0%Q
       else Num.py_div (total_size acc) (len all));
    Some (SomeModels
      {| total_models := length all;
         task_distribution := task_counts acc;
         library_distribution := library_counts acc;
         total_size_mb := total_size acc;
         average_size_mb := average;
         large_models_count := large_models acc |}).

(** The declared sizes that count for the statistics: those that are not
    zero, in the order of the descriptors. *)
Definition declared_sizes (ms : list ModelInfo) : list Q :=
  omap (fun m => match size_mb m with
                 | Some size => if Num.truthy size then Some size else None
                 | None => None
                 end) ms.

(** One iteration of the loop of [bulk_add_models]. *)
Definition bulk_step (state : ModelManager * gmap string bool) (m : ModelInfo)
    : ModelManager * gmap string bool :=
  let added := add_model state.1 m in
  (added.1, <[name m := added.2]> state.2).

(** [bulk_add_models]: the manager after the call and the returned
    dictionary. *)
Definition bulk_add_models (manager : ModelManager) (ms : list ModelInfo)
    : ModelManager * gmap string bool :=
  fold_left bulk_step ms (manager, ∅).

(** [search_models]. *)
Definition search_models (manager : ModelManager) (query : string)
    : list ModelInfo :=
  let query_lower := lower query in
  filter
    (fun m =>
       contains query_lower (lower (name m)) ||
       contains query_lower (lower (task_type m)) ||
       contains query_lower (lower (library m)) = true)
    (get_all_models manager).

(** ** Managers that a program can hold *)

(** A new manager, changed by [add_model] and [remove_model]; the
    descriptors it holds are not changed after they are added. *)
Inductive reachable_manager : ModelManager -> Prop :=
| reach_new_manager : reachable_manager new_manager
| reach_add self m :
    reachable_manager self -> reachable_manager (add_model self m).1
| reach_remove self model_name :
    reachable_manager self -> reachable_manager (remove_model self model_name).1.

(** The invariant of the manager: identifiers are not repeated and are
    those of the descriptors they map to, every descriptor is listed in its
    task group and in its library group, and every group lists a managed
    descriptor. *)
Definition manager_wf (self : ModelManager) : Prop :=
  NoDup (models self).*1 /\
  (forall model_id m, (model_id, m) ∈ models self -> model_id = get_model_id m) /\
  (forall model_id m, (model_id, m) ∈ models self ->
     (exists ids, model_groups self !! String.append "task_" (task_type m) = Some ids /\
                  model_id ∈ ids) /\
     (exists ids, model_groups self !! String.append "library_" (library m) = Some ids /\
                  model_id ∈ ids)) /\
  (forall group ids, model_groups self !! group = Some ids ->
     exists model_id, model_id ∈ ids /\ model_id ∈ (models self).*1).

(** The three descriptors of [Main.py]. *)
Definition main_models : list ModelInfo :=
  [ new_ModelInfo "bert-base-uncased" "text-classification" "transformers"
      None None None None;
    new_ModelInfo "gpt2" "text-generation" "transformers" None None None None;
    new_ModelInfo "distilbert-base-uncased" "text-classification" "transformers"
      None None None None ].

(** The manager of [Main.py] after its three calls of [add_model]. *)
Definition main_manager : ModelManager :=
  (add_model
     (add_model
        (add_model new_manager
           (new_ModelInfo "bert-base-uncased" "text-classification"
              "transformers" None None None None)).1
        (new_ModelInfo "gpt2" "text-generation" "transformers"
           None None None None)).1
     (new_ModelInfo "distilbert-base-uncased" "text-classification"
        "transformers" None None None None)).1.

(** A descriptor that [Main.py] does not manage. *)
Definition t5_small : ModelInfo :=
  new_ModelInfo "t5-small" "translation" "transformers" (Some 242%Q) None None None.

(** * Properties *)

(** ** Facts about the numeric primitives *)

Module NumFacts.

Import Num.

Lemma gtb_spec a b : gtb a b = true <-> (b < a)%Q.
Proof.
  unfold gtb. rewrite negb_true_iff.
  destruct (Qle_bool a b) eqn:E.
  - apply Qle_bool_iff in E. split; [discriminate|].
    intros H. exfalso. apply (Qlt_not_le _ _ H E).
  - split; [intros _|reflexivity].
    apply Qnot_le_lt. intros H. apply Qle_bool_iff in H. congruence.
Qed.

Lemma gtb_false a b : gtb a b = false <-> (a <= b)%Q.
Proof.
  unfold gtb. rewrite negb_false_iff. apply Qle_bool_iff.
Qed.

Lemma ltb_spec a b : ltb a b = true <-> (a < b)%Q.
Proof. apply (gtb_spec b a). Qed.

Lemma ltb_false a b : ltb a b = false <-> (b <= a)%Q.
Proof. apply (gtb_false b a). Qed.

Lemma leb_spec a b : leb a b = true <-> (a <= b)%Q.
Proof. apply Qle_bool_iff. Qed.


Lemma truthy_spec a : truthy a = true <-> ~ (a == 0)%Q.
Proof.
  unfold truthy. rewrite negb_true_iff. split.
  - intros H. apply Qeq_bool_neq. exact H.
  - intros H. destruct (Qeq_bool a 0) eqn:E; [|reflexivity].
    apply Qeq_bool_iff in E. contradiction.
Qed.

Lemma truthy_false a : truthy a = false <-> (a == 0)%Q.
Proof.
  unfold truthy. rewrite negb_false_iff. apply Qeq_bool_iff.
Qed.

Lemma py_div_Some a b : ~ (b == 0)%Q -> py_div a b = Some (fdiv a b).
Proof.
  intros H. unfold py_div.
  destruct (Qeq_bool b 0) eqn:E; [|reflexivity].
  apply Qeq_bool_iff in E. contradiction.
Qed.

(** Rounding depends on the value only, not on the fraction that
    denotes it. *)
Lemma fround_eq x y : (x == y)%Q -> fround x = fround y.
Proof.
  intros H. unfold fround. rewrite (Qred_complete x y H). reflexivity.
Qed.

Lemma fadd_eq a b a' b' : (a == a')%Q -> (b == b')%Q -> fadd a b = fadd a' b'.
Proof. intros Ha Hb. apply fround_eq. rewrite Ha, Hb. reflexivity. Qed.

Lemma fsub_eq a b a' b' : (a == a')%Q -> (b == b')%Q -> fsub a b = fsub a' b'.
Proof. intros Ha Hb. apply fround_eq. rewrite Ha, Hb. reflexivity. Qed.

Lemma fmul_eq a b a' b' : (a == a')%Q -> (b == b')%Q -> fmul a b = fmul a' b'.
Proof. intros Ha Hb. apply fround_eq. rewrite Ha, Hb. reflexivity. Qed.

Lemma fdiv_eq a b a' b' : (a == a')%Q -> (b == b')%Q -> fdiv a b = fdiv a' b'.
Proof. intros Ha Hb. apply fround_eq. rewrite Ha, Hb. reflexivity. Qed.



End NumFacts.

(** ** Rounding to binary64 *)

Module Binary64.

Import Num.

Local Open Scope Q_scope.

(** Powers of two *)

Lemma pow2_Qpower e : pow2 e == 2 ^ e.
Proof.
  unfold pow2. destruct (Z.leb_spec 0 e) as [H|H].
  - rewrite Zpower_Qpower by assumption. reflexivity.
  - replace e with (- (- e))%Z at 2 by lia. rewrite Qpower_opp.
    change 2 with (inject_Z 2). rewrite <- Zpower_Qpower by lia.
    assert (Hp : (0 < 2 ^ (- e))%Z) by (apply Z.pow_pos_nonneg; lia).
    destruct (2 ^ (- e))%Z as [|p|p]; try lia. reflexivity.
Qed.

Lemma pow2_pos e : 0 < pow2 e.
Proof.
  unfold pow2. destruct (Z.leb_spec 0 e) as [H|H]; [|reflexivity].
  assert (Hp : (0 < 2 ^ e)%Z) by (apply Z.pow_pos_nonneg; lia).
  unfold Qlt. cbn. lia.
Qed.

Lemma pow2_add a b : pow2 (a + b) == pow2 a * pow2 b.
Proof.
  rewrite !pow2_Qpower. apply Qpower_plus. discriminate.
Qed.

Lemma pow2_le a b : (a <= b)%Z -> pow2 a <= pow2 b.
Proof.
  intros H. rewrite !pow2_Qpower. apply Qpower_le_compat_l; [exact H|].
  discriminate.
Qed.

Lemma pow2_nonneg_inject e : (0 <= e)%Z -> pow2 e = inject_Z (2 ^ e).
Proof.
  intros H. unfold pow2. destruct (Z.leb_spec 0 e); [reflexivity|lia].
Qed.

(** Rounding to the nearest integer is monotone *)

Lemma rne_mono (p q : Q) : p <= q -> (rne p <= rne q)%Z.
Proof.
  destruct p as [n d], q as [n' d']. unfold Qle, rne. cbn [Qnum Qden].
  intros H.
  assert (Hd : (0 < Z.pos d)%Z) by lia. assert (Hd' : (0 < Z.pos d')%Z) by lia.
  generalize dependent (Z.pos d). generalize dependent (Z.pos d').
  clear d d'. intros d' Hd' d H Hd.
  pose proof (Z.div_mod n d ltac:(lia)) as E.
  pose proof (Z.mod_pos_bound n d ltac:(lia)) as B.
  pose proof (Z.div_mod n' d' ltac:(lia)) as E'.
  pose proof (Z.mod_pos_bound n' d' ltac:(lia)) as B'.
  set (f := (n / d)%Z) in *. set (r := (n mod d)%Z) in *.
  set (f' := (n' / d')%Z) in *. set (r' := (n' mod d')%Z) in *.
  clearbody f r f' r'. subst n n'.
  assert (Hdd : (0 < d * d')%Z) by nia.
  assert (Hr1 : (0 <= r * d')%Z) by nia.
  assert (Hr2 : (r' * d < d * d')%Z) by nia.
  assert (Hr3 : (0 <= r' * d)%Z) by nia.
  assert (Hr4 : (r * d' < d * d')%Z) by nia.
  assert (Hm : (d * d' * f + r * d' <= d * d' * f' + r' * d)%Z) by lia.
  assert (Hf : (f <= f')%Z).
  { destruct (Z.le_gt_cases f f') as [L|L]; [exact L|exfalso].
    assert (d * d' * (f' + 1) <= d * d' * f)%Z
      by (apply Z.mul_le_mono_nonneg_l; lia).
    lia. }
  destruct (Z.eq_dec f f') as [Heq|Hne].
  - subst f'. assert (Hr : (r * d' <= r' * d)%Z) by lia.
    destruct (Z.compare_spec (2 * r) d) as [C|C|C];
      destruct (Z.compare_spec (2 * r') d') as [C'|C'|C'];
      destruct (Z.even f); try lia; exfalso; nia.
  - assert (f + 1 <= f')%Z by lia.
    destruct (Z.compare_spec (2 * r) d) as [C|C|C];
      destruct (Z.compare_spec (2 * r') d') as [C'|C'|C'];
      destruct (Z.even f); destruct (Z.even f'); lia.
Qed.

Lemma rne_inject (z : Z) : rne (inject_Z z) = z.
Proof.
  unfold rne, inject_Z. cbn [Qnum Qden].
  rewrite Z.div_1_r, Z.mod_1_r. reflexivity.
Qed.

(** The exponent of a positive number *)

Lemma Qmake_mult_den (n : Z) (d : positive) :
  (n # d) * inject_Z (Z.pos d) == inject_Z n.
Proof. unfold Qeq. cbn. lia. Qed.

Lemma ilog2_spec (a : Q) :
  0 < a -> pow2 (ilog2 a) <= a /\ a < pow2 (ilog2 a + 1).
Proof.
  intros Ha. destruct a as [n d].
  assert (Hn : (0 < n)%Z) by (unfold Qlt in Ha; cbn in Ha; lia).
  unfold ilog2. cbn [Qnum Qden].
  set (p := Z.log2 n). set (q := Z.log2 (Z.pos d)).
  pose proof (Z.log2_spec n Hn) as [Hp1 Hp2].
  pose proof (Z.log2_spec (Z.pos d) ltac:(lia)) as [Hq1 Hq2].
  fold p in Hp1, Hp2. fold q in Hq1, Hq2.
  pose proof (Z.log2_nonneg n) as Hp0. pose proof (Z.log2_nonneg (Z.pos d)) as Hq0.
  fold p in Hp0. fold q in Hq0.
  assert (N1 : pow2 p <= inject_Z n).
  { rewrite pow2_nonneg_inject by lia. rewrite <- Zle_Qle. exact Hp1. }
  assert (N2 : inject_Z n < pow2 (p + 1)).
  { rewrite pow2_nonneg_inject by lia. rewrite <- Zlt_Qlt. exact Hp2. }
  assert (D1 : pow2 q <= inject_Z (Z.pos d)).
  { rewrite pow2_nonneg_inject by lia. rewrite <- Zle_Qle. exact Hq1. }
  assert (D2 : inject_Z (Z.pos d) < pow2 (q + 1)).
  { rewrite pow2_nonneg_inject by lia. rewrite <- Zlt_Qlt. exact Hq2. }
  pose proof (Qmake_mult_den n d) as Ea.
  set (a := n # d) in *. set (N := inject_Z n) in *.
  set (D := inject_Z (Z.pos d)) in *.
  pose proof (pow2_pos q) as Yq.
  destruct (Qle_bool (pow2 (p - q)) a) eqn:L.
  - apply Qle_bool_iff in L. split; [exact L|].
    pose proof (pow2_add (p - q + 1) q) as A.
    replace (p - q + 1 + q)%Z with (p + 1)%Z in A by lia.
    pose proof (pow2_pos (p - q + 1)) as X.
    apply Qnot_le_lt. intros C. nra.
  - assert (L' : a < pow2 (p - q)).
    { apply Qnot_le_lt. intros C. apply Qle_bool_iff in C. congruence. }
    replace (p - q - 1 + 1)%Z with (p - q)%Z by lia.
    split; [|exact L'].
    pose proof (pow2_add (p - q - 1) (q + 1)) as A.
    replace (p - q - 1 + (q + 1))%Z with p in A by lia.
    pose proof (pow2_pos (p - q - 1)) as X.
    apply Qnot_lt_le. intros C. nra.
Qed.

Lemma ilog2_mono (a b : Q) : 0 < a -> a <= b -> (ilog2 a <= ilog2 b)%Z.
Proof.
  intros Ha Hab.
  destruct (ilog2_spec a Ha) as [A1 _].
  destruct (ilog2_spec b ltac:(lra)) as [_ B2].
  destruct (Z.le_gt_cases (ilog2 a) (ilog2 b)) as [L|L]; [exact L|exfalso].
  pose proof (pow2_le (ilog2 b + 1) (ilog2 a) ltac:(lia)). lra.
Qed.

Lemma expo_mono (a b : Q) : 0 < a -> a <= b -> (expo a <= expo b)%Z.
Proof.
  intros Ha Hab. pose proof (ilog2_mono a b Ha Hab). unfold expo. lia.
Qed.

(** Rounding a positive number *)

Lemma round_pos_upper (a : Q) :
  0 < a -> round_pos a <= pow2 (expo a + 53).
Proof.
  intros Ha. unfold round_pos.
  destruct (ilog2_spec a Ha) as [_ A2].
  pose proof (pow2_pos (expo a)) as E.
  assert (H : a / pow2 (expo a) <= inject_Z (2 ^ 53)).
  { rewrite <- (pow2_nonneg_inject 53) by lia.
    apply Qle_shift_div_r; [exact E|].
    rewrite <- pow2_add.
    pose proof (pow2_le (ilog2 a + 1) (53 + expo a) ltac:(unfold expo; lia)).
    lra. }
  apply rne_mono in H. rewrite rne_inject in H.
  rewrite (Z.add_comm (expo a) 53), pow2_add.
  rewrite (pow2_nonneg_inject 53) by lia.
  apply Qmult_le_compat_r; [|lra].
  rewrite <- Zle_Qle. exact H.
Qed.

Lemma round_pos_lower (a : Q) :
  0 < a -> (-1074 < expo a)%Z -> pow2 (expo a + 52) <= round_pos a.
Proof.
  intros Ha He. unfold round_pos.
  destruct (ilog2_spec a Ha) as [A1 _].
  pose proof (pow2_pos (expo a)) as E.
  assert (Hk : (expo a = ilog2 a - 52)%Z) by (unfold expo in *; lia).
  assert (H : inject_Z (2 ^ 52) <= a / pow2 (expo a)).
  { rewrite <- (pow2_nonneg_inject 52) by lia.
    apply Qle_shift_div_l; [exact E|].
    rewrite <- pow2_add.
    replace (52 + expo a)%Z with (ilog2 a) by lia. exact A1. }
  apply rne_mono in H. rewrite rne_inject in H.
  rewrite (Z.add_comm (expo a) 52), pow2_add.
  rewrite (pow2_nonneg_inject 52) by lia.
  apply Qmult_le_compat_r; [|lra].
  rewrite <- Zle_Qle. exact H.
Qed.

Lemma round_pos_nonneg (a : Q) : 0 <= a -> 0 <= round_pos a.
Proof.
  intros Ha. unfold round_pos. pose proof (pow2_pos (expo a)) as E.
  assert (H : inject_Z 0 <= a / pow2 (expo a)).
  { apply Qle_shift_div_l; [exact E|]. change (inject_Z 0) with 0. lra. }
  apply rne_mono in H. rewrite rne_inject in H.
  apply Qmult_le_0_compat; [|lra].
  change 0 with (inject_Z 0). rewrite <- Zle_Qle. exact H.
Qed.

Lemma round_pos_mono (a b : Q) :
  0 < a -> a <= b -> round_pos a <= round_pos b.
Proof.
  intros Ha Hab. assert (Hb : 0 < b) by lra.
  pose proof (expo_mono a b Ha Hab) as He.
  destruct (Z.eq_dec (expo a) (expo b)) as [E|E].
  - unfold round_pos. rewrite E. pose proof (pow2_pos (expo b)) as P.
    apply Qmult_le_compat_r; [|lra].
    rewrite <- Zle_Qle. apply rne_mono.
    apply Qle_shift_div_l; [exact P|].
    unfold Qdiv. rewrite <- Qmult_assoc, (Qmult_comm (/ _)), Qmult_inv_r; lra.
  - pose proof (round_pos_upper a Ha) as U.
    pose proof (round_pos_lower b Hb ltac:(unfold expo in *; lia)) as L.
    pose proof (pow2_le (expo a + 53) (expo b + 52) ltac:(lia)). lra.
Qed.

(** Rounding to a double *)

Lemma fround_zero (x : Q) : x == 0 -> fround x = 0.
Proof.
  intros H. unfold fround.
  assert (E : Qeq_bool (Qred x) 0 = true).
  { apply Qeq_bool_iff. rewrite Qred_correct. exact H. }
  rewrite E. reflexivity.
Qed.

Lemma fround_pos (x : Q) :
  0 < x -> fround x == round_pos (Qabs (Qred x)).
Proof.
  intros H. unfold fround.
  assert (E : Qeq_bool (Qred x) 0 = false).
  { destruct (Qeq_bool (Qred x) 0) eqn:E; [|reflexivity].
    apply Qeq_bool_iff in E. rewrite Qred_correct in E. lra. }
  assert (L : Qle_bool 0 (Qred x) = true).
  { apply Qle_bool_iff. rewrite Qred_correct. lra. }
  rewrite E, L. apply Qred_correct.
Qed.

Lemma fround_neg (x : Q) :
  x < 0 -> fround x == - round_pos (Qabs (Qred x)).
Proof.
  intros H. unfold fround.
  assert (E : Qeq_bool (Qred x) 0 = false).
  { destruct (Qeq_bool (Qred x) 0) eqn:E; [|reflexivity].
    apply Qeq_bool_iff in E. rewrite Qred_correct in E. lra. }
  assert (L : Qle_bool 0 (Qred x) = false).
  { destruct (Qle_bool 0 (Qred x)) eqn:L; [|reflexivity].
    apply Qle_bool_iff in L. rewrite Qred_correct in L. lra. }
  rewrite E, L. rewrite !Qred_correct. reflexivity.
Qed.

Lemma Qabs_Qred_pos (x : Q) : 0 < x -> Qabs (Qred x) == x.
Proof.
  intros H. rewrite Qabs_pos; rewrite Qred_correct; lra.
Qed.

Lemma Qabs_Qred_neg (x : Q) : x < 0 -> Qabs (Qred x) == - x.
Proof.
  intros H. rewrite Qabs_neg; rewrite Qred_correct; lra.
Qed.

(** Rounding is monotone. *)
Lemma fround_mono (x y : Q) : x <= y -> fround x <= fround y.
Proof.
  intros H.
  destruct (Q_dec x 0) as [[Hx|Hx]|Hx], (Q_dec y 0) as [[Hy|Hy]|Hy];
    try (exfalso; lra).
  - rewrite (fround_neg x Hx), (fround_neg y Hy).
    pose proof (Qabs_Qred_neg x Hx) as Ex. pose proof (Qabs_Qred_neg y Hy) as Ey.
    assert (M : round_pos (Qabs (Qred y)) <= round_pos (Qabs (Qred x)))
      by (apply round_pos_mono; lra).
    lra.
  - rewrite (fround_neg x Hx), (fround_pos y Hy).
    pose proof (round_pos_nonneg (Qabs (Qred x)) (Qabs_nonneg _)).
    pose proof (round_pos_nonneg (Qabs (Qred y)) (Qabs_nonneg _)).
    lra.
  - rewrite (fround_neg x Hx), (fround_zero y Hy).
    pose proof (round_pos_nonneg (Qabs (Qred x)) (Qabs_nonneg _)). lra.
  - rewrite (fround_pos x Hx), (fround_pos y Hy).
    pose proof (Qabs_Qred_pos x Hx) as Ex. pose proof (Qabs_Qred_pos y Hy) as Ey.
    apply round_pos_mono; lra.
  - rewrite (fround_zero x Hx), (fround_pos y Hy).
    apply round_pos_nonneg, Qabs_nonneg.
  - rewrite (fround_zero x Hx), (fround_zero y Hy). lra.
Qed.

(** Rounding goes to a nearest double *)

Lemma rne_nearest (q : Q) : Qabs (inject_Z (rne q) - q) <= 1 # 2.
Proof.
  apply Qabs_Qle_condition.
  destruct q as [n d]. unfold rne. cbn [Qnum Qden].
  pose proof (Z.div_mod n (Z.pos d) ltac:(lia)) as E.
  pose proof (Z.mod_pos_bound n (Z.pos d) ltac:(lia)) as B.
  set (f := (n / Z.pos d)%Z) in *. set (r := (n mod Z.pos d)%Z) in *.
  clearbody f r.
  assert (H : forall m : Z,
            (2 * Z.pos d * m - 2 * n <= Z.pos d)%Z ->
            (- Z.pos d <= 2 * Z.pos d * m - 2 * n)%Z ->
            - (1 # 2) <= inject_Z m - (n # d) <= 1 # 2).
  { intros m H1 H2. unfold Qle, Qminus, Qplus, Qopp, inject_Z.
    cbn [Qnum Qden]. split; lia. }
  destruct (Z.compare_spec (2 * r) (Z.pos d)) as [C|C|C];
    [destruct (Z.even f)| |]; apply H; nia.
Qed.

Lemma round_pos_nearest (a : Q) :
  Qabs (round_pos a - a) <= pow2 (expo a) * (1 # 2).
Proof.
  unfold round_pos. pose proof (pow2_pos (expo a)) as P.
  pose proof (rne_nearest (a / pow2 (expo a))) as N.
  set (m := inject_Z (rne (a / pow2 (expo a)))) in *.
  assert (E : m * pow2 (expo a) - a == (m - a / pow2 (expo a)) * pow2 (expo a))
    by (field; lra).
  rewrite E, Qabs_Qmult, (Qabs_pos (pow2 (expo a))) by lra.
  rewrite (Qmult_comm (pow2 (expo a))).
  apply Qmult_le_compat_r; [exact N|lra].
Qed.

(** The error of rounding a number that is not below the smallest normal
    double in magnitude is at most [2 ** -53] times its magnitude. *)
Lemma fround_error (x : Q) :
  pow2 (-1022) <= Qabs x ->
  Qabs (fround x - x) <= Qabs x * pow2 (-53).
Proof.
  intros Hx. pose proof (pow2_pos (-1022)) as P.
  assert (Hbound : forall a, a == Qabs x ->
            Qabs (round_pos a - a) <= Qabs x * pow2 (-53)).
  { intros a Ea. assert (Ha : 0 < a) by lra.
    pose proof (round_pos_nearest a) as N.
    destruct (ilog2_spec a Ha) as [L1 L2].
    assert (Hk : (-1022 <= ilog2 a)%Z).
    { destruct (Z.le_gt_cases (-1022) (ilog2 a)) as [L|L]; [exact L|exfalso].
      pose proof (pow2_le (ilog2 a + 1) (-1022) ltac:(lia)). lra. }
    assert (He : (expo a = ilog2 a + -53 + 1)%Z) by (unfold expo; lia).
    rewrite He, !pow2_add in N.
    change (pow2 1) with 2 in N.
    pose proof (pow2_pos (-53)) as P53.
    assert (pow2 (ilog2 a) * pow2 (-53) <= Qabs x * pow2 (-53))
      by (apply Qmult_le_compat_r; lra).
    lra. }
  destruct (Q_dec x 0) as [[H|H]|H].
  - rewrite (fround_neg x H).
    pose proof (Qabs_Qred_neg x H) as E.
    assert (Ea : Qabs (Qred x) == Qabs x) by (rewrite (Qabs_neg x); lra).
    pose proof (Hbound _ Ea) as B.
    assert (S : - round_pos (Qabs (Qred x)) - x ==
                - (round_pos (Qabs (Qred x)) - Qabs (Qred x))) by lra.
    rewrite S, Qabs_opp. exact B.
  - rewrite (fround_pos x H).
    pose proof (Qabs_Qred_pos x H) as E.
    assert (Ea : Qabs (Qred x) == Qabs x) by (rewrite (Qabs_pos x); lra).
    pose proof (Hbound _ Ea) as B.
    assert (S : round_pos (Qabs (Qred x)) - x ==
                round_pos (Qabs (Qred x)) - Qabs (Qred x)) by lra.
    rewrite S. exact B.
  - exfalso. rewrite H in Hx. change (Qabs 0) with 0 in Hx. lra.
Qed.

Lemma fround_nonneg (x : Q) : 0 <= x -> 0 <= fround x.
Proof.
  intros H. rewrite <- (fround_zero 0) by reflexivity.
  apply fround_mono. exact H.
Qed.

(** The sign of a number does not change how its magnitude is rounded. *)
Lemma Qabs_opp_eq (x : Q) : Qabs (- x) = Qabs x.
Proof.
  destruct x as [n d]. unfold Qabs, Qopp. cbn. rewrite Z.abs_opp. reflexivity.
Qed.

Lemma fround_abs (x : Q) :
  Qabs (fround x) =
  if Qeq_bool (Qred x) 0 then 0
  else Qabs (Qred (round_pos (Qabs (Qred x)))).
Proof.
  unfold fround. cbn zeta.
  destruct (Qeq_bool (Qred x) 0); [reflexivity|].
  destruct (Qle_bool 0 (Qred x)); [reflexivity|].
  rewrite Qred_opp, Qcanon.Qred_involutive. apply Qabs_opp_eq.
Qed.

Lemma fround_opp_abs (x : Q) : Qabs (fround (- x)) = Qabs (fround x).
Proof.
  rewrite !fround_abs. rewrite Qred_opp, Qabs_opp_eq.
  assert (E : Qeq_bool (- Qred x) 0 = Qeq_bool (Qred x) 0).
  { destruct (Qred x) as [n d]. unfold Qeq_bool, Qopp. cbn.
    rewrite !Z.mul_1_r. destruct n; reflexivity. }
  rewrite E. reflexivity.
Qed.

Lemma fsub_abs_sym (a b : Q) : Qabs (fsub a b) = Qabs (fsub b a).
Proof.
  unfold fsub. rewrite (NumFacts.fround_eq (b - a) (- (a - b))) by ring.
  symmetry. apply fround_opp_abs.
Qed.

End Binary64.

(** ** The threshold evaluator *)

Section Evaluator.

Variable thresholds : gmap string Q.
Variable metrics : PerformanceMetrics.

(** One round of the loop, for a threshold that is set and not zero. *)
Lemma check_step_rule acc metric value key t :
  thresholds !! key = Some t ->
  ~ (t == 0)%Q ->
  exists out,
    check_step thresholds metrics acc (metric, value, key) = acc ++ out /\
    exceeded_rule metrics metric value t out.
Proof.
  intros Hk Hnz. unfold check_step, guarded. rewrite Hk.
  apply NumFacts.truthy_spec in Hnz. rewrite Hnz. simpl.
  destruct (Num.gtb value t) eqn:Hgt.
  - apply NumFacts.gtb_spec in Hgt.
    eexists. split; [reflexivity|]. split.
    + intros Hle. exfalso. apply (Qlt_not_le _ _ Hgt Hle).
    + intros _. eexists. split; [reflexivity|]. split.
      * intros Hhi. apply NumFacts.gtb_spec in Hhi.
        rewrite Hhi. reflexivity.
      * intros Hlo. apply NumFacts.gtb_false in Hlo.
        rewrite Hlo. reflexivity.
  - apply NumFacts.gtb_false in Hgt.
    exists []. split; [symmetry; apply app_nil_r|]. split; [reflexivity|].
    intros Hlt. exfalso. apply (Qlt_not_le _ _ Hlt Hgt).
Qed.

(** One round of the loop, for a threshold that is missing or zero. *)
Lemma check_step_disabled acc metric value key :
  (thresholds !! key = None \/
   exists t, thresholds !! key = Some t /\ (t == 0)%Q) ->
  check_step thresholds metrics acc (metric, value, key) = acc.
Proof.
  intros [Hk | (t & Hk & Hz)]; unfold check_step, guarded; rewrite Hk.
  - reflexivity.
  - apply NumFacts.truthy_false in Hz. rewrite Hz. reflexivity.
Qed.

(** The throughput check, for a minimum that is set and not zero. *)
Lemma throughput_check_rule t :
  ~ (t == 0)%Q ->
  exists out,
    match guarded (Some t)
            (fun t => Num.ltb (throughput_tokens_per_sec metrics) t) with
    | Some min_throughput =>
        [ {| a_type := "throughput_low";
             a_metric := "throughput_tokens_per_sec";
             a_value := throughput_tokens_per_sec metrics;
             a_threshold := min_throughput;
             a_model := model_name metrics;
             a_timestamp := timestamp metrics;
             a_severity := "medium" |} ]
    | None => []
    end = out /\ throughput_rule metrics t out.
Proof.
  intros Hnz. unfold guarded.
  apply NumFacts.truthy_spec in Hnz. rewrite Hnz. simpl.
  destruct (Num.ltb (throughput_tokens_per_sec metrics) t) eqn:Hlt.
  - apply NumFacts.ltb_spec in Hlt.
    eexists. split; [reflexivity|]. split; [|reflexivity].
    intros Hle. exfalso. apply (Qlt_not_le _ _ Hlt Hle).
  - apply NumFacts.ltb_false in Hlt.
    exists []. split; [reflexivity|]. split; [reflexivity|].
    intros H. exfalso. apply (Qlt_not_le _ _ H Hlt).
Qed.

End Evaluator.

(** The evaluator on a table whose five thresholds are set and not zero. *)
Lemma check_thresholds_enabled (thresholds : gmap string Q)
    (metrics : PerformanceMetrics) (l : Limits) :
  has_limits thresholds l ->
  nonzero_limits l ->
  threshold_rule l metrics (check_thresholds thresholds metrics).
Proof.
  intros (Hmem & Hcpu & Htime & Herr & Hthr) (Zmem & Zcpu & Ztime & Zerr & Zthr).
  unfold check_thresholds, checks. cbn [fold_left].
  destruct (check_step_rule thresholds metrics [] "memory_usage_mb"
              (memory_usage_mb metrics) _ _ Hmem Zmem) as (a1 & E1 & R1).
  rewrite E1.
  destruct (check_step_rule thresholds metrics ([] ++ a1) "cpu_usage_percent"
              (cpu_usage_percent metrics) _ _ Hcpu Zcpu) as (a2 & E2 & R2).
  rewrite E2.
  destruct (check_step_rule thresholds metrics (([] ++ a1) ++ a2)
              "inference_time_ms"
              (inference_time_ms metrics) _ _ Htime Ztime) as (a3 & E3 & R3).
  rewrite E3.
  destruct (check_step_rule thresholds metrics ((([] ++ a1) ++ a2) ++ a3)
              "error_rate"
              (error_rate metrics) _ _ Herr Zerr) as (a4 & E4 & R4).
  rewrite E4. rewrite Hthr.
  destruct (throughput_check_rule metrics _ Zthr) as (a5 & E5 & R5).
  exists a1, a2, a3, a4, a5.
  split; [|tauto].
  destruct (guarded (Some (min_throughput_tokens_per_sec l)) _);
    subst a5; simpl; rewrite <- ?app_assoc; rewrite ?app_nil_r; reflexivity.
Qed.

(** The default table and a sample that violates all of it. *)
Example check_thresholds_enabled_default :
  has_limits default_thresholds default_limits /\
  nonzero_limits default_limits /\
  threshold_rule default_limits loud_sample
    (check_thresholds default_thresholds loud_sample).
Proof.
  assert (H1 : has_limits default_thresholds default_limits).
  { repeat split; reflexivity. }
  assert (H2 : nonzero_limits default_limits).
  { repeat split; intros H; discriminate H. }
  split; [exact H1|]. split; [exact H2|].
  exact (check_thresholds_enabled default_thresholds loud_sample default_limits H1 H2).
Qed.

(** C1, as stated, fails where a threshold is zero: with the memory
    threshold at 0 and 5 MB of memory in use the rule asks for a memory
    alert, and the evaluator returns no alert at all. *)
Lemma check_thresholds_zero_threshold_counterexample :
  has_limits zero_memory_thresholds zero_memory_limits /\
  check_thresholds zero_memory_thresholds quiet_sample = [] /\
  ~ threshold_rule zero_memory_limits quiet_sample
      (check_thresholds zero_memory_thresholds quiet_sample).
Proof.
  split; [repeat split; reflexivity|].
  assert (E : check_thresholds zero_memory_thresholds quiet_sample = [])
    by (vm_compute; reflexivity).
  split; [exact E|].
  rewrite E. intros (a1 & a2 & a3 & a4 & a5 & Hout & (_ & R1) & _).
  destruct R1 as (sev & Ha1 & _); [reflexivity|].
  subst a1. discriminate Hout.
Qed.

(** The product of the severity test is the float product: 0.1 * 1.5 is
    0.15000000000000002, so that an error rate of this value under the
    threshold 0.1 is of severity medium. *)
Example check_thresholds_float_product :
  Num.fmul (Num.float 0.1) 1.5 = Num.float 0.15000000000000002 /\
  (Num.float 0.1 * 1.5 < Num.float 0.15000000000000002)%Q /\
  check_thresholds tenth_error_thresholds error_sample =
    [ {| a_type := "threshold_exceeded";
         a_metric := "error_rate";
         a_value := Num.float 0.15000000000000002;
         a_threshold := Num.float 0.1;
         a_model := "gpt2";
         a_timestamp := "2024-01-01T00:00:00";
         a_severity := "medium" |} ].
Proof.
  split; [vm_compute; reflexivity|].
  split; [vm_compute; reflexivity|].
  vm_compute. reflexivity.
Qed.

(** ** Disabled thresholds *)

Section Disabled.

Variable thresholds : gmap string Q.
Variable metrics : PerformanceMetrics.

(** Where every alert of the loop comes from. *)
Lemma fold_check_step_elem (cs : list (string * Q * string)) acc (a : Alert) :
  a ∈ fold_left (check_step thresholds metrics) cs acc ->
  a ∈ acc \/
  exists metric value key t,
    (metric, value, key) ∈ cs /\
    thresholds !! key = Some t /\
    Num.truthy t = true /\
    Num.gtb value t = true /\
    a_type a = "threshold_exceeded" /\
    a_metric a = metric /\ a_value a = value /\ a_threshold a = t.
Proof.
  revert acc. induction cs as [|[[metric value] key] cs IH]; intros acc Ha.
  - left. exact Ha.
  - cbn [fold_left] in Ha. apply IH in Ha.
    destruct Ha as [Ha | (m' & v' & k' & t & Hin & Hrest)].
    + unfold check_step, guarded in Ha.
      destruct (thresholds !! key) as [t|] eqn:Hk; [|left; exact Ha].
      destruct (Num.truthy t) eqn:Ht; [|left; exact Ha].
      destruct (Num.gtb value t) eqn:Hg; [|left; exact Ha].
      cbn [andb] in Ha. apply elem_of_app in Ha.
      destruct Ha as [Ha | Ha]; [left; exact Ha|].
      apply list_elem_of_singleton in Ha. subst a. right.
      exists metric, value, key, t.
      split; [apply list_elem_of_here|]. repeat split; assumption.
    + right. exists m', v', k', t.
      split; [apply list_elem_of_further; exact Hin|exact Hrest].
Qed.

(** Where every alert of the evaluator comes from. *)
Lemma check_thresholds_elem (a : Alert) :
  a ∈ check_thresholds thresholds metrics ->
  (exists metric value key t,
     (metric, value, key) ∈ checks metrics /\
     thresholds !! key = Some t /\
     Num.truthy t = true /\
     Num.gtb value t = true /\
     a_type a = "threshold_exceeded" /\
     a_metric a = metric /\ a_value a = value /\ a_threshold a = t) \/
  (exists t,
     thresholds !! "min_throughput_tokens_per_sec" = Some t /\
     Num.truthy t = true /\
     Num.ltb (throughput_tokens_per_sec metrics) t = true /\
     a_type a = "throughput_low" /\
     a_metric a = "throughput_tokens_per_sec").
Proof.
  unfold check_thresholds. intros Ha.
  assert (Hloop : a ∈ fold_left (check_step thresholds metrics)
                       (checks metrics) [] ->
                  exists metric value key t,
                    (metric, value, key) ∈ checks metrics /\
                    thresholds !! key = Some t /\
                    Num.truthy t = true /\
                    Num.gtb value t = true /\
                    a_type a = "threshold_exceeded" /\
                    a_metric a = metric /\ a_value a = value /\
                    a_threshold a = t).
  { intros H. apply fold_check_step_elem in H.
    destruct H as [H | H]; [|exact H]. inversion H. }
  unfold guarded in Ha.
  destruct (thresholds !! "min_throughput_tokens_per_sec") as [t|] eqn:Hk;
    [|left; auto].
  destruct (Num.truthy t) eqn:Ht; [|left; auto].
  destruct (Num.ltb (throughput_tokens_per_sec metrics) t) eqn:Hl;
    [|left; auto].
  cbn [andb] in Ha. apply elem_of_app in Ha.
  destruct Ha as [Ha | Ha]; [left; auto|].
  apply list_elem_of_singleton in Ha. subst a. right.
  exists t. repeat split; assumption.
Qed.

Lemma disabled_not_truthy key t :
  disabled thresholds key ->
  thresholds !! key = Some t -> Num.truthy t = true -> False.
Proof.
  intros [Hn | (t' & Hs & Hz)] Hk Ht.
  - congruence.
  - assert (t' = t) by congruence. subst t'.
    apply NumFacts.truthy_false in Hz. congruence.
Qed.

(** In [checks], the metric name determines the threshold key. *)
Lemma checks_key_unique metric v1 k1 v2 k2 :
  (metric, v1, k1) ∈ checks metrics ->
  (metric, v2, k2) ∈ checks metrics -> k1 = k2.
Proof.
  unfold checks. intros H1 H2.
  rewrite !elem_of_cons, elem_of_nil in H1, H2.
  destruct H1 as [H1|[H1|[H1|[H1|[]]]]];
    destruct H2 as [H2|[H2|[H2|[H2|[]]]]];
    simplify_eq; reflexivity.
Qed.

End Disabled.

(** One round of the loop, for any table. *)
Lemma check_step_metric_rule (thresholds : gmap string Q)
    (metrics : PerformanceMetrics) acc metric value key :
  exists out,
    check_step thresholds metrics acc (metric, value, key) = acc ++ out /\
    metric_rule thresholds metrics metric value key out.
Proof.
  destruct (thresholds !! key) as [t|] eqn:Hk.
  - destruct (Num.truthy t) eqn:Ht.
    + assert (Hnz : ~ (t == 0)%Q) by (apply NumFacts.truthy_spec; exact Ht).
      destruct (check_step_rule thresholds metrics acc metric value key t Hk Hnz)
        as (out & E & R).
      exists out. split; [exact E|]. split.
      * intros Hdis. exfalso.
        exact (disabled_not_truthy thresholds key t Hdis Hk Ht).
      * intros t' Hk' _. assert (t' = t) by congruence. subst t'. exact R.
    + exists []. split.
      * rewrite app_nil_r. apply check_step_disabled. right. exists t.
        split; [exact Hk|]. apply NumFacts.truthy_false. exact Ht.
      * split; [reflexivity|]. intros t' Hk' Hnz.
        assert (t' = t) by congruence. subst t'.
        apply NumFacts.truthy_spec in Hnz. congruence.
  - exists []. split.
    + rewrite app_nil_r. apply check_step_disabled. left. exact Hk.
    + split; [reflexivity|]. intros t' Hk'. congruence.
Qed.

(** C1 (amended): for every sample and every threshold table the evaluator
    returns exactly the alerts of the rule, for the thresholds that are set
    and not zero: for memory, cpu, inference time and error rate, in this
    order, a threshold_exceeded alert if and only if the value is strictly
    above its threshold, of severity high if the value is strictly above
    1.5 times the threshold and medium otherwise; then a throughput_low
    alert of severity medium if and only if the throughput is strictly below
    the minimum. A threshold that is missing or zero gives no alert. *)
Theorem check_thresholds_rule (thresholds : gmap string Q)
    (metrics : PerformanceMetrics) :
  guarded_threshold_rule thresholds metrics (check_thresholds thresholds metrics).
Proof.
  unfold guarded_threshold_rule, check_thresholds, checks. cbn [fold_left].
  destruct (check_step_metric_rule thresholds metrics [] "memory_usage_mb"
              (memory_usage_mb metrics) "max_memory_mb") as (a1 & E1 & R1).
  rewrite E1.
  destruct (check_step_metric_rule thresholds metrics ([] ++ a1)
              "cpu_usage_percent" (cpu_usage_percent metrics) "max_cpu_percent")
    as (a2 & E2 & R2).
  rewrite E2.
  destruct (check_step_metric_rule thresholds metrics (([] ++ a1) ++ a2)
              "inference_time_ms" (inference_time_ms metrics)
              "max_inference_time_ms") as (a3 & E3 & R3).
  rewrite E3.
  destruct (check_step_metric_rule thresholds metrics ((([] ++ a1) ++ a2) ++ a3)
              "error_rate" (error_rate metrics) "max_error_rate")
    as (a4 & E4 & R4).
  rewrite E4.
  exists a1, a2, a3, a4.
  destruct (thresholds !! "min_throughput_tokens_per_sec") as [t|] eqn:Hk.
  - destruct (Num.truthy t) eqn:Ht.
    + assert (Hnz : ~ (t == 0)%Q) by (apply NumFacts.truthy_spec; exact Ht).
      destruct (throughput_check_rule metrics t Hnz) as (a5 & E5 & R5).
      exists a5. split; [|split; [exact R1|split; [exact R2|split;
        [exact R3|split; [exact R4|]]]]].
      * destruct (guarded (Some t) _); subst a5; cbn [app];
          rewrite <- ?app_assoc; rewrite ?app_nil_r; reflexivity.
      * split.
        -- intros Hdis. exfalso.
           exact (disabled_not_truthy thresholds _ t Hdis Hk Ht).
        -- intros t' Hk' _. assert (t' = t) by congruence. subst t'. exact R5.
    + exists []. unfold guarded. rewrite Ht. cbn [andb].
      split; [rewrite <- ?app_assoc; rewrite ?app_nil_r; reflexivity|].
      split; [exact R1|]. split; [exact R2|]. split; [exact R3|].
      split; [exact R4|]. split; [reflexivity|].
      intros t' Hk' Hnz. assert (t' = t) by congruence. subst t'.
      apply NumFacts.truthy_spec in Hnz. congruence.
  - exists []. cbn [guarded].
    split; [rewrite <- ?app_assoc; rewrite ?app_nil_r; reflexivity|].
    split; [exact R1|]. split; [exact R2|]. split; [exact R3|].
    split; [exact R4|]. split; [reflexivity|].
    intros t' Hk'. congruence.
Qed.

(** C9: a maximum whose key is missing from the threshold table, or set to
    zero, yields no threshold_exceeded alert for its metric whatever the
    observed value, and a missing or zero minimum throughput yields no
    throughput_low alert: a check runs only for a non-zero threshold. *)
Theorem disabled_threshold_never_alerts (thresholds : gmap string Q)
    (metrics : PerformanceMetrics) :
  (forall metric value key,
     (metric, value, key) ∈ checks metrics ->
     disabled thresholds key ->
     forall a, a ∈ check_thresholds thresholds metrics ->
       ~ (a_type a = "threshold_exceeded" /\ a_metric a = metric)) /\
  (disabled thresholds "min_throughput_tokens_per_sec" ->
     forall a, a ∈ check_thresholds thresholds metrics ->
       a_type a <> "throughput_low").
Proof.
  split.
  - intros metric value key Hin Hdis a Ha [Hty Hme].
    apply check_thresholds_elem in Ha.
    destruct Ha as [(m' & v' & k' & t & Hin' & Hk & Ht & _ & _ & Hm' & _)
                   | (t & _ & _ & _ & Hty' & _)].
    + subst m'. rewrite Hme in Hin'.
      assert (k' = key) by exact (checks_key_unique _ _ _ _ _ _ Hin' Hin).
      subst k'.
      eapply disabled_not_truthy; eassumption.
    + rewrite Hty in Hty'. discriminate Hty'.
  - intros Hdis a Ha Hty.
    apply check_thresholds_elem in Ha.
    destruct Ha as [(_ & _ & _ & _ & _ & _ & _ & _ & Hty' & _)
                   | (t & Hk & Ht & _)].
    + rewrite Hty in Hty'. discriminate Hty'.
    + eapply disabled_not_truthy; eassumption.
Qed.

Lemma disabled_threshold_never_alerts_witness :
  ("memory_usage_mb", 4000%Q, "max_memory_mb") ∈ checks loud_sample /\
  disabled no_floor_thresholds "max_memory_mb" /\
  disabled no_floor_thresholds "min_throughput_tokens_per_sec" /\
  (forall a, a ∈ check_thresholds no_floor_thresholds loud_sample ->
     ~ (a_type a = "threshold_exceeded" /\ a_metric a = "memory_usage_mb")) /\
  (forall a, a ∈ check_thresholds no_floor_thresholds loud_sample ->
     a_type a <> "throughput_low").
Proof.
  assert (Hin : ("memory_usage_mb", 4000%Q, "max_memory_mb") ∈ checks loud_sample)
    by apply list_elem_of_here.
  assert (Hmem : disabled no_floor_thresholds "max_memory_mb").
  { right. exists 0%Q. split; reflexivity. }
  assert (Hthr : disabled no_floor_thresholds "min_throughput_tokens_per_sec").
  { left. reflexivity. }
  destruct (disabled_threshold_never_alerts no_floor_thresholds loud_sample)
    as [H1 H2].
  split; [exact Hin|]. split; [exact Hmem|]. split; [exact Hthr|].
  split; [exact (H1 _ _ _ Hin Hmem)|exact (H2 Hthr)].
Defined.

(** ** Trends *)

Section Trends.

Context {A : Type}.

Lemma index_from_end_last (l : list A) (x : A) :
  index_from_end (l ++ [x]) 1 = Some x.
Proof.
  unfold index_from_end. rewrite length_app. cbn [length].
  destruct (decide _) as [_|H]; [|lia].
  replace (length l + 1 - 1)%nat with (length l + 0)%nat by lia.
  rewrite lookup_app_r by lia.
  replace (length l + 0 - length l)%nat with 0%nat by lia. reflexivity.
Qed.

Lemma index_from_end_second (l : list A) (x y : A) :
  index_from_end (l ++ [x; y]) 2 = Some x.
Proof.
  unfold index_from_end. rewrite length_app. cbn [length].
  destruct (decide _) as [_|H]; [|lia].
  rewrite lookup_app_r by lia.
  replace (length l + 2 - 2 - length l)%nat with 0%nat by lia. reflexivity.
Qed.

Lemma index_from_end_first (l : list A) (x y : A) :
  index_from_end (l ++ [x; y]) 1 = Some y.
Proof.
  replace (l ++ [x; y]) with ((l ++ [x]) ++ [y])
    by (rewrite <- app_assoc; reflexivity).
  apply index_from_end_last.
Qed.

(** A list of two or more elements ends with two elements. *)
Lemma two_last (l : list A) :
  (2 <= length l)%nat -> exists older x y, l = older ++ [x; y].
Proof.
  intros H. destruct (rev l) as [|y [|x r]] eqn:E.
  - apply (f_equal (@length A)) in E. rewrite length_rev in E.
    cbn in E. lia.
  - apply (f_equal (@length A)) in E. rewrite length_rev in E.
    cbn in E. lia.
  - exists (rev r), x, y.
    rewrite <- (rev_involutive l), E. cbn [rev].
    rewrite <- app_assoc. reflexivity.
Qed.

End Trends.

Lemma direction_choice (delta bound : Q) (up down : string) :
  (0 <= bound)%Q ->
  direction_rule delta bound up down
    (if Num.gtb delta bound then up
     else if Num.ltb delta (- bound) then down else "stable").
Proof.
  intros Hb. unfold direction_rule.
  destruct (Num.gtb delta bound) eqn:Hg.
  - apply NumFacts.gtb_spec in Hg. split; [reflexivity|].
    split; intros; lra.
  - apply NumFacts.gtb_false in Hg. split; [intros; lra|].
    destruct (Num.ltb delta (- bound)) eqn:Hl.
    + apply NumFacts.ltb_spec in Hl. split; [reflexivity|]. intros; lra.
    + apply NumFacts.ltb_false in Hl. split; [intros; lra|reflexivity].
Qed.

(** C3: with fewer than 2 samples in the history of the model the trend is
    the single entry trend: insufficient_data; with 2 or more it has the
    three entries memory, cpu and performance, and no other, each decided by
    the change from the last but one to the last sample (the float
    difference, newest minus previous), with strict comparisons: beyond
    +10 / -10 for memory, +5 / -5 for cpu (increasing, decreasing, else
    stable) and +50 / -50 for the inference time (degrading, improving,
    else stable). *)
Theorem calculate_trends_rule (self : PerformanceMonitor) (model : string) :
  ((length (history_of self model) < 2)%nat ->
     calculate_trends self model = Some [ ("trend", "insufficient_data") ]) /\
  ((2 <= length (history_of self model))%nat ->
     exists older previous recent memory cpu performance,
       history_of self model = older ++ [previous; recent] /\
       calculate_trends self model =
         Some [ ("memory", memory); ("cpu", cpu); ("performance", performance) ] /\
       direction_rule
         (Num.fsub (memory_usage_mb recent) (memory_usage_mb previous)) 10
         "increasing" "decreasing" memory /\
       direction_rule
         (Num.fsub (cpu_usage_percent recent) (cpu_usage_percent previous)) 5
         "increasing" "decreasing" cpu /\
       direction_rule
         (Num.fsub (inference_time_ms recent) (inference_time_ms previous)) 50
         "degrading" "improving" performance).
Proof.
  unfold calculate_trends, history_of.
  set (history := default [] (performance_history self !! model)).
  split.
  - intros Hlt. unfold trends_of.
    destruct (decide (length history < 2)%nat); [reflexivity|lia].
  - intros Hge. destruct (two_last history Hge) as (older & p & r & E).
    exists older, p, r. rewrite E. unfold trends_of.
    destruct (decide _) as [Hlt|_].
    { rewrite length_app in Hlt. cbn in Hlt. lia. }
    rewrite index_from_end_first, index_from_end_second. cbn [mbind option_bind].
    do 3 eexists. split; [reflexivity|]. split; [reflexivity|].
    split; [|split]; apply direction_choice; discriminate.
Qed.

Lemma calculate_trends_rule_witness :
  ((length (history_of (monitor_with [mem_sample "t0" 100]) "gpt2") < 2)%nat /\
   calculate_trends (monitor_with [mem_sample "t0" 100]) "gpt2" =
     Some [ ("trend", "insufficient_data") ]) /\
  ((2 <= length (history_of
       (monitor_with [mem_sample "t0" 100; mem_sample "t1" 115]) "gpt2"))%nat /\
   exists older previous recent memory cpu performance,
     history_of (monitor_with [mem_sample "t0" 100; mem_sample "t1" 115]) "gpt2" =
       older ++ [previous; recent] /\
     calculate_trends
       (monitor_with [mem_sample "t0" 100; mem_sample "t1" 115]) "gpt2" =
       Some [ ("memory", memory); ("cpu", cpu); ("performance", performance) ] /\
     direction_rule
       (Num.fsub (memory_usage_mb recent) (memory_usage_mb previous)) 10
       "increasing" "decreasing" memory /\
     direction_rule
       (Num.fsub (cpu_usage_percent recent) (cpu_usage_percent previous)) 5
       "increasing" "decreasing" cpu /\
     direction_rule
       (Num.fsub (inference_time_ms recent) (inference_time_ms previous)) 50
       "degrading" "improving" performance).
Proof.
  assert (H1 : (length (history_of (monitor_with [mem_sample "t0" 100]) "gpt2")
                < 2)%nat).
  { vm_compute. lia. }
  assert (H2 : (2 <= length (history_of
             (monitor_with [mem_sample "t0" 100; mem_sample "t1" 115]) "gpt2"))%nat).
  { vm_compute. lia. }
  split.
  - split; [exact H1|].
    exact (proj1 (calculate_trends_rule _ _) H1).
  - split; [exact H2|].
    exact (proj2 (calculate_trends_rule _ _) H2).
Defined.

(** The change is the float difference: from 0.2 to 5.2 per cent of cpu
    it is 5.0, which is stable although 5.2 - 0.2 exceeds 5 as a number;
    from 11.1 to 16.1 it is 5.000000000000002, which is increasing
    although the decimals 16.1 and 11.1 differ by 5. *)
Example calculate_trends_float_difference :
  calculate_trends
    (monitor_with [ cpu_sample "t0" (Num.float 0.2);
                    cpu_sample "t1" (Num.float 5.2) ]) "gpt2" =
    Some [ ("memory", "stable"); ("cpu", "stable"); ("performance", "stable") ] /\
  (5 < Num.float 5.2 - Num.float 0.2)%Q /\
  calculate_trends
    (monitor_with [ cpu_sample "t0" (Num.float 11.1);
                    cpu_sample "t1" (Num.float 16.1) ]) "gpt2" =
    Some [ ("memory", "stable"); ("cpu", "increasing");
           ("performance", "stable") ] /\
  Num.fsub (Num.float 16.1) (Num.float 11.1) = Num.float 5.000000000000002 /\
  (16.1 - 11.1 == 5)%Q.
Proof.
  split; [vm_compute; reflexivity|].
  split; [vm_compute; reflexivity|].
  split; [vm_compute; reflexivity|].
  split; [vm_compute; reflexivity|reflexivity].
Qed.

(** ** Tracking *)

Lemma trends_of_total (history : list PerformanceMetrics) :
  is_Some (trends_of history).
Proof.
  unfold trends_of. destruct (decide _) as [|Hge]; [eexists; reflexivity|].
  destruct (two_last history) as (older & p & r & ->); [lia|].
  rewrite index_from_end_first, index_from_end_second.
  eexists; reflexivity.
Qed.

(** Creating the history when it is missing and appending to it replaces
    the history by the old one followed by the new sample. *)
Lemma append_history (ph : gmap string (list PerformanceMetrics))
    (model : string) (metrics : PerformanceMetrics) :
  alter (fun h => h ++ [metrics]) model
    (match ph !! model with
     | None => <[model := []]> ph
     | Some _ => ph
     end) =
  <[model := default [] (ph !! model) ++ [metrics]]> ph.
Proof.
  apply map_eq. intros k.
  destruct (decide (k = model)) as [->|Hne].
  - rewrite lookup_insert_eq.
    destruct (ph !! model) as [h|] eqn:E.
    + rewrite lookup_alter_eq, E. reflexivity.
    + rewrite lookup_alter_eq, lookup_insert_eq. reflexivity.
  - rewrite lookup_insert_ne by congruence.
    destruct (ph !! model) as [h|] eqn:E.
    + rewrite lookup_alter_ne by congruence. reflexivity.
    + rewrite lookup_alter_ne, lookup_insert_ne by congruence. reflexivity.
Qed.

(** What one call of [track_performance] does. *)
Lemma track_performance_step (self : PerformanceMonitor) (model : string)
    (metrics : PerformanceMetrics) :
  exists trends,
    trends_of (history_of self model ++ [metrics]) = Some trends /\
    track_performance self model metrics =
      Some ({| metrics_collector := metrics_collector self;
               performance_history :=
                 <[model := history_of self model ++ [metrics]]>
                   (performance_history self);
               alerts := alerts self ++ check_thresholds (thresholds self) metrics;
               thresholds := thresholds self |},
            {| r_model_name := model;
               r_current_metrics := to_dict metrics;
               r_alerts := check_thresholds (thresholds self) metrics;
               r_trends := trends;
               r_status := status metrics |}).
Proof.
  destruct (trends_of_total (history_of self model ++ [metrics])) as [t Ht].
  exists t. split; [exact Ht|].
  unfold track_performance, calculate_trends. cbn [performance_history].
  rewrite append_history, lookup_insert_eq.
  fold (history_of self model). cbn [default from_option id].
  rewrite Ht. reflexivity.
Qed.

Lemma samples_for_cons (model n0 : string) (m0 : PerformanceMetrics)
    (rest : list (string * PerformanceMetrics)) :
  samples_for model ((n0, m0) :: rest) =
  (if decide (n0 = model) then [m0] else []) ++ samples_for model rest.
Proof.
  unfold samples_for. rewrite filter_cons. cbn [fst].
  destruct (decide (n0 = model)); reflexivity.
Qed.

(** The histories after one call, followed by later samples. *)
Lemma history_after_step (self self1 : PerformanceMonitor) (n0 model : string)
    (m0 : PerformanceMetrics) (rest : list (string * PerformanceMetrics)) :
  performance_history self1 =
    <[n0 := history_of self n0 ++ [m0]]> (performance_history self) ->
  history_of self1 model ++ samples_for model rest =
  history_of self model ++ samples_for model ((n0, m0) :: rest).
Proof.
  intros Hph. rewrite samples_for_cons. unfold history_of at 1. rewrite Hph.
  destruct (decide (n0 = model)) as [->|Hne].
  - rewrite lookup_insert_eq. cbn [default from_option id].
    rewrite <- app_assoc. reflexivity.
  - rewrite lookup_insert_ne by exact Hne. reflexivity.
Qed.

(** C2: a sequence of calls of track always runs to its end; afterwards
    the history of every model is its old history followed by the samples
    tracked under its name, in call order; the alert log is the old log
    followed by the alerts of the evaluator for each call, in call order,
    none dropped; and the result of each call carries the name, the
    serialized sample, the alerts of that call only, the trend of the
    history that includes the new sample, and the status of the sample. *)
Theorem track_performance_append_only (self : PerformanceMonitor)
    (calls : list (string * PerformanceMetrics)) :
  exists self' results,
    track_all self calls = Some (self', results) /\
    length results = length calls /\
    thresholds self' = thresholds self /\
    (forall model,
       history_of self' model = history_of self model ++ samples_for model calls) /\
    alerts self' = alerts self ++ concat (alerts_for (thresholds self) calls) /\
    (forall i model metrics,
       calls !! i = Some (model, metrics) ->
       exists r,
         results !! i = Some r /\
         r_model_name r = model /\
         r_current_metrics r = to_dict metrics /\
         r_alerts r = check_thresholds (thresholds self) metrics /\
         trends_of (history_of self model ++ samples_for model (take (S i) calls)) =
           Some (r_trends r) /\
         r_status r = status metrics).
Proof.
  revert self. induction calls as [|[n0 m0] rest IH]; intros self.
  - exists self, []. cbn [track_all].
    split; [reflexivity|]. split; [reflexivity|]. split; [reflexivity|].
    split; [intros model; unfold samples_for; cbn; rewrite app_nil_r; reflexivity|].
    split; [cbn; rewrite app_nil_r; reflexivity|].
    intros i model metrics Hi. rewrite lookup_nil in Hi. discriminate Hi.
  - destruct (track_performance_step self n0 m0) as (t0 & Ht0 & Hstep).
    set (self1 := {| metrics_collector := metrics_collector self;
                     performance_history :=
                       <[n0 := history_of self n0 ++ [m0]]>
                         (performance_history self);
                     alerts := alerts self ++ check_thresholds (thresholds self) m0;
                     thresholds := thresholds self |}) in *.
    assert (Hph : performance_history self1 =
                  <[n0 := history_of self n0 ++ [m0]]> (performance_history self))
      by reflexivity.
    destruct (IH self1) as (self' & results & Hrun & Hlen & Hth & Hhist & Hal & Hres).
    eexists self', (_ :: results).
    cbn [track_all]. rewrite Hstep. cbn [mbind option_bind fst snd].
    rewrite Hrun. cbn [mbind option_bind fst snd].
    split; [reflexivity|].
    split; [cbn [length]; rewrite Hlen; reflexivity|].
    split; [rewrite Hth; reflexivity|].
    split.
    { intros model. rewrite Hhist. apply history_after_step. exact Hph. }
    split.
    { rewrite Hal. unfold alerts_for. cbn [fmap list_fmap concat alerts thresholds self1 snd].
      rewrite <- app_assoc. reflexivity. }
    intros [|i] model metrics Hi.
    + cbn in Hi. injection Hi as <- <-.
      eexists. split; [reflexivity|]. cbn [r_model_name r_current_metrics r_alerts r_trends r_status].
      repeat split; try reflexivity.
      cbn [take]. rewrite samples_for_cons.
      destruct (decide (n0 = n0)) as [_|Hne]; [|congruence].
      unfold samples_for. cbn. exact Ht0.
    + cbn [lookup list_lookup] in Hi.
      destruct (Hres i model metrics Hi) as (r & Hr & Hn & Hc & Ha & Ht & Hs).
      exists r. split; [exact Hr|].
      split; [exact Hn|]. split; [exact Hc|]. split; [exact Ha|].
      split; [|exact Hs].
      rewrite <- Ht. cbn [take]. symmetry. f_equal.
      apply history_after_step. exact Hph.
Qed.


(** Three calls for one model on a new monitor: its history is the three
    samples, in call order. *)
Lemma track_performance_append_only_witness :
  exists self' results,
    track_all new_monitor
      [ ("gpt2", mem_sample "t0" 100); ("gpt2", mem_sample "t1" 115);
        ("gpt2", mem_sample "t2" 85) ] = Some (self', results) /\
    length results = 3%nat /\
    history_of self' "gpt2" =
      [ mem_sample "t0" 100; mem_sample "t1" 115; mem_sample "t2" 85 ] /\
    alerts self' = [] /\
    r_trends <$> results =
      [ [ ("trend", "insufficient_data") ];
        [ ("memory", "increasing"); ("cpu", "stable"); ("performance", "stable") ];
        [ ("memory", "decreasing"); ("cpu", "stable"); ("performance", "stable") ] ].
Proof.
  destruct (track_performance_append_only new_monitor
              [ ("gpt2", mem_sample "t0" 100); ("gpt2", mem_sample "t1" 115);
                ("gpt2", mem_sample "t2" 85) ])
    as (self' & results & Hrun & Hlen & _ & Hhist & Hal & _).
  exists self', results.
  split; [exact Hrun|]. split; [exact Hlen|].
  split; [rewrite Hhist; reflexivity|].
  split; [rewrite Hal; reflexivity|].
  vm_compute in Hrun. injection Hrun as _ <-. reflexivity.
Defined.

(** ** Summaries *)

Lemma fold_left_fadd (xs : list Q) (acc : Q) :
  fold_left Num.fadd xs acc = total_from acc xs.
Proof.
  revert acc. induction xs as [|x xs IH]; intros acc; [reflexivity|].
  cbn [fold_left total_from]. apply IH.
Qed.

Lemma py_sum_total (xs : list Q) : Num.py_sum xs = total xs.
Proof. apply fold_left_fadd. Qed.

Lemma len_nonzero {A} (l : list A) : l <> [] -> ~ (len l == 0)%Q.
Proof.
  intros Hne. unfold len, Qeq. cbn.
  destruct l as [|x l]; [congruence|]. cbn [length]. lia.
Qed.

(** The quotient computed for each average is the mean. *)
Lemma py_mean {A} (f : A -> Q) (history : list A) :
  history <> [] ->
  exists a,
    Num.py_div (Num.py_sum (f <$> history)) (len history) = Some a /\
    mean_of (f <$> history) a.
Proof.
  intros Hne. pose proof (len_nonzero history Hne) as Hnz.
  eexists. split; [apply NumFacts.py_div_Some; exact Hnz|].
  split.
  - destruct history; [congruence|discriminate].
  - unfold len. rewrite length_fmap, py_sum_total. reflexivity.
Qed.

Lemma count_model_filter (model : string) (log : list Alert) :
  length (filter (fun a => a_model a = model) log) = count_model model log.
Proof.
  induction log as [|a log IH]; [reflexivity|].
  rewrite filter_cons. cbn [count_model].
  destruct (decide (a_model a = model)) as [E|E].
  - apply String.eqb_eq in E. rewrite E. cbn [length]. rewrite IH. reflexivity.
  - apply String.eqb_neq in E. rewrite E. rewrite IH. reflexivity.
Qed.

Lemma nonempty_last {A} (l : list A) :
  l <> [] -> exists older x, l = older ++ [x].
Proof.
  intros Hne. destruct (rev l) as [|x r] eqn:E.
  - apply (f_equal (@rev A)) in E. rewrite rev_involutive in E. contradiction.
  - exists (rev r), x. rewrite <- (rev_involutive l), E. reflexivity.
Qed.

(** The summary of a model that has samples. *)
Lemma summary_of_history (self : PerformanceMonitor) (model : string) :
  history_of self model <> [] ->
  exists older latest averages,
    history_of self model = older ++ [latest] /\
    get_model_summary self model =
      Some (SummaryOk
        {| s_model_name := model;
           s_latest_metrics := to_dict latest;
           s_averages := averages;
           s_metrics_count := length (history_of self model);
           s_alerts_count := count_model model (alerts self);
           s_status := status latest |}) /\
    mean_of (memory_usage_mb <$> history_of self model)
      (avg_memory_usage_mb averages) /\
    mean_of (cpu_usage_percent <$> history_of self model)
      (avg_cpu_usage_percent averages) /\
    mean_of (inference_time_ms <$> history_of self model)
      (avg_inference_time_ms averages) /\
    mean_of (throughput_tokens_per_sec <$> history_of self model)
      (avg_throughput_tokens_per_sec averages).
Proof.
  unfold get_model_summary. fold (history_of self model).
  generalize (history_of self model). intros history Hne.
  destruct (nonempty_last history Hne) as (older & latest & E).
  destruct (py_mean memory_usage_mb history Hne) as (a1 & E1 & M1).
  destruct (py_mean cpu_usage_percent history Hne) as (a2 & E2 & M2).
  destruct (py_mean inference_time_ms history Hne) as (a3 & E3 & M3).
  destruct (py_mean throughput_tokens_per_sec history Hne) as (a4 & E4 & M4).
  exists older, latest,
    {| avg_memory_usage_mb := a1; avg_cpu_usage_percent := a2;
       avg_inference_time_ms := a3; avg_throughput_tokens_per_sec := a4 |}.
  split; [exact E|].
  split; [|cbn; tauto].
  destruct (decide (history = [])) as [|_]; [contradiction|].
  rewrite E1, E2, E3, E4. cbn [mbind option_bind].
  rewrite count_model_filter.
  rewrite E at 1. rewrite index_from_end_last. reflexivity.
Qed.




(** The mean is the float mean: for the memory readings 0.1, 0.2 and 0.3
    it is 0.20000000000000004, which is not the double 0.2. *)
Example get_model_summary_float_mean :
  exists summary,
    get_model_summary tenths_monitor "gpt2" = Some (SummaryOk summary) /\
    avg_memory_usage_mb (s_averages summary) =
      Num.float 0.20000000000000004 /\
    avg_memory_usage_mb (s_averages summary) <> Num.float 0.2.
Proof.
  eexists. split; [vm_compute; reflexivity|].
  split; [vm_compute; reflexivity|].
  vm_compute. discriminate.
Qed.

(** ** Reachable monitors and the overview *)

Lemma reachable_nonempty (self : PerformanceMonitor) :
  reachable self -> all_nonempty (performance_history self).
Proof.
  induction 1 as [|self model metrics self' result _ IH Hstep|self table _ IH
                  |self collector _ IH].
  - intros model h Hl. cbn in Hl. rewrite lookup_empty in Hl. discriminate Hl.
  - destruct (track_performance_step self model metrics) as (t & _ & E).
    rewrite E in Hstep. injection Hstep as <- _.
    cbn [performance_history]. intros k h Hl.
    destruct (decide (model = k)) as [->|Hne].
    + rewrite lookup_insert_eq in Hl. injection Hl as <-.
      destruct (history_of self k); discriminate.
    + rewrite lookup_insert_ne in Hl by exact Hne. exact (IH k h Hl).
  - exact IH.
  - exact IH.
Qed.

(** The summary never divides by zero. *)
Lemma get_model_summary_total (self : PerformanceMonitor) (model : string) :
  is_Some (get_model_summary self model).
Proof.
  destruct (decide (history_of self model = [])) as [E|E].
  - unfold get_model_summary. fold (history_of self model). rewrite E.
    eexists; reflexivity.
  - destruct (summary_of_history self model E) as (? & ? & ? & _ & H & _).
    rewrite H. eexists; reflexivity.
Qed.

Lemma histogram_total_count (counts : gmap string nat) (k : string) :
  histogram_total (<[k := (default 0 (counts !! k) + 1)%nat]> counts) =
  S (histogram_total counts).
Proof.
  unfold histogram_total.
  destruct (counts !! k) as [v|] eqn:E; cbn [default from_option id].
  - rewrite (map_fold_delete_L _ _ k v counts); [|intros; lia|exact E].
    rewrite <- insert_delete_eq.
    rewrite map_fold_insert_L; [lia|intros; lia|apply lookup_delete_eq].
  - rewrite map_fold_insert_L; [lia|intros; lia|exact E].
Qed.

Section Histogram.

Implicit Types (m : gmap string (list PerformanceMetrics)).

(** The histogram counts, for each status, the models whose last sample
    has it. *)
Lemma status_counts_spec m (st : string) :
  default 0%nat
    (map_fold (fun _ history counts => count_status history counts) ∅ m !! st) =
  models_with_status st m.
Proof.
  unfold models_with_status.
  apply (map_fold_weak_ind
           (fun counts m =>
              default 0%nat (counts !! st) =
              size (filter (fun kv : string * list PerformanceMetrics =>
                              latest_status kv.2 = Some st) m))); clear m.
  - rewrite lookup_empty, map_filter_empty, map_size_empty. reflexivity.
  - intros i x m r Hi IH. unfold count_status.
    destruct (last x) as [latest|] eqn:El.
    + destruct (decide (status latest = st)) as [Es|Es].
      * rewrite Es, lookup_insert_eq. cbn [default from_option id].
        rewrite map_filter_insert_True
          by (unfold latest_status; cbn [snd]; rewrite El, <- Es; reflexivity).
        rewrite map_size_insert_None
          by (apply map_lookup_filter_None_2; left; exact Hi).
        rewrite IH. lia.
      * rewrite lookup_insert_ne by exact Es.
        rewrite map_filter_insert_False, delete_id; [exact IH|exact Hi|].
        unfold latest_status. cbn [snd]. rewrite El. cbn. congruence.
    + rewrite map_filter_insert_False, delete_id; [exact IH|exact Hi|].
      unfold latest_status. cbn [snd]. rewrite El. discriminate.
Qed.

(** One count per model when no history is empty. *)
Lemma status_counts_total m :
  all_nonempty m ->
  histogram_total
    (map_fold (fun _ history counts => count_status history counts) ∅ m) =
  size m.
Proof.
  apply (map_fold_weak_ind
           (fun counts m => all_nonempty m -> histogram_total counts = size m));
    clear m.
  - intros _. rewrite map_size_empty. reflexivity.
  - intros i x m r Hi IH Hall.
    assert (Hx : x <> []) by (apply (Hall i); apply lookup_insert_eq).
    assert (Hm : all_nonempty m).
    { intros k h Hk. apply (Hall k).
      rewrite lookup_insert_ne; [exact Hk|]. intros ->. congruence. }
    unfold count_status.
    destruct (nonempty_last x Hx) as (older & latest & ->).
    rewrite last_snoc. rewrite histogram_total_count.
    rewrite map_size_insert_None by exact Hi.
    rewrite (IH Hm). reflexivity.
Qed.

End Histogram.

(** C10: in every reachable monitor no stored history is empty; hence the
    summary of any model is computed without a division by zero, the
    histogram of the overview counts for each status the tracked models
    whose last sample has that status, one entry per model, and its counts
    add up to total_models_monitored. *)
Theorem reachable_histories_nonempty (self : PerformanceMonitor) :
  reachable self ->
  (forall model h, performance_history self !! model = Some h -> h <> []) /\
  (forall model, exists r, get_model_summary self model = Some r) /\
  (forall st,
     default 0%nat (status_distribution (get_system_overview self) !! st) =
     models_with_status st (performance_history self)) /\
  histogram_total (status_distribution (get_system_overview self)) =
    total_models_monitored (get_system_overview self).
Proof.
  intros Hreach. pose proof (reachable_nonempty self Hreach) as Hall.
  split; [exact Hall|].
  split; [intros model; apply get_model_summary_total|].
  split; [intros st; apply status_counts_spec|].
  cbn [get_system_overview status_distribution total_models_monitored].
  apply status_counts_total. exact Hall.
Qed.

(** Running a sequence of calls keeps a monitor reachable. *)
Lemma track_all_reachable (calls : list (string * PerformanceMetrics))
    (self : PerformanceMonitor) :
  reachable self ->
  match track_all self calls with
  | Some run => reachable run.1
  | None => True
  end.
Proof.
  revert self. induction calls as [|[model metrics] rest IH]; intros self Hr.
  - exact Hr.
  - cbn [track_all].
    destruct (track_performance self model metrics) as [[self1 r1]|] eqn:E;
      [|exact I].
    cbn [mbind option_bind fst snd].
    pose proof (IH self1 (reach_track _ _ _ _ _ Hr E)) as H.
    destruct (track_all self1 rest) as [run|]; [exact H|exact I].
Qed.

Lemma reachable_histories_nonempty_witness :
  reachable three_models_monitor /\
  (forall model h,
     performance_history three_models_monitor !! model = Some h -> h <> []) /\
  (forall model, exists r, get_model_summary three_models_monitor model = Some r) /\
  (forall st,
     default 0%nat
       (status_distribution (get_system_overview three_models_monitor) !! st) =
     models_with_status st (performance_history three_models_monitor)) /\
  histogram_total (status_distribution (get_system_overview three_models_monitor)) =
    total_models_monitored (get_system_overview three_models_monitor).
Proof.
  assert (H : reachable three_models_monitor).
  { pose proof (track_all_reachable three_calls new_monitor reach_new) as H.
    unfold three_models_monitor.
    destruct (track_all new_monitor three_calls); [exact H|exact reach_new]. }
  split; [exact H|].
  exact (reachable_histories_nonempty three_models_monitor H).
Defined.

(** The overview of the three tracked models. *)
Example three_models_overview :
  total_models_monitored (get_system_overview three_models_monitor) = 3%nat /\
  total_metrics_collected (get_system_overview three_models_monitor) = 3%nat /\
  histogram_total
    (status_distribution (get_system_overview three_models_monitor)) = 3%nat /\
  status_distribution (get_system_overview three_models_monitor) !! "healthy" =
    Some 2%nat.
Proof. vm_compute. repeat split; reflexivity. Qed.

(** ** The collector *)

Lemma select_status_total (r : Q) (weights : list Q) (cumulative : Q) (i : nat) :
  (i + length weights <= 3)%nat ->
  is_Some (select_status r cumulative i weights).
Proof.
  revert cumulative i.
  induction weights as [|w ws IH]; intros cumulative i Hlen; cbn [select_status].
  - eexists; reflexivity.
  - cbn [length] in Hlen. destruct (Num.leb r (Num.fadd cumulative w)).
    + apply lookup_lt_is_Some. cbn. lia.
    + apply IH. lia.
Qed.

Lemma large_guard (m : ModelInfo) :
  opt_truthy (size_mb m) &&
  match size_mb m with Some size => Num.gtb size 1000 | None => false end =
  is_large m.
Proof.
  unfold is_large, opt_truthy. destruct (size_mb m) as [s|]; [|reflexivity].
  destruct (Num.gtb s 1000) eqn:G; [|apply andb_false_r].
  rewrite andb_true_r. apply NumFacts.truthy_spec.
  apply NumFacts.gtb_spec in G. intros Hz. rewrite Hz in G. discriminate G.
Qed.

Lemma complex_guard (m : ModelInfo) :
  bool_decide (task_type m ∈ complex_tasks) = is_complex m.
Proof.
  unfold is_complex, complex_tasks.
  destruct (String.eqb_spec (task_type m) "text-generation") as [->|H1];
    [reflexivity|].
  destruct (String.eqb_spec (task_type m) "summarization") as [->|H2];
    [reflexivity|].
  apply bool_decide_eq_false. rewrite !elem_of_cons, elem_of_nil. tauto.
Qed.

(** The weights before normalisation are the base weights with the shifts
    that apply. *)
Lemma adjusted_weights_cases (m : ModelInfo) :
  adjusted_weights m =
    [ w_healthy (shifted (is_large m) (is_complex m));
      w_warning (shifted (is_large m) (is_complex m));
      w_degraded (shifted (is_large m) (is_complex m)) ].
Proof.
  unfold adjusted_weights. rewrite large_guard, complex_guard.
  destruct (is_large m), (is_complex m); reflexivity.
Qed.

(** The division of the weights by their sum never fails, and gives the
    normalised weights. *)
Lemma normalised_weights (m : ModelInfo) :
  mapM (fun w => Num.py_div w (Num.py_sum (adjusted_weights m)))
       (adjusted_weights m) =
    Some [ w_healthy (status_weights m);
           w_warning (status_weights m);
           w_degraded (status_weights m) ].
Proof.
  rewrite adjusted_weights_cases. unfold status_weights.
  destruct (is_large m), (is_complex m); vm_compute; reflexivity.
Qed.

Lemma determine_status_select (host : Host) (m : ModelInfo) :
  determine_status host m =
    select_status (status_draw host) 0 0
      [ w_healthy (status_weights m);
        w_warning (status_weights m);
        w_degraded (status_weights m) ].
Proof.
  unfold determine_status. rewrite normalised_weights. reflexivity.
Qed.

Lemma determine_status_total (host : Host) (m : ModelInfo) :
  is_Some (determine_status host m).
Proof.
  rewrite determine_status_select. apply select_status_total. cbn. lia.
Qed.

(** What one call of [collect_metrics] returns. *)
Lemma collect_metrics_some (host : Host) (self : MetricsCollector)
    (m : ModelInfo) :
  exists st metrics,
    determine_status host m = Some st /\
    metrics =
      {| model_name := name m;
         timestamp := now host;
         memory_usage_mb := get_memory_usage host;
         cpu_usage_percent := get_cpu_usage host;
         inference_time_ms := simulate_inference_time m;
         throughput_tokens_per_sec := simulate_throughput m;
         model_size_mb := size_or_estimate m;
         gpu_usage_percent := get_gpu_usage host;
         error_rate := simulate_error_rate host;
         status := st |} /\
    collect_metrics host self m =
      Some (metrics, {| collection_history := collection_history self ++ [metrics] |}).
Proof.
  destruct (determine_status_total host m) as [st Hst].
  eexists st, _. split; [exact Hst|]. split; [reflexivity|].
  unfold collect_metrics. rewrite Hst. reflexivity.
Qed.

(** C8: collect_metrics returns a sample for every host, collector and
    model, whatever the host provides; when reading the memory fails the
    sample has 512.0 MB of memory, when reading the cpu fails it has 25.0
    per cent of cpu, and no failure reaches the caller. *)
Theorem collect_metrics_total (host : Host) (self : MetricsCollector)
    (m : ModelInfo) :
  exists metrics self',
    collect_metrics host self m = Some (metrics, self') /\
    collection_history self' = collection_history self ++ [metrics] /\
    model_name metrics = name m /\
    (rss host = None -> memory_usage_mb metrics = 512.0%Q) /\
    (cpu_percent host = None -> cpu_usage_percent metrics = 25.0%Q).
Proof.
  destruct (collect_metrics_some host self m) as (st & metrics & _ & Hm & E).
  exists metrics, {| collection_history := collection_history self ++ [metrics] |}.
  split; [exact E|]. split; [reflexivity|].
  rewrite Hm. cbn [model_name memory_usage_mb cpu_usage_percent].
  split; [reflexivity|].
  unfold get_memory_usage, get_cpu_usage.
  split; intros Hfail; rewrite Hfail; reflexivity.
Qed.

Lemma collect_metrics_total_witness :
  rss (blind_host 0.5) = None /\
  cpu_percent (blind_host 0.5) = None /\
  exists metrics self',
    collect_metrics (blind_host 0.5) new_collector
      (descriptor "gpt2" "text-generation" None) = Some (metrics, self') /\
    collection_history self' = collection_history new_collector ++ [metrics] /\
    model_name metrics = "gpt2" /\
    memory_usage_mb metrics = 512.0%Q /\
    cpu_usage_percent metrics = 25.0%Q.
Proof.
  split; [reflexivity|]. split; [reflexivity|].
  destruct (collect_metrics_total (blind_host 0.5) new_collector
              (descriptor "gpt2" "text-generation" None))
    as (metrics & self' & E & Hh & Hn & Hmem & Hcpu).
  exists metrics, self'.
  split; [exact E|]. split; [exact Hh|]. split; [exact Hn|].
  split; [apply Hmem; reflexivity|apply Hcpu; reflexivity].
Defined.

(** The lookup in [task_multipliers], by cases on the task type. *)
Lemma task_multipliers_lookup (task : string) :
  default 1.0%Q (task_multipliers !! task) = task_multiplier task.
Proof.
  unfold task_multiplier, task_multipliers. cbn [list_to_map foldr uncurry fst snd].
  destruct (String.eqb_spec task "text-generation") as [->|H1]; [reflexivity|].
  destruct (String.eqb_spec task "text-classification") as [->|H2]; [reflexivity|].
  destruct (String.eqb_spec task "question-answering") as [->|H3]; [reflexivity|].
  destruct (String.eqb_spec task "summarization") as [->|H4]; [reflexivity|].
  destruct (String.eqb_spec task "translation") as [->|H5]; [reflexivity|].
  rewrite !lookup_insert_ne by congruence. rewrite lookup_empty. reflexivity.
Qed.

(** C5: the inference time of a collected sample is 50.0, times
    1 + (size_mb / 1000) * 0.5 when a size is declared and not otherwise,
    times the multiplier of the task type (1.0 for a task that is not in
    the table), each operation being the float operation; without a
    declared size the estimated size plays no part, and for "gpt2" with
    task "text-generation" the result is 100.0. *)
Theorem simulate_inference_time_rule (host : Host) (self : MetricsCollector)
    (m : ModelInfo) :
  exists metrics self',
    collect_metrics host self m = Some (metrics, self') /\
    inference_time_ms metrics = inference_time_rule (size_mb m) (task_type m) /\
    (size_mb m = None ->
       inference_time_ms metrics = Num.fmul 50.0 (task_multiplier (task_type m))) /\
    (size_mb m = None -> task_type m = "text-generation" ->
       (inference_time_ms metrics == 100.0)%Q).
Proof.
  destruct (collect_metrics_some host self m) as (st & metrics & _ & Hm & E).
  eexists metrics, _. split; [exact E|]. rewrite Hm.
  cbn [inference_time_ms]. unfold simulate_inference_time, inference_time_rule.
  rewrite task_multipliers_lookup.
  split; [|split].
  - unfold size_scale. destruct (size_mb m) as [size|].
    + destruct (Num.truthy size) eqn:Ht; [reflexivity|].
      apply NumFacts.truthy_false in Ht.
      rewrite (NumFacts.fdiv_eq size 1000 0 1000 Ht) by reflexivity.
      apply NumFacts.fmul_eq; [vm_compute; reflexivity|reflexivity].
    + apply NumFacts.fmul_eq; [vm_compute; reflexivity|reflexivity].
  - intros ->. reflexivity.
  - intros -> ->. vm_compute. reflexivity.
Qed.

Lemma simulate_inference_time_rule_witness :
  size_mb (descriptor "gpt2" "text-generation" None) = None /\
  task_type (descriptor "gpt2" "text-generation" None) = "text-generation" /\
  exists metrics self',
    collect_metrics (blind_host 0.5) new_collector
      (descriptor "gpt2" "text-generation" None) = Some (metrics, self') /\
    inference_time_ms metrics = Num.fmul 50.0 2.0 /\
    (inference_time_ms metrics == 100.0)%Q.
Proof.
  split; [reflexivity|]. split; [reflexivity|].
  destruct (simulate_inference_time_rule (blind_host 0.5) new_collector
              (descriptor "gpt2" "text-generation" None))
    as (metrics & self' & E & _ & Hnone & Hgpt).
  exists metrics, self'. split; [exact E|].
  split; [exact (Hnone eq_refl)|exact (Hgpt eq_refl eq_refl)].
Defined.

(** The products are float products: with a declared size of 548 MB and
    the task summarization the inference time is 114.66000000000001, not
    the double 114.66. *)
Example simulate_inference_time_rounded :
  simulate_inference_time (descriptor "gpt2" "summarization" (Some 548%Q)) =
    Num.float 114.66000000000001 /\
  simulate_inference_time (descriptor "gpt2" "summarization" (Some 548%Q)) <>
    Num.float 114.66.
Proof. split; [vm_compute; reflexivity|vm_compute; discriminate]. Qed.

(** ** Size estimates *)

Lemma append_String (x : ascii) (a b : string) :
  String.append (String x a) b = String x (String.append a b).
Proof. reflexivity. Qed.

Lemma append_Empty (b : string) : String.append EmptyString b = b.
Proof. reflexivity. Qed.

Lemma append_assoc (a b c : string) :
  String.append (String.append a b) c = String.append a (String.append b c).
Proof.
  induction a as [|x a IH]; [reflexivity|].
  rewrite !append_String, IH. reflexivity.
Qed.

Lemma prefix_spec (p s : string) :
  String.prefix p s = true <-> exists post, s = String.append p post.
Proof.
  revert s. induction p as [|a p IH]; intros s.
  - cbn [String.append].
    split; [intros _; exists s; reflexivity|intros _; destruct s; reflexivity].
  - destruct s as [|b s]; cbn [String.prefix String.append].
    + split; [discriminate|intros [post H]; discriminate H].
    + destruct (Ascii.ascii_dec a b) as [->|Hne].
      * rewrite IH. split; intros [post H]; exists post.
        -- rewrite H. reflexivity.
        -- injection H as H. exact H.
      * split; [discriminate|]. intros [post H]. injection H as H _.
        symmetry in H. contradiction.
Qed.

Lemma contains_spec (p s : string) : contains p s = true <-> occurs p s.
Proof.
  induction s as [|c s IH]; cbn [contains]; rewrite orb_true_iff, prefix_spec.
  - split.
    + intros [[post H]|H]; [|discriminate H].
      exists EmptyString, post. exact H.
    + intros (pre & post & H). left.
      destruct pre; [exists post; exact H|discriminate H].
  - rewrite IH. split.
    + intros [[post H]|(pre & post & H)].
      * exists EmptyString, post. exact H.
      * exists (String c pre), post. cbn [String.append]. rewrite H. reflexivity.
    + intros (pre & post & H). destruct pre as [|c' pre].
      * left. exists post. exact H.
      * right. cbn [String.append] in H. injection H as _ H.
        exists pre, post. exact H.
Qed.

Lemma contains_false (p s : string) : contains p s = false <-> ~ occurs p s.
Proof.
  rewrite <- contains_spec. destruct (contains p s); split; congruence.
Qed.

(** The loop returns the size of the first pattern that occurs, and the
    default when none does. *)
Lemma estimate_loop_first (items : list (string * Q)) (lowered : string) :
  (forall i pattern size,
     items !! i = Some (pattern, size) ->
     occurs pattern lowered ->
     (forall j entry, (j < i)%nat -> items !! j = Some entry ->
        ~ occurs entry.1 lowered) ->
     estimate_loop items lowered = size) /\
  ((forall entry, entry ∈ items -> ~ occurs entry.1 lowered) ->
     estimate_loop items lowered = 300.0%Q).
Proof.
  induction items as [|[p0 s0] items [IH1 IH2]]; cbn [estimate_loop].
  - split; [|reflexivity]. intros i pattern size Hi. rewrite lookup_nil in Hi.
    discriminate Hi.
  - split.
    + intros [|i] pattern size Hi Hocc Hfirst.
      * cbn in Hi. injection Hi as -> ->.
        apply contains_spec in Hocc. rewrite Hocc. reflexivity.
      * assert (H0 : contains p0 lowered = false).
        { apply contains_false. apply (Hfirst 0%nat (p0, s0)); [lia|reflexivity]. }
        rewrite H0. apply (IH1 i pattern size Hi Hocc).
        intros j entry Hj Hl. apply (Hfirst (S j) entry); [lia|exact Hl].
    + intros Hnone.
      assert (H0 : contains p0 lowered = false).
      { apply contains_false. apply (Hnone (p0, s0)). apply list_elem_of_here. }
      rewrite H0. apply IH2. intros entry Hin. apply Hnone.
      apply list_elem_of_further. exact Hin.
Qed.

(** What the code does: with a declared positive size the sample has
    exactly that size; without a declared size it has the size of the
    first pattern of the table, in the order bert-base, bert-large, gpt2,
    distilbert, roberta-base, t5-small, t5-base, that occurs in the
    lower-cased model name, and 300.0 when no pattern occurs. *)
Theorem model_size_rule (host : Host) (self : MetricsCollector) (m : ModelInfo) :
  exists metrics self',
    collect_metrics host self m = Some (metrics, self') /\
    (forall size, size_mb m = Some size -> (0 < size)%Q ->
       model_size_mb metrics = size) /\
    (size_mb m = None ->
       (forall i pattern size,
          size_estimates !! i = Some (pattern, size) ->
          occurs pattern (lower (name m)) ->
          (forall j entry, (j < i)%nat -> size_estimates !! j = Some entry ->
             ~ occurs entry.1 (lower (name m))) ->
          model_size_mb metrics = size) /\
       ((forall entry, entry ∈ size_estimates ->
           ~ occurs entry.1 (lower (name m))) ->
        model_size_mb metrics = 300.0%Q)).
Proof.
  destruct (collect_metrics_some host self m) as (st & metrics & _ & Hm & E).
  eexists metrics, _. split; [exact E|]. rewrite Hm.
  cbn [model_size_mb]. unfold size_or_estimate. split.
  - intros size -> Hpos.
    assert (Ht : Num.truthy size = true).
    { apply NumFacts.truthy_spec. intros Hz. rewrite Hz in Hpos.
      exact (Qlt_irrefl 0 Hpos). }
    rewrite Ht. reflexivity.
  - intros ->. unfold estimate_model_size. apply estimate_loop_first.
Qed.

Lemma model_size_rule_witness :
  (size_mb (descriptor "gpt2" "text-generation" (Some 548%Q)) = Some 548%Q /\
   (0 < 548)%Q /\
   exists metrics self',
     collect_metrics (blind_host 0.5) new_collector
       (descriptor "gpt2" "text-generation" (Some 548%Q)) = Some (metrics, self') /\
     model_size_mb metrics = 548%Q) /\
  (size_mb (descriptor "GPT2-medium" "text-generation" None) = None /\
   size_estimates !! 2%nat = Some ("gpt2", 548.0%Q) /\
   occurs "gpt2" (lower "GPT2-medium") /\
   exists metrics self',
     collect_metrics (blind_host 0.5) new_collector
       (descriptor "GPT2-medium" "text-generation" None) = Some (metrics, self') /\
     model_size_mb metrics = 548.0%Q).
Proof.
  split.
  - split; [reflexivity|]. split; [reflexivity|].
    destruct (model_size_rule (blind_host 0.5) new_collector
                (descriptor "gpt2" "text-generation" (Some 548%Q)))
      as (metrics & self' & E & Hdecl & _).
    exists metrics, self'. split; [exact E|].
    apply Hdecl; reflexivity.
  - assert (Hocc : occurs "gpt2" (lower "GPT2-medium")).
    { apply contains_spec. vm_compute. reflexivity. }
    split; [reflexivity|]. split; [reflexivity|]. split; [exact Hocc|].
    destruct (model_size_rule (blind_host 0.5) new_collector
                (descriptor "GPT2-medium" "text-generation" None))
      as (metrics & self' & E & _ & Hest).
    exists metrics, self'. split; [exact E|].
    apply (proj1 (Hest eq_refl) 2%nat "gpt2"); [reflexivity|exact Hocc|].
    intros [|[|j]] entry Hj Hl; [| |lia]; injection Hl as <-;
      apply contains_false; vm_compute; reflexivity.
Defined.

(** The entry of "distilbert" is out of reach for every name that
    contains "distilbert-base": such a name contains "bert-base", at which
    the loop stops. *)
Lemma distilbert_base_shadowed (m : ModelInfo) :
  occurs "distilbert-base" (lower (name m)) ->
  estimate_model_size m = 440.0%Q.
Proof.
  intros (pre & post & E). unfold estimate_model_size, size_estimates.
  cbn [estimate_loop].
  assert (H : contains "bert-base" (lower (name m)) = true).
  { apply contains_spec. exists (String.append pre "distil"), post.
    rewrite E, append_assoc. reflexivity. }
  rewrite H. reflexivity.
Qed.

(** C6: the code departs from the claim for "distilbert-base-uncased", the
    third model of [Main.py], without a declared size: both "bert-base" and
    "distilbert" occur in the name, "distilbert" is the longer pattern and
    the one the name starts with, so the longest match selects its entry of
    the table (268.0); the loop stops at "bert-base", the earlier entry,
    and the collected sample has its size (440.0). The entry of
    "distilbert" is never reached for a name that contains
    "distilbert-base". *)
Lemma model_size_longest_match_counterexample :
  size_mb distilbert = None /\
  occurs "distilbert" (lower (name distilbert)) /\
  occurs "bert-base" (lower (name distilbert)) /\
  String.prefix "distilbert" (lower (name distilbert)) = true /\
  String.prefix "bert-base" (lower (name distilbert)) = false /\
  estimate_by_longest_match (name distilbert) = 268.0%Q /\
  exists metrics self',
    collect_metrics (blind_host 0.5) new_collector distilbert =
      Some (metrics, self') /\
    model_size_mb metrics = 440.0%Q /\
    ~ (model_size_mb metrics == estimate_by_longest_match (name distilbert))%Q.
Proof.
  split; [reflexivity|].
  split; [apply contains_spec; vm_compute; reflexivity|].
  split; [apply contains_spec; vm_compute; reflexivity|].
  split; [reflexivity|]. split; [reflexivity|].
  split; [vm_compute; reflexivity|].
  eexists _, _. split; [vm_compute; reflexivity|].
  split; [reflexivity|].
  vm_compute. discriminate.
Qed.

(** ** The status selection *)





(** The four triples of weights, as the doubles that Python prints. *)
Example status_weights_cases :
  status_weights (descriptor "m" "translation" None) =
    {| w_healthy := Num.float 0.8;
       w_warning := Num.float 0.15;
       w_degraded := Num.float 0.05 |} /\
  status_weights (descriptor "m" "summarization" None) =
    {| w_healthy := Num.float 0.75;
       w_warning := Num.float 0.19;
       w_degraded := Num.float 0.060000000000000005 |} /\
  status_weights (descriptor "m" "translation" (Some 1001%Q)) =
    {| w_healthy := Num.float 0.7000000000000001;
       w_warning := Num.float 0.22999999999999998;
       w_degraded := Num.float 0.07 |} /\
  status_weights (descriptor "m" "summarization" (Some 1001%Q)) =
    {| w_healthy := Num.float 0.6500000000000001;
       w_warning := Num.float 0.27;
       w_degraded := Num.float 0.08000000000000002 |}.
Proof. repeat split; vm_compute; reflexivity. Qed.

(** The cumulative sums are float sums: with the base weights the second
    one is 0.9500000000000001, so that this draw selects warning; the
    weights of a large model with a complex task add up to
    0.9999999999999999 before they are divided, and to 1.0000000000000002
    afterwards. *)
Example determine_status_rounded :
  determine_status (blind_host (Num.float 0.9500000000000001))
    (descriptor "m" "translation" None) = Some "warning" /\
  Num.py_sum (adjusted_weights (descriptor "m" "summarization" (Some 1001%Q))) =
    Num.float 0.9999999999999999 /\
  weight_sum (status_weights (descriptor "m" "summarization" (Some 1001%Q))) =
    Num.float 1.0000000000000002.
Proof. repeat split; vm_compute; reflexivity. Qed.


(** * Further properties *)

(** ** Collected samples against the default thresholds *)

(** The lookup in [task_throughputs], by cases on the task type. *)
Lemma task_throughputs_lookup (task : string) :
  default 100.0%Q (task_throughputs !! task) =
  if String.eqb task "text-generation" then 80.0%Q
  else if String.eqb task "text-classification" then 200.0%Q
  else if String.eqb task "question-answering" then 120.0%Q
  else if String.eqb task "summarization" then 60.0%Q
  else if String.eqb task "translation" then 90.0%Q
  else 100.0%Q.
Proof.
  unfold task_throughputs. cbn [list_to_map foldr uncurry fst snd].
  destruct (String.eqb_spec task "text-generation") as [->|H1]; [reflexivity|].
  destruct (String.eqb_spec task "text-classification") as [->|H2]; [reflexivity|].
  destruct (String.eqb_spec task "question-answering") as [->|H3]; [reflexivity|].
  destruct (String.eqb_spec task "summarization") as [->|H4]; [reflexivity|].
  destruct (String.eqb_spec task "translation") as [->|H5]; [reflexivity|].
  rewrite !lookup_insert_ne by congruence. rewrite lookup_empty. reflexivity.
Qed.

Lemma simulate_throughput_bounds (m : ModelInfo) :
  (60 <= simulate_throughput m)%Q /\ (simulate_throughput m <= 200)%Q.
Proof.
  unfold simulate_throughput. rewrite task_throughputs_lookup.
  repeat match goal with |- context [String.eqb ?a ?b] =>
    destruct (String.eqb a b) end;
    split; apply Qle_bool_iff; reflexivity.
Qed.

(** X1: the throughput of a collected sample lies between 60 and 200
    tokens per second, so the evaluator with the default thresholds never
    reports a low throughput for a collected sample. *)
Theorem collected_throughput_never_low (host : Host) (self : MetricsCollector)
    (m : ModelInfo) :
  exists metrics self',
    collect_metrics host self m = Some (metrics, self') /\
    (60 <= throughput_tokens_per_sec metrics)%Q /\
    (throughput_tokens_per_sec metrics <= 200)%Q /\
    forall a, a ∈ check_thresholds default_thresholds metrics ->
      a_type a <> "throughput_low".
Proof.
  destruct (collect_metrics_some host self m) as (st & metrics & _ & Hm & E).
  eexists metrics, _. split; [exact E|].
  destruct (simulate_throughput_bounds m) as [Hlo Hhi].
  assert (Ht : throughput_tokens_per_sec metrics = simulate_throughput m)
    by (rewrite Hm; reflexivity).
  rewrite Ht. split; [exact Hlo|]. split; [exact Hhi|].
  intros a Ha Hty. apply check_thresholds_elem in Ha.
  destruct Ha as [(_ & _ & _ & _ & _ & _ & _ & _ & Hty' & _)
                 | (t & Hk & _ & Hl & _)].
  - rewrite Hty in Hty'. discriminate Hty'.
  - assert (t = 50%Q) by (vm_compute in Hk; congruence). subst t.
    rewrite Ht in Hl. apply NumFacts.ltb_spec in Hl. lra.
Qed.

Lemma simulate_inference_time_no_size (m : ModelInfo) :
  size_mb m = None -> (simulate_inference_time m <= 100)%Q.
Proof.
  intros Hs. unfold simulate_inference_time. rewrite Hs.
  rewrite task_multipliers_lookup. unfold task_multiplier.
  repeat match goal with |- context [String.eqb ?a ?b] =>
    destruct (String.eqb a b) end;
    apply Qle_bool_iff; vm_compute; reflexivity.
Qed.

(** X2: for a model without a declared size and an error draw of at most
    10, the collected sample has an inference time of at most 100 ms, and
    under the default thresholds its only possible alerts are
    threshold_exceeded alerts for memory_usage_mb or cpu_usage_percent;
    when both readings of the host fail there is no alert at all. *)
Theorem collected_sample_alerts (host : Host) (self : MetricsCollector)
    (m : ModelInfo) :
  size_mb m = None ->
  (error_draw host <= 10)%Q ->
  exists metrics self',
    collect_metrics host self m = Some (metrics, self') /\
    (inference_time_ms metrics <= 100)%Q /\
    (forall a, a ∈ check_thresholds default_thresholds metrics ->
       a_type a = "threshold_exceeded" /\
       (a_metric a = "memory_usage_mb" \/ a_metric a = "cpu_usage_percent")) /\
    (rss host = None -> cpu_percent host = None ->
       check_thresholds default_thresholds metrics = []).
Proof.
  intros Hsize Herr.
  destruct (collect_metrics_some host self m) as (st & metrics & _ & Hm & E).
  eexists metrics, _. split; [exact E|].
  pose proof (simulate_inference_time_no_size m Hsize) as Htime.
  destruct (simulate_throughput_bounds m) as [Hthr _].
  assert (Hcases : forall a, a ∈ check_thresholds default_thresholds metrics ->
            a_type a = "threshold_exceeded" /\
            ((a_metric a = "memory_usage_mb" /\
              (2048 < get_memory_usage host)%Q) \/
             (a_metric a = "cpu_usage_percent" /\
              (80 < get_cpu_usage host)%Q))).
  { intros a Ha. apply check_thresholds_elem in Ha.
    destruct Ha as [(metric & value & key & t & Hin & Hk & _ & Hg & Hty & Hme & _)
                   | (t & Hk & _ & Hl & _)].
    - split; [exact Hty|]. rewrite Hme. clear Hme Hty.
      apply NumFacts.gtb_spec in Hg.
      unfold checks in Hin. rewrite Hm in Hin.
      cbn [memory_usage_mb cpu_usage_percent inference_time_ms error_rate] in Hin.
      rewrite !elem_of_cons, elem_of_nil in Hin.
      destruct Hin as [Hin|[Hin|[Hin|[Hin|[]]]]];
        injection Hin as -> -> ->; vm_compute in Hk;
        injection Hk as <-.
      + left. split; [reflexivity|exact Hg].
      + right. split; [reflexivity|exact Hg].
      + exfalso. lra.
      + exfalso. unfold simulate_error_rate in Hg. lra.
    - exfalso. assert (t = 50%Q) by (vm_compute in Hk; congruence). subst t.
      apply NumFacts.ltb_spec in Hl. rewrite Hm in Hl.
      cbn [throughput_tokens_per_sec] in Hl. lra. }
  split; [rewrite Hm; exact Htime|].
  split.
  - intros a Ha. destruct (Hcases a Ha) as [Hty [[Hme _]|[Hme _]]]; tauto.
  - intros Hrss Hcpu.
    destruct (check_thresholds default_thresholds metrics) as [|a l] eqn:El;
      [reflexivity|].
    exfalso. destruct (Hcases a) as [_ [[_ H]|[_ H]]].
    + apply list_elem_of_here.
    + unfold get_memory_usage in H. rewrite Hrss in H. revert H.
      apply Qle_not_lt. apply Qle_bool_iff. reflexivity.
    + unfold get_cpu_usage in H. rewrite Hcpu in H. revert H.
      apply Qle_not_lt. apply Qle_bool_iff. reflexivity.
Qed.

Lemma collected_sample_alerts_witness :
  size_mb (descriptor "gpt2" "text-generation" None) = None /\
  (error_draw (blind_host 0.5) <= 10)%Q /\
  exists metrics self',
    collect_metrics (blind_host 0.5) new_collector
      (descriptor "gpt2" "text-generation" None) = Some (metrics, self') /\
    (inference_time_ms metrics <= 100)%Q /\
    check_thresholds default_thresholds metrics = [].
Proof.
  assert (H1 : size_mb (descriptor "gpt2" "text-generation" None) = None)
    by reflexivity.
  assert (H2 : (error_draw (blind_host 0.5) <= 10)%Q).
  { unfold Qle. simpl. lia. }
  split; [exact H1|]. split; [exact H2|].
  destruct (collected_sample_alerts (blind_host 0.5) new_collector
              (descriptor "gpt2" "text-generation" None) H1 H2)
    as (metrics & self' & E & Ht & _ & Hnone).
  exists metrics, self'. split; [exact E|]. split; [exact Ht|].
  apply Hnone; reflexivity.
Defined.

(** ** The alert log *)

Section AlertLog.

Variable thresholds : gmap string Q.
Variable metrics : PerformanceMetrics.

Lemma fold_check_step_from_sample (cs : list (string * Q * string)) acc :
  Forall (from_sample metrics) acc ->
  Forall (from_sample metrics) (fold_left (check_step thresholds metrics) cs acc).
Proof.
  revert acc. induction cs as [|[[metric value] key] cs IH]; intros acc Hacc.
  - exact Hacc.
  - cbn [fold_left]. apply IH. unfold check_step, guarded.
    destruct (thresholds !! key) as [t|]; [|exact Hacc].
    destruct (Num.truthy t) eqn:Ht; [|exact Hacc].
    destruct (Num.gtb value t) eqn:Hg; [|exact Hacc].
    cbn [andb]. apply Forall_app. split; [exact Hacc|].
    apply Forall_cons. split; [|apply Forall_nil; exact I].
    apply NumFacts.truthy_spec in Ht. apply NumFacts.gtb_spec in Hg.
    split; [reflexivity|]. split; [reflexivity|].
    split; [exact Ht|]. left. split; [reflexivity|]. split; [exact Hg|].
    cbn [a_value a_threshold a_severity].
    destruct (Num.gtb value (Num.fmul t 1.5)) eqn:Hh.
    + left. apply NumFacts.gtb_spec in Hh. split; [exact Hh|reflexivity].
    + right. apply NumFacts.gtb_false in Hh. split; [exact Hh|reflexivity].
Qed.

Lemma check_thresholds_from_sample :
  Forall (from_sample metrics) (check_thresholds thresholds metrics).
Proof.
  unfold check_thresholds.
  pose proof (fold_check_step_from_sample (checks metrics) []
                (Forall_nil_2 (from_sample metrics))) as Hloop.
  unfold guarded.
  destruct (thresholds !! "min_throughput_tokens_per_sec") as [t|];
    [|exact Hloop].
  destruct (Num.truthy t) eqn:Ht; [|exact Hloop].
  destruct (Num.ltb (throughput_tokens_per_sec metrics) t) eqn:Hl;
    [|exact Hloop].
  cbn [andb]. apply Forall_app. split; [exact Hloop|].
  apply Forall_cons. split; [|apply Forall_nil; exact I].
  apply NumFacts.truthy_spec in Ht. apply NumFacts.ltb_spec in Hl.
  split; [reflexivity|]. split; [reflexivity|].
  split; [exact Ht|]. right. repeat split; [exact Hl].
Qed.

Lemma check_thresholds_model (a : Alert) :
  a ∈ check_thresholds thresholds metrics ->
  a_model a = model_name metrics /\ a_timestamp a = timestamp metrics.
Proof.
  intros Ha. pose proof check_thresholds_from_sample as H.
  rewrite Forall_forall in H. destruct (H a Ha) as (H1 & H2 & _). tauto.
Qed.

Lemma check_thresholds_wf : Forall alert_wf (check_thresholds thresholds metrics).
Proof.
  eapply Forall_impl; [apply check_thresholds_from_sample|].
  intros a (_ & _ & H). exact H.
Qed.

End AlertLog.

Lemma count_model_app (name : string) (l1 l2 : list Alert) :
  count_model name (l1 ++ l2) = (count_model name l1 + count_model name l2)%nat.
Proof.
  induction l1 as [|a l1 IH]; [reflexivity|].
  cbn [app count_model]. rewrite IH. lia.
Qed.

Lemma count_model_all (name : string) (l : list Alert) :
  (forall a, a ∈ l -> a_model a = name) -> count_model name l = length l.
Proof.
  induction l as [|a l IH]; intros H; [reflexivity|].
  cbn [count_model length].
  rewrite (proj2 (String.eqb_eq _ _) (H a (list_elem_of_here _ _))).
  rewrite IH; [reflexivity|]. intros b Hb. apply H.
  apply list_elem_of_further. exact Hb.
Qed.

Lemma count_model_none (name : string) (l : list Alert) :
  (forall a, a ∈ l -> a_model a <> name) -> count_model name l = 0%nat.
Proof.
  induction l as [|a l IH]; intros H; [reflexivity|].
  cbn [count_model].
  rewrite (proj2 (String.eqb_neq _ _) (H a (list_elem_of_here _ _))).
  rewrite IH; [reflexivity|]. intros b Hb. apply H.
  apply list_elem_of_further. exact Hb.
Qed.

(** X3: the alerts of a call of track_performance are filed under the
    model name stored in the sample, not under the name passed to the call:
    the number of alerts that a summary reports for a name grows by the
    number of alerts of the call when the sample carries that name, and
    stays as it was for every other name, the name passed to the call
    included. *)
Theorem track_alerts_follow_sample (self : PerformanceMonitor) (key : string)
    (metrics : PerformanceMetrics) :
  exists self' result,
    track_performance self key metrics = Some (self', result) /\
    (forall a, a ∈ r_alerts result ->
       a_model a = model_name metrics /\ a_timestamp a = timestamp metrics) /\
    count_model (model_name metrics) (alerts self') =
      (count_model (model_name metrics) (alerts self) +
       length (r_alerts result))%nat /\
    (forall name, name <> model_name metrics ->
       count_model name (alerts self') = count_model name (alerts self)).
Proof.
  destruct (track_performance_step self key metrics) as (t & _ & E).
  eexists _, _. split; [exact E|].
  cbn [r_alerts alerts].
  split; [intros a; apply check_thresholds_model|].
  split.
  - rewrite count_model_app. f_equal. apply count_model_all.
    intros a Ha. apply (check_thresholds_model _ _ a Ha).
  - intros name Hne. rewrite count_model_app.
    rewrite (count_model_none name (check_thresholds (thresholds self) metrics)).
    + lia.
    + intros a Ha Hn. apply Hne. rewrite <- Hn.
      apply (check_thresholds_model _ _ a Ha).
Qed.

(** X4: every alert in the log of a reachable monitor records a violation
    of the threshold it stores: the threshold is not zero, a
    threshold_exceeded alert has a value strictly above it and is high
    exactly when the value is strictly above the float product of the
    threshold and 1.5, and a
    throughput_low alert has a value strictly below it and is medium;
    later changes of the threshold table leave this true. *)
Theorem reachable_alerts_wf (self : PerformanceMonitor) :
  reachable self -> Forall alert_wf (alerts self).
Proof.
  induction 1 as [|self key metrics self' result _ IH Hstep|self table _ IH
                  |self collector _ IH].
  - apply Forall_nil. exact I.
  - destruct (track_performance_step self key metrics) as (t & _ & E).
    rewrite E in Hstep. injection Hstep as <- _. cbn [alerts].
    apply Forall_app. split; [exact IH|apply check_thresholds_wf].
  - exact IH.
  - exact IH.
Qed.

Lemma reachable_alerts_wf_witness :
  reachable loud_monitor /\
  length (alerts loud_monitor) = 5%nat /\
  Forall alert_wf (alerts loud_monitor).
Proof.
  assert (H : reachable loud_monitor).
  { pose proof (track_all_reachable [("gpt2", loud_sample)] new_monitor reach_new)
      as H.
    unfold loud_monitor.
    destruct (track_all new_monitor [("gpt2", loud_sample)]);
      [exact H|exact reach_new]. }
  split; [exact H|]. split; [reflexivity|].
  exact (reachable_alerts_wf loud_monitor H).
Defined.

(** ** The overview *)

Lemma sum_lengths_insert (histories : gmap string (list PerformanceMetrics))
    (key : string) (history : list PerformanceMetrics) :
  (sum_lengths (<[key := history]> histories) +
   length (default [] (histories !! key)))%nat =
  (sum_lengths histories + length history)%nat.
Proof.
  unfold sum_lengths.
  destruct (histories !! key) as [old|] eqn:E; cbn [default from_option id].
  - rewrite (map_fold_delete_L _ _ key old histories); [|intros; lia|exact E].
    rewrite <- insert_delete_eq.
    rewrite map_fold_insert_L; [lia|intros; lia|apply lookup_delete_eq].
  - rewrite map_fold_insert_L; [cbn [length]; lia|intros; lia|exact E].
Qed.

(** X5: one call of track_performance raises total_metrics_collected of the
    overview by exactly one and total_alerts by the number of alerts it
    returns; total_models_monitored grows by one when the name was not
    tracked before and stays as it was otherwise. *)
Theorem overview_after_track (self : PerformanceMonitor) (key : string)
    (metrics : PerformanceMetrics) :
  exists self' result,
    track_performance self key metrics = Some (self', result) /\
    total_metrics_collected (get_system_overview self') =
      S (total_metrics_collected (get_system_overview self)) /\
    total_alerts (get_system_overview self') =
      (total_alerts (get_system_overview self) + length (r_alerts result))%nat /\
    (performance_history self !! key = None ->
       total_models_monitored (get_system_overview self') =
         S (total_models_monitored (get_system_overview self))) /\
    (is_Some (performance_history self !! key) ->
       total_models_monitored (get_system_overview self') =
         total_models_monitored (get_system_overview self)).
Proof.
  destruct (track_performance_step self key metrics) as (t & _ & E).
  eexists _, _. split; [exact E|].
  cbn [get_system_overview total_metrics_collected total_alerts
       total_models_monitored performance_history alerts r_alerts].
  split.
  - pose proof (sum_lengths_insert (performance_history self) key
                  (history_of self key ++ [metrics])) as H.
    unfold sum_lengths, history_of in *. rewrite length_app in H.
    cbn [length] in H. lia.
  - split; [apply length_app|]. split.
    + intros Hnone. apply map_size_insert_None. exact Hnone.
    + intros Hsome. apply map_size_insert_Some. exact Hsome.
Qed.

Lemma overview_after_track_witness :
  performance_history new_monitor !! "gpt2" = None /\
  exists self' result,
    track_performance new_monitor "gpt2" loud_sample = Some (self', result) /\
    total_metrics_collected (get_system_overview self') = 1%nat /\
    total_alerts (get_system_overview self') = 5%nat /\
    total_models_monitored (get_system_overview self') = 1%nat.
Proof.
  split; [reflexivity|].
  destruct (overview_after_track new_monitor "gpt2" loud_sample)
    as (self' & result & E & Hm & Ha & Hnew & _).
  exists self', result. split; [exact E|].
  split; [rewrite Hm; reflexivity|].
  split.
  - rewrite Ha. vm_compute in E. injection E as _ <-. reflexivity.
  - rewrite Hnew; reflexivity.
Defined.

(** ** Uptime statistics *)

Lemma count_healthy_le (l : list PerformanceMetrics) :
  (count_healthy l <= length l)%nat.
Proof. unfold count_healthy. apply length_filter. Qed.

Lemma count_healthy_all (l : list PerformanceMetrics) :
  count_healthy l = length l <-> Forall (fun m => status m = "healthy") l.
Proof.
  unfold count_healthy. induction l as [|m l IH].
  - split; [intros _; apply Forall_nil; exact I|reflexivity].
  - rewrite filter_cons. rewrite Forall_cons.
    destruct (decide (status m = "healthy")) as [E|E]; cbn [length].
    + rewrite <- IH. split; [intros H; split; [exact E|lia]|intros [_ H]; lia].
    + pose proof (length_filter (fun m => status m = "healthy") l).
      split; [intros H'; lia|intros [H' _]; contradiction].
Qed.

Lemma count_healthy_none (l : list PerformanceMetrics) :
  count_healthy l = 0%nat <-> Forall (fun m => status m <> "healthy") l.
Proof.
  unfold count_healthy. induction l as [|m l IH].
  - split; [intros _; apply Forall_nil; exact I|reflexivity].
  - rewrite filter_cons. rewrite Forall_cons.
    destruct (decide (status m = "healthy")) as [E|E]; cbn [length].
    + split; [intros H; lia|intros [H' _]; contradiction].
    + rewrite <- IH. split; [intros H; split; [exact E|exact H]|intros [_ H]; exact H].
Qed.

(** X6: calculate_uptime_stats returns the single entry uptime_percentage
    0.0 for an empty history; for a non-empty history it returns the
    percentage of samples whose status is healthy (the float quotient of
    their number by the number of samples, times 100), the number of
    samples and the number of healthy samples; the percentage lies
    between 0 and 100, is 100 when every sample is healthy and 0 when none
    is. *)
Theorem calculate_uptime_stats_rule (history : list PerformanceMetrics) :
  (history = [] ->
     calculate_uptime_stats history = Some [ ("uptime_percentage", 0.0%Q) ]) /\
  (history <> [] ->
     exists uptime,
       calculate_uptime_stats history =
         Some [ ("uptime_percentage", uptime);
                ("total_measurements", len history);
                ("healthy_measurements", inject_Z (Z.of_nat (count_healthy history))) ] /\
       uptime =
         Num.fmul (Num.fdiv (inject_Z (Z.of_nat (count_healthy history)))
                            (len history)) 100 /\
       (0 <= uptime)%Q /\ (uptime <= 100)%Q /\
       (Forall (fun m => status m = "healthy") history -> (uptime == 100)%Q) /\
       (Forall (fun m => status m <> "healthy") history -> (uptime == 0)%Q)).
Proof.
  split.
  - intros ->. reflexivity.
  - intros Hne. unfold calculate_uptime_stats.
    destruct (decide (history = [])) as [|_]; [contradiction|].
    pose proof (len_nonzero history Hne) as Hnz.
    rewrite (NumFacts.py_div_Some _ _ Hnz). cbn [mbind option_bind].
    eexists. split; [reflexivity|]. split; [reflexivity|].
    assert (Hratio : (0 <= Num.fdiv (inject_Z (Z.of_nat (count_healthy history)))
                             (len history) <= 1)%Q).
    { pose proof (count_healthy_le history) as Hle.
      assert (Hn : (0 < len history)%Q).
      { unfold len, Qlt. cbn. destruct history; [congruence|cbn; lia]. }
      assert (Hh : (0 <= inject_Z (Z.of_nat (count_healthy history)))%Q).
      { unfold Qle. cbn. lia. }
      assert (Hhn : (inject_Z (Z.of_nat (count_healthy history)) <=
                     len history)%Q).
      { unfold len, Qle. cbn. lia. }
      split.
      - apply Binary64.fround_nonneg. apply Qle_shift_div_l; [exact Hn|lra].
      - change 1%Q with (Num.fround 1). apply Binary64.fround_mono.
        apply Qle_shift_div_r; [exact Hn|lra]. }
    split; [apply Binary64.fround_nonneg; lra|].
    split.
    { change 100%Q with (Num.fround 100) at 2. apply Binary64.fround_mono. lra. }
    split.
    + intros Hall. apply count_healthy_all in Hall. rewrite Hall.
      fold (len history). unfold Num.fdiv.
      rewrite (NumFacts.fround_eq (len history / len history) 1)
        by (field; exact Hnz).
      vm_compute. reflexivity.
    + intros Hnone. apply count_healthy_none in Hnone. rewrite Hnone.
      change (inject_Z (Z.of_nat 0)) with 0%Q. unfold Num.fdiv.
      rewrite (NumFacts.fround_eq (0 / len history) 0)
        by (field; exact Hnz).
      vm_compute. reflexivity.
Qed.

Lemma calculate_uptime_stats_rule_witness :
  calculate_uptime_stats [] = Some [ ("uptime_percentage", 0.0%Q) ] /\
  (mixed_history <> [] /\
   exists uptime,
     calculate_uptime_stats mixed_history =
       Some [ ("uptime_percentage", uptime);
              ("total_measurements", 100%Q);
              ("healthy_measurements", 57%Q) ] /\
     uptime = Num.float 56.99999999999999 /\
     uptime <> 57%Q /\
     (0 <= uptime)%Q /\ (uptime <= 100)%Q).
Proof.
  split; [exact (proj1 (calculate_uptime_stats_rule []) eq_refl)|].
  assert (Hne : mixed_history <> []) by discriminate.
  split; [exact Hne|].
  destruct (proj2 (calculate_uptime_stats_rule mixed_history) Hne)
    as (uptime & E & Hup & Hlo & Hhi & _).
  exists uptime. split; [exact E|].
  split; [rewrite Hup; vm_compute; reflexivity|].
  split; [rewrite Hup; vm_compute; discriminate|].
  split; [exact Hlo|exact Hhi].
Defined.


(** ** Model descriptors *)

Lemma lower_ascii_idem (c : ascii) : lower_ascii (lower_ascii c) = lower_ascii c.
Proof. destruct c as [[] [] [] [] [] [] [] []]; reflexivity. Qed.

Lemma is_space_lower (c : ascii) : is_space (lower_ascii c) = is_space c.
Proof. destruct c as [[] [] [] [] [] [] [] []]; reflexivity. Qed.

Lemma lower_idem (s : string) : lower (lower s) = lower s.
Proof.
  induction s as [|c s IH]; [reflexivity|].
  cbn [lower]. rewrite lower_ascii_idem, IH. reflexivity.
Qed.

Lemma lstrip_lower (s : string) : lstrip (lower s) = lower (lstrip s).
Proof.
  induction s as [|c s IH]; [reflexivity|].
  cbn [lower lstrip]. rewrite is_space_lower.
  destruct (is_space c); [exact IH|reflexivity].
Qed.

Lemma rstrip_lower (s : string) : rstrip (lower s) = lower (rstrip s).
Proof.
  induction s as [|c s IH]; [reflexivity|].
  cbn [lower rstrip]. rewrite IH, is_space_lower.
  destruct (rstrip s); cbn [lower]; [|reflexivity].
  destruct (is_space c); reflexivity.
Qed.

Lemma strip_lower (s : string) : strip (lower s) = lower (strip s).
Proof. unfold strip. rewrite lstrip_lower, rstrip_lower. reflexivity. Qed.

Lemma rstrip_idem (s : string) : rstrip (rstrip s) = rstrip s.
Proof.
  induction s as [|c s IH]; [reflexivity|].
  cbn [rstrip]. destruct (rstrip s) as [|x r] eqn:E.
  - destruct (is_space c) eqn:Hc; [reflexivity|].
    cbn [rstrip]. rewrite Hc. reflexivity.
  - cbn [rstrip]. cbn [rstrip] in IH. rewrite IH. reflexivity.
Qed.

(** A string that does not start with whitespace. *)
Lemma lstrip_rstrip (s : string) : lstrip (rstrip (lstrip s)) = rstrip (lstrip s).
Proof.
  induction s as [|c s IH]; [reflexivity|].
  cbn [lstrip]. destruct (is_space c) eqn:Hc; [exact IH|].
  cbn [rstrip]. destruct (rstrip s); rewrite ?Hc; cbn [lstrip]; rewrite Hc;
    reflexivity.
Qed.

Lemma strip_idem (s : string) : strip (strip s) = strip s.
Proof. unfold strip. rewrite lstrip_rstrip. apply rstrip_idem. Qed.

Lemma hyphenate_char (c : ascii) :
  let g x := if Ascii.eqb (lower_ascii x) " " then "-"%char else lower_ascii x in
  g (g c) = g c /\ Ascii.eqb (g c) " " = false.
Proof. destruct c as [[] [] [] [] [] [] [] []]; split; reflexivity. Qed.

Lemma hyphenate_idem (t : string) :
  replace_char " " "-" (lower (replace_char " " "-" (lower t))) =
  replace_char " " "-" (lower t).
Proof.
  induction t as [|c t IH]; [reflexivity|].
  cbn [lower replace_char]. rewrite IH.
  rewrite (proj1 (hyphenate_char c)). reflexivity.
Qed.

Lemma hyphenate_no_space (t : string) :
  has_char " " (replace_char " " "-" (lower t)) = false.
Proof.
  induction t as [|c t IH]; [reflexivity|].
  cbn [lower replace_char has_char]. rewrite IH.
  rewrite (proj2 (hyphenate_char c)). reflexivity.
Qed.

Lemma normal_task (t : string) :
  (if String.eqb (if String.eqb t "" then t else replace_char " " "-" (lower t)) ""
   then (if String.eqb t "" then t else replace_char " " "-" (lower t))
   else replace_char " " "-"
          (lower (if String.eqb t "" then t else replace_char " " "-" (lower t)))) =
  (if String.eqb t "" then t else replace_char " " "-" (lower t)).
Proof.
  destruct t as [|c t]; [reflexivity|].
  change (String.eqb (String c t) "") with false. cbn iota.
  rewrite hyphenate_idem.
  destruct (String.eqb (replace_char " " "-" (lower (String c t))) "");
    reflexivity.
Qed.

(** X7: the normalisation done when a ModelInfo is constructed is
    idempotent: constructing a descriptor again from the fields of a
    constructed one gives the same descriptor. A constructed descriptor has
    a name that lower-casing and stripping leave unchanged and a task type
    without spaces, so the lower-casing in _estimate_model_size has no
    effect on it. *)
Theorem new_ModelInfo_normal (n t l : string) (size : option Q)
    (count : option Z) (modified : option string) (labels : option (list string)) :
  let m := new_ModelInfo n t l size count modified labels in
  new_ModelInfo (name m) (task_type m) (library m) (size_mb m) (downloads m)
    (last_modified m) (Some (tags m)) = m /\
  lower (name m) = name m /\
  strip (name m) = name m /\
  has_char " " (task_type m) = false /\
  estimate_model_size m = estimate_loop size_estimates (name m).
Proof.
  cbn zeta.
  assert (Hlow : lower (strip (lower n)) = strip (lower n)).
  { rewrite <- strip_lower, lower_idem. reflexivity. }
  assert (Hstrip : strip (strip (lower n)) = strip (lower n))
    by apply strip_idem.
  split; [|split; [exact Hlow|split; [exact Hstrip|split]]].
  - unfold new_ModelInfo.
    cbn [name task_type library size_mb downloads last_modified tags default
         from_option id].
    rewrite Hlow, Hstrip. rewrite (normal_task t). reflexivity.
  - cbn [new_ModelInfo task_type]. destruct (String.eqb t "") eqn:E.
    + apply String.eqb_eq in E. rewrite E. reflexivity.
    + apply hyphenate_no_space.
  - unfold estimate_model_size. cbn [new_ModelInfo name]. rewrite Hlow.
    reflexivity.
Qed.

(** ** Model identifiers *)

Lemma has_char_append (c : ascii) (a b : string) :
  has_char c (String.append a b) = has_char c a || has_char c b.
Proof.
  induction a as [|x a IH]; [reflexivity|].
  rewrite append_String. cbn [has_char]. rewrite IH. apply orb_assoc.
Qed.

(** Splitting at the last underscore. *)
Lemma split_last_underscore (a b c d : string) :
  has_char "_" b = false -> has_char "_" d = false ->
  String.append a (String "_" b) = String.append c (String "_" d) ->
  a = c /\ b = d.
Proof.
  intros Hb Hd. revert c. induction a as [|x a IH]; intros c H.
  - destruct c as [|y c]; rewrite ?append_String, ?append_Empty in H.
    + injection H as H. split; [reflexivity|exact H].
    + injection H as Hy H. exfalso.
      assert (Hc : has_char "_" b = true).
      { rewrite H, has_char_append. cbn [has_char]. rewrite Ascii.eqb_refl.
        apply orb_true_r. }
      congruence.
  - destruct c as [|y c]; rewrite ?append_String, ?append_Empty in H.
    + injection H as Hx H. exfalso.
      assert (Hc : has_char "_" d = true).
      { rewrite <- H, has_char_append. cbn [has_char]. rewrite Ascii.eqb_refl.
        apply orb_true_r. }
      congruence.
    + injection H as Hx H. destruct (IH c H) as [-> ->]. subst y.
      split; reflexivity.
Qed.

(** Equal identifiers without underscores in task type and library. *)
Lemma get_model_id_injective_aux (m1 m2 : ModelInfo) :
  has_char "_" (task_type m1) = false -> has_char "_" (library m1) = false ->
  has_char "_" (task_type m2) = false -> has_char "_" (library m2) = false ->
  get_model_id m1 = get_model_id m2 ->
  name m1 = name m2 /\ task_type m1 = task_type m2 /\ library m1 = library m2.
Proof.
  intros Ht1 Hl1 Ht2 Hl2 H. unfold get_model_id in H.
  rewrite ?append_String, ?append_Empty in H.
  assert (H' : String.append
                 (String.append (name m1) (String "_" (task_type m1)))
                 (String "_" (library m1)) =
               String.append
                 (String.append (name m2) (String "_" (task_type m2)))
                 (String "_" (library m2))).
  { rewrite !append_assoc. rewrite ?append_String, ?append_Empty. exact H. }
  destruct (split_last_underscore _ _ _ _ Hl1 Hl2 H') as [Hnt Hl].
  destruct (split_last_underscore _ _ _ _ Ht1 Ht2 Hnt) as [Hn Ht].
  tauto.
Qed.

(** X8: get_model_id tells descriptors apart by name, task type and
    library whenever the task types and the libraries contain no
    underscore: two such descriptors with the same identifier have the same
    name, the same task type and the same library. *)
Theorem get_model_id_injective (m1 m2 : ModelInfo) :
  has_char "_" (task_type m1) = false -> has_char "_" (library m1) = false ->
  has_char "_" (task_type m2) = false -> has_char "_" (library m2) = false ->
  get_model_id m1 = get_model_id m2 ->
  name m1 = name m2 /\ task_type m1 = task_type m2 /\ library m1 = library m2.
Proof.
  intros Ht1 Hl1 Ht2 Hl2 H.
  destruct (get_model_id_injective_aux m1 m2 Ht1 Hl1 Ht2 Hl2 H) as (Hn & Ht & Hl).
  repeat split; assumption.
Qed.

Lemma get_model_id_injective_witness :
  has_char "_" "text-generation" = false /\
  has_char "_" "transformers" = false /\
  get_model_id (descriptor "gpt2" "text-generation" None) =
    "gpt2_text-generation_transformers" /\
  forall m2,
    has_char "_" (task_type m2) = false -> has_char "_" (library m2) = false ->
    get_model_id (descriptor "gpt2" "text-generation" None) = get_model_id m2 ->
    name m2 = "gpt2" /\ task_type m2 = "text-generation" /\
    library m2 = "transformers".
Proof.
  split; [reflexivity|]. split; [reflexivity|]. split; [reflexivity|].
  intros m2 Ht Hl H.
  destruct (get_model_id_injective (descriptor "gpt2" "text-generation" None) m2
              eq_refl eq_refl Ht Hl H) as (Hn & Ht' & Hl').
  cbn in Hn, Ht', Hl'. repeat split; congruence.
Defined.

(** With an underscore in a task type two different descriptors can share
    an identifier. *)
Example get_model_id_collision :
  get_model_id (descriptor "bert_base" "fill" None) =
  get_model_id (descriptor "bert" "base_fill" None).
Proof. reflexivity. Qed.

(** ** Validation *)

Lemma has_underscore_lower (s : string) :
  has_char "_" (lower s) = has_char "_" s.
Proof.
  induction s as [|c s IH]; [reflexivity|].
  cbn [lower has_char]. rewrite IH. f_equal.
  destruct c as [[] [] [] [] [] [] [] []]; reflexivity.
Qed.

Lemma valid_task_no_underscore (t : string) :
  validate_task_type t = true -> has_char "_" t = false.
Proof.
  unfold validate_task_type. destruct (String.eqb t ""); [discriminate|].
  intros H. apply bool_decide_eq_true in H.
  rewrite <- has_underscore_lower.
  unfold VALID_TASK_TYPES in H. rewrite !elem_of_cons, elem_of_nil in H.
  repeat (destruct H as [H|H]; [rewrite H; reflexivity|]). destruct H.
Qed.

Lemma valid_library_no_underscore (l : string) :
  validate_library l = true -> has_char "_" l = false.
Proof.
  unfold validate_library. destruct (String.eqb l ""); [discriminate|].
  intros H. apply bool_decide_eq_true in H.
  rewrite <- has_underscore_lower.
  unfold VALID_LIBRARIES in H. rewrite !elem_of_cons, elem_of_nil in H.
  repeat (destruct H as [H|H]; [rewrite H; reflexivity|]). destruct H.
Qed.

(** What an accepted descriptor passed. *)
Lemma validate_model_true (self : ModelValidator) (m : ModelInfo) :
  (validate_model self m).2 = true ->
  validate_model_name (name m) = true /\
  validate_task_type (task_type m) = true /\
  validate_library (library m) = true /\
  (forall size, size_mb m = Some size -> (0 < size)%Q) /\
  (forall count, downloads m = Some count -> (0 <= count)%Z) /\
  errors (validate_model self m).1 = [].
Proof.
  unfold validate_model. cbn [fst snd errors].
  destruct (validate_model_name (name m));
    destruct (validate_task_type (task_type m));
    destruct (validate_library (library m));
    destruct (size_mb m) as [size|];
    try destruct (validate_size size) eqn:Hs;
    destruct (downloads m) as [count|];
    try destruct (validate_downloads count) eqn:Hd;
    cbn; intros H; try discriminate H;
    (split; [reflexivity|]); (split; [reflexivity|]); (split; [reflexivity|]);
    (split; [|split; [|reflexivity]]);
    intros x Hx; try discriminate Hx; injection Hx as <-.
  all: try (apply NumFacts.gtb_spec in Hs; exact Hs).
  all: try (apply Z.leb_le in Hd; exact Hd).
Qed.

(** X9: validate_model accepts a descriptor only if its name, task type and
    library pass their checks, a declared size is positive and a declared
    download count is not negative, and then it leaves no error message;
    two accepted descriptors with the same identifier have the same name,
    task type and library, whatever messages the validators held before. *)
Theorem validated_models_distinct_ids (v1 v2 : ModelValidator)
    (m1 m2 : ModelInfo) :
  (validate_model v1 m1).2 = true ->
  (validate_model v2 m2).2 = true ->
  errors (validate_model v1 m1).1 = [] /\
  (forall size, size_mb m1 = Some size -> (0 < size)%Q) /\
  (forall count, downloads m1 = Some count -> (0 <= count)%Z) /\
  (get_model_id m1 = get_model_id m2 ->
   name m1 = name m2 /\ task_type m1 = task_type m2 /\ library m1 = library m2).
Proof.
  intros H1 H2.
  destruct (validate_model_true v1 m1 H1) as (_ & Ht1 & Hl1 & Hs1 & Hd1 & He1).
  destruct (validate_model_true v2 m2 H2) as (_ & Ht2 & Hl2 & _).
  split; [exact He1|]. split; [exact Hs1|]. split; [exact Hd1|].
  apply get_model_id_injective_aux;
    auto using valid_task_no_underscore, valid_library_no_underscore.
Qed.

Lemma validated_models_distinct_ids_witness :
  (validate_model {| errors := [InvalidModelName "x y"] |}
     (new_ModelInfo "GPT2" "Text Generation" "transformers" (Some 548%Q)
        (Some 10%Z) None None)).2 = true /\
  (validate_model {| errors := [] |}
     (descriptor "gpt2" "text-generation" None)).2 = true /\
  errors (validate_model {| errors := [InvalidModelName "x y"] |}
     (new_ModelInfo "GPT2" "Text Generation" "transformers" (Some 548%Q)
        (Some 10%Z) None None)).1 = [] /\
  name (new_ModelInfo "GPT2" "Text Generation" "transformers" (Some 548%Q)
          (Some 10%Z) None None) =
    name (descriptor "gpt2" "text-generation" None).
Proof.
  assert (H1 : (validate_model {| errors := [InvalidModelName "x y"] |}
     (new_ModelInfo "GPT2" "Text Generation" "transformers" (Some 548%Q)
        (Some 10%Z) None None)).2 = true) by reflexivity.
  assert (H2 : (validate_model {| errors := [] |}
     (descriptor "gpt2" "text-generation" None)).2 = true) by reflexivity.
  split; [exact H1|]. split; [exact H2|].
  destruct (validated_models_distinct_ids _ _ _ _ H1 H2) as (He & _ & _ & Hid).
  split; [exact He|].
  exact (proj1 (Hid eq_refl)).
Defined.

(** The name check accepts a line feed at the end of a name, and nothing
    else outside the character class. *)
Example validate_model_name_cases :
  validate_model_name "bert-base/uncased_v2" = true /\
  validate_model_name (String.append "gpt2" (String "010" "")) = true /\
  validate_model_name (String.append "gpt2" (String "010" (String "010" ""))) =
    false /\
  validate_model_name "bert base" = false /\
  validate_model_name "" = false.
Proof. repeat split; reflexivity. Qed.

(** ** Comparison *)

(** X10: compare_models is symmetric: both orders of the two descriptors
    give the same result. A size difference is reported exactly when both
    sizes are declared and not zero, and it is never negative. *)
Theorem compare_models_symmetric (m1 m2 : ModelInfo) :
  compare_models m1 m2 = compare_models m2 m1 /\
  (is_Some (size_difference (compare_models m1 m2)) <->
   exists size1 size2,
     size_mb m1 = Some size1 /\ size_mb m2 = Some size2 /\
     ~ (size1 == 0)%Q /\ ~ (size2 == 0)%Q) /\
  (forall d, size_difference (compare_models m1 m2) = Some d -> (0 <= d)%Q) /\
  (forall d, download_difference (compare_models m1 m2) = Some d -> (0 <= d)%Z).
Proof.
  unfold compare_models. cbn [size_difference download_difference].
  split; [|split; [|split]].
  - f_equal.
    + apply String.eqb_sym.
    + apply String.eqb_sym.
    + destruct (size_mb m1) as [a|], (size_mb m2) as [b|]; try reflexivity.
      rewrite (andb_comm (Num.truthy a)).
      destruct (Num.truthy b && Num.truthy a); [|reflexivity].
      rewrite Binary64.fsub_abs_sym. reflexivity.
    + destruct (downloads m1) as [a|], (downloads m2) as [b|]; try reflexivity.
      rewrite (andb_comm (negb (a =? 0)%Z)).
      destruct (negb (b =? 0)%Z && negb (a =? 0)%Z); [|reflexivity].
      f_equal. lia.
  - destruct (size_mb m1) as [a|], (size_mb m2) as [b|].
    + destruct (Num.truthy a) eqn:Ha, (Num.truthy b) eqn:Hb; cbn [andb].
      * apply NumFacts.truthy_spec in Ha. apply NumFacts.truthy_spec in Hb.
        split; [intros _; exists a, b; tauto|intros _; eexists; reflexivity].
      * apply NumFacts.truthy_false in Hb.
        split; [intros [x Hx]; discriminate Hx|].
        intros (x & y & _ & Hy & _ & Hny). injection Hy as <-. contradiction.
      * apply NumFacts.truthy_false in Ha.
        split; [intros [x Hx]; discriminate Hx|].
        intros (x & y & Hx & _ & Hnx & _). injection Hx as <-. contradiction.
      * apply NumFacts.truthy_false in Ha.
        split; [intros [x Hx]; discriminate Hx|].
        intros (x & y & Hx & _ & Hnx & _). injection Hx as <-. contradiction.
    + split; [intros [x Hx]; discriminate Hx|].
      intros (x & y & _ & Hy & _). discriminate Hy.
    + split; [intros [x Hx]; discriminate Hx|].
      intros (x & y & Hx & _). discriminate Hx.
    + split; [intros [x Hx]; discriminate Hx|].
      intros (x & y & Hx & _). discriminate Hx.
  - intros d Hd. destruct (size_mb m1) as [a|], (size_mb m2) as [b|];
      try discriminate Hd.
    destruct (Num.truthy a && Num.truthy b); [|discriminate Hd].
    replace d with (Qabs (Num.fsub a b)) by congruence. apply Qabs_nonneg.
  - intros d Hd. destruct (downloads m1) as [a|], (downloads m2) as [b|];
      try discriminate Hd.
    destruct (negb (a =? 0)%Z && negb (b =? 0)%Z); [|discriminate Hd].
    injection Hd as <-. lia.
Qed.

(** ** The model manager *)

Lemma group_add_lookup (groups : gmap string (list string))
    (g0 x g : string) :
  group_add groups g0 x !! g =
  if decide (g = g0) then Some (default [] (groups !! g0) ++ [x])
  else groups !! g.
Proof.
  unfold group_add. destruct (decide (g = g0)) as [->|Hne].
  - destruct (groups !! g0) as [ids|] eqn:E.
    + rewrite lookup_alter_eq, E. reflexivity.
    + rewrite lookup_alter_eq, lookup_insert_eq. reflexivity.
  - destruct (groups !! g0) as [ids|] eqn:E.
    + rewrite lookup_alter_ne by congruence. reflexivity.
    + rewrite lookup_alter_ne, lookup_insert_ne by congruence. reflexivity.
Qed.

(** Adding to a group keeps what the groups list. *)
Lemma group_add_keeps (groups : gmap string (list string))
    (g0 x g : string) (ids : list string) :
  groups !! g = Some ids ->
  exists ids', group_add groups g0 x !! g = Some ids' /\
               forall y, y ∈ ids -> y ∈ ids'.
Proof.
  intros H. rewrite group_add_lookup. destruct (decide (g = g0)) as [->|Hne].
  - rewrite H. eexists. split; [reflexivity|].
    intros y Hy. apply elem_of_app. left. exact Hy.
  - exists ids. split; [exact H|tauto].
Qed.

Lemma group_add_lists (groups : gmap string (list string)) (g0 x : string) :
  exists ids, group_add groups g0 x !! g0 = Some ids /\ x ∈ ids.
Proof.
  rewrite group_add_lookup. destruct (decide (g0 = g0)) as [_|]; [|congruence].
  eexists. split; [reflexivity|]. apply elem_of_app. right.
  apply list_elem_of_here.
Qed.

(** Where the lists of the groups after [group_add] come from. *)
Lemma group_add_origin (groups : gmap string (list string))
    (g0 x g : string) (ids' : list string) :
  group_add groups g0 x !! g = Some ids' ->
  x ∈ ids' \/ groups !! g = Some ids'.
Proof.
  rewrite group_add_lookup. destruct (decide (g = g0)) as [->|Hne].
  - intros H. injection H as <-. left. apply elem_of_app. right.
    apply list_elem_of_here.
  - tauto.
Qed.

Lemma has_model_id_spec (self : ModelManager) (model_id : string) :
  has_model_id self model_id = true <-> model_id ∈ (models self).*1.
Proof. unfold has_model_id. apply bool_decide_eq_true. Qed.

Lemma elem_of_keys (l : list (string * ModelInfo)) (k : string) :
  k ∈ l.*1 <-> exists m, (k, m) ∈ l.
Proof.
  rewrite list_elem_of_fmap. split.
  - intros ([k' m] & -> & H). exists m. exact H.
  - intros (m & H). exists (k, m). split; [reflexivity|exact H].
Qed.

Lemma add_model_wf (self : ModelManager) (m : ModelInfo) :
  manager_wf self -> manager_wf (add_model self m).1.
Proof.
  intros Hwf. unfold add_model.
  destruct (has_model_id self (get_model_id m)) eqn:Hhas; cbn [fst].
  { exact Hwf. }
  destruct Hwf as (Hnd & Hid & Hgrp & Hlive).
  assert (Hfresh : get_model_id m ∉ (models self).*1).
  { intros H. apply has_model_id_spec in H. congruence. }
  unfold manager_wf, update_groups. cbn [models model_groups].
  split; [|split; [|split]].
  - rewrite fmap_app. apply NoDup_app. split; [exact Hnd|]. split.
    + intros x Hx Hx'. cbn in Hx'. apply list_elem_of_singleton in Hx'.
      subst x. contradiction.
    + cbn. apply NoDup_singleton.
  - intros k x Hin. apply elem_of_app in Hin. destruct Hin as [Hin|Hin].
    + exact (Hid k x Hin).
    + apply list_elem_of_singleton in Hin. injection Hin as -> ->. reflexivity.
  - intros k x Hin. apply elem_of_app in Hin. destruct Hin as [Hin|Hin].
    + destruct (Hgrp k x Hin) as [(i1 & G1 & M1) (i2 & G2 & M2)]. split.
      * destruct (group_add_keeps _ (String.append "task_" (task_type m))
                    (get_model_id m) _ _ G1) as (j & Gj & Sj).
        destruct (group_add_keeps _ (String.append "library_" (library m))
                    (get_model_id m) _ _ Gj) as (j' & Gj' & Sj').
        exists j'. split; [exact Gj'|auto].
      * destruct (group_add_keeps _ (String.append "task_" (task_type m))
                    (get_model_id m) _ _ G2) as (j & Gj & Sj).
        destruct (group_add_keeps _ (String.append "library_" (library m))
                    (get_model_id m) _ _ Gj) as (j' & Gj' & Sj').
        exists j'. split; [exact Gj'|auto].
    + apply list_elem_of_singleton in Hin. injection Hin as -> ->. split.
      * destruct (group_add_lists (model_groups self)
                    (String.append "task_" (task_type m)) (get_model_id m))
          as (j & Gj & Mj).
        destruct (group_add_keeps _ (String.append "library_" (library m))
                    (get_model_id m) _ _ Gj) as (j' & Gj' & Sj').
        exists j'. split; [exact Gj'|auto].
      * apply group_add_lists.
  - intros g ids' Hg. rewrite fmap_app.
    apply group_add_origin in Hg. destruct Hg as [Hx|Hg].
    { exists (get_model_id m). split; [exact Hx|].
      apply elem_of_app. right. apply list_elem_of_here. }
    apply group_add_origin in Hg. destruct Hg as [Hx|Hg].
    { exists (get_model_id m). split; [exact Hx|].
      apply elem_of_app. right. apply list_elem_of_here. }
    destruct (Hlive g ids' Hg) as (k & Hk & Hk').
    exists k. split; [exact Hk|]. apply elem_of_app. left. exact Hk'.
Qed.

Lemma is_empty_group_false (self : ModelManager) (ids : list string) :
  is_empty_group self ids = false <->
  exists model_id, model_id ∈ ids /\ model_id ∈ (models self).*1.
Proof.
  unfold is_empty_group. rewrite orb_false_iff, negb_false_iff.
  rewrite existsb_exists. split.
  - intros (_ & x & Hx & Hhas). exists x.
    split; [apply list_elem_of_In; exact Hx|apply has_model_id_spec; exact Hhas].
  - intros (x & Hx & Hlive). split.
    + apply bool_decide_eq_false. intros ->. inversion Hx.
    + exists x. split; [apply list_elem_of_In; exact Hx|].
      apply has_model_id_spec. exact Hlive.
Qed.

Lemma filter_keys_sublist (l : list (string * ModelInfo)) (k0 : string) :
  sublist (filter (fun kv : string * ModelInfo => kv.1 <> k0) l).*1 l.*1.
Proof. apply fmap_sublist. apply sublist_filter. Qed.

Lemma remove_model_wf (self : ModelManager) (model_name : string) :
  manager_wf self -> manager_wf (remove_model self model_name).1.
Proof.
  intros Hwf. unfold remove_model.
  destruct (fst <$> find_by_name self model_name) as [k0|]; [|exact Hwf].
  destruct (String.eqb k0 ""); [exact Hwf|].
  destruct Hwf as (Hnd & Hid & Hgrp & Hlive).
  cbn [fst]. unfold manager_wf, cleanup_groups. cbn [models model_groups].
  set (rest := filter (fun kv : string * ModelInfo => kv.1 <> k0) (models self)).
  set (self1 := {| models := rest; model_groups := model_groups self |}).
  split; [|split; [|split]].
  - exact (sublist_NoDup _ _ Hnd (filter_keys_sublist (models self) k0)).
  - intros k x Hin. apply list_elem_of_filter in Hin. apply (Hid k x), Hin.
  - intros k x Hin.
    assert (Hk : k ∈ (models self1).*1).
    { apply elem_of_keys. exists x. exact Hin. }
    apply list_elem_of_filter in Hin. destruct Hin as [_ Hin].
    destruct (Hgrp k x Hin) as [(i1 & G1 & M1) (i2 & G2 & M2)].
    split; [exists i1|exists i2]; (split; [|assumption]);
      apply map_lookup_filter_Some; (split; [assumption|]); cbn [snd];
      apply is_empty_group_false; exists k; split; assumption.
  - intros g ids Hg. apply map_lookup_filter_Some in Hg.
    destruct Hg as [_ Hg]. cbn [snd] in Hg.
    apply is_empty_group_false in Hg. exact Hg.
Qed.

Lemma new_manager_wf : manager_wf new_manager.
Proof.
  unfold manager_wf, new_manager. cbn [models model_groups].
  split; [apply NoDup_nil; exact I|].
  split; [intros k m H; inversion H|].
  split; [intros k m H; inversion H|].
  intros g ids H. rewrite lookup_empty in H. discriminate H.
Qed.

(** X11: every manager built from a new one by add_model and remove_model
    keeps its identifiers distinct and equal to the identifiers of the
    descriptors they map to, lists every managed descriptor in its task
    group and in its library group, and has no group without a managed
    descriptor. *)
Theorem reachable_manager_wf (self : ModelManager) :
  reachable_manager self -> manager_wf self.
Proof.
  induction 1 as [|self m _ IH|self model_name _ IH].
  - exact new_manager_wf.
  - apply add_model_wf. exact IH.
  - apply remove_model_wf. exact IH.
Qed.

Lemma main_manager_wf : manager_wf main_manager.
Proof. do 3 apply add_model_wf. exact new_manager_wf. Qed.

Lemma reachable_manager_wf_witness :
  reachable_manager (remove_model main_manager "gpt2").1 /\
  manager_wf (remove_model main_manager "gpt2").1 /\
  (models (remove_model main_manager "gpt2").1).*1 =
    [ "bert-base-uncased_text-classification_transformers";
      "distilbert-base-uncased_text-classification_transformers" ] /\
  model_groups (remove_model main_manager "gpt2").1 !! "task_text-generation" =
    None.
Proof.
  assert (H : reachable_manager (remove_model main_manager "gpt2").1).
  { apply reach_remove. do 3 apply reach_add. apply reach_new_manager. }
  split; [exact H|].
  split; [exact (reachable_manager_wf _ H)|].
  split; reflexivity.
Defined.

Section Find.

Context {A : Type} (f : A -> bool).

Lemma find_app (l1 l2 : list A) :
  List.find f (l1 ++ l2) =
  match List.find f l1 with
  | Some x => Some x
  | None => List.find f l2
  end.
Proof.
  induction l1 as [|x l1 IH]; [reflexivity|].
  cbn [app List.find]. destruct (f x); [reflexivity|exact IH].
Qed.

Lemma find_split (l : list A) (x : A) :
  List.find f l = Some x ->
  exists before after,
    l = before ++ x :: after /\ f x = true /\
    forall y, y ∈ before -> f y = false.
Proof.
  induction l as [|y l IH]; [discriminate|].
  cbn [List.find]. destruct (f y) eqn:Hy.
  - intros H. injection H as <-. exists [], l.
    split; [reflexivity|]. split; [exact Hy|]. intros z Hz. inversion Hz.
  - intros H. destruct (IH H) as (b & a & -> & Hx & Hb).
    exists (y :: b), a. split; [reflexivity|]. split; [exact Hx|].
    intros z Hz. apply elem_of_cons in Hz. destruct Hz as [->|Hz]; auto.
Qed.

Lemma find_none (l : list A) :
  List.find f l = None -> forall y, y ∈ l -> f y = false.
Proof.
  induction l as [|x l IH]; intros H y Hy; [inversion Hy|].
  cbn [List.find] in H. destruct (f x) eqn:Hx; [discriminate H|].
  apply elem_of_cons in Hy. destruct Hy as [->|Hy]; auto.
Qed.

Lemma find_first (before after : list A) (x : A) :
  f x = true -> (forall y, y ∈ before -> f y = false) ->
  List.find f (before ++ x :: after) = Some x.
Proof.
  intros Hx Hb. induction before as [|y b IH]; cbn [app List.find].
  - rewrite Hx. reflexivity.
  - rewrite (Hb y (list_elem_of_here _ _)). apply IH.
    intros z Hz. apply Hb. apply list_elem_of_further. exact Hz.
Qed.

End Find.

Lemma get_model_id_nonempty (m : ModelInfo) :
  String.eqb (get_model_id m) "" = false.
Proof.
  unfold get_model_id. destruct (name m); reflexivity.
Qed.

Lemma filter_all {A} (P : A -> Prop) `{!forall x, Decision (P x)} (l : list A) :
  (forall x, x ∈ l -> P x) -> filter P l = l.
Proof.
  induction l as [|x l IH]; intros Hall; [reflexivity|].
  rewrite filter_cons. destruct (decide (P x)) as [_|Hn].
  - rewrite IH; [reflexivity|]. intros y Hy. apply Hall.
    apply list_elem_of_further. exact Hy.
  - exfalso. apply Hn, Hall, list_elem_of_here.
Qed.

(** Deleting a key of a dictionary without repeated keys. *)
Lemma filter_remove_key (before after : list (string * ModelInfo))
    (k : string) (m : ModelInfo) :
  NoDup (before ++ (k, m) :: after).*1 ->
  filter (fun kv : string * ModelInfo => kv.1 <> k) (before ++ (k, m) :: after) =
  before ++ after.
Proof.
  intros Hnd. rewrite fmap_app, fmap_cons in Hnd. cbn [fst] in Hnd.
  apply NoDup_app in Hnd. destruct Hnd as (_ & Hdisj & Hnd).
  apply NoDup_cons in Hnd. destruct Hnd as [Hk _].
  rewrite filter_app, filter_cons. cbn [fst].
  destruct (decide (k <> k)) as [Hne|_]; [congruence|].
  rewrite !filter_all; [reflexivity| |].
  - intros [k' m'] Hin Heq. cbn [fst] in Heq. subst k'. apply Hk.
    apply elem_of_keys. exists m'. exact Hin.
  - intros [k' m'] Hin Heq. cbn [fst] in Heq. subst k'.
    apply (Hdisj k); [apply elem_of_keys; exists m'; exact Hin|].
    apply list_elem_of_here.
Qed.

(** X12: on a manager that satisfies the invariant, remove_model returns
    False and changes nothing when no managed descriptor has the name;
    otherwise it returns True and removes the first descriptor with that
    name in insertion order and no other: the remaining descriptors keep
    their order, and a later descriptor with the same name stays. *)
Theorem remove_model_first (self : ModelManager) (n : string) :
  manager_wf self ->
  ((forall m, m ∈ get_all_models self -> name m <> n) /\
   remove_model self n = (self, false)) \/
  (exists before m after,
     get_all_models self = before ++ m :: after /\
     name m = n /\
     (forall x, x ∈ before -> name x <> n) /\
     (remove_model self n).2 = true /\
     get_all_models (remove_model self n).1 = before ++ after).
Proof.
  intros (Hnd & Hid & _). unfold remove_model, get_all_models.
  destruct (find_by_name self n) as [[k0 m0]|] eqn:Hfind; cbn [fmap option_fmap option_map fst].
  - right. unfold find_by_name in Hfind.
    destruct (find_split _ _ _ Hfind) as (b & a & Hl & Hm0 & Hb).
    cbn [snd] in Hm0. apply String.eqb_eq in Hm0.
    assert (Hk0 : k0 = get_model_id m0).
    { apply Hid. rewrite Hl. apply elem_of_app. right. apply list_elem_of_here. }
    rewrite Hk0, get_model_id_nonempty. rewrite <- Hk0. cbn [fst snd models].
    exists b.*2, m0, a.*2.
    split; [rewrite Hl, fmap_app; reflexivity|]. split; [exact Hm0|].
    split.
    + intros x Hx. apply list_elem_of_fmap in Hx. destruct Hx as (kv & -> & Hkv).
      apply String.eqb_neq. exact (Hb kv Hkv).
    + split; [reflexivity|]. rewrite Hl.
      rewrite filter_remove_key by (rewrite <- Hl; exact Hnd).
      apply fmap_app.
  - left. split; [|reflexivity]. intros m Hm.
    apply list_elem_of_fmap in Hm. destruct Hm as (kv & -> & Hkv).
    apply String.eqb_neq. exact (find_none _ _ Hfind kv Hkv).
Qed.

Lemma remove_model_first_witness :
  manager_wf main_manager /\
  (remove_model main_manager "gpt2").2 = true /\
  name <$> get_all_models (remove_model main_manager "gpt2").1 =
    [ "bert-base-uncased"; "distilbert-base-uncased" ] /\
  remove_model main_manager "t5-small" = (main_manager, false).
Proof.
  pose proof main_manager_wf as Hwf.
  split; [exact Hwf|].
  destruct (remove_model_first main_manager "gpt2" Hwf)
    as [[Hnone _]|(b & m & a & _ & _ & _ & Htrue & _)].
  - exfalso. apply (Hnone (new_ModelInfo "gpt2" "text-generation" "transformers"
                             None None None None)); [|reflexivity].
    apply list_elem_of_further, list_elem_of_here.
  - split; [exact Htrue|]. split; reflexivity.
Defined.

(** What a call of [add_model] with a new identifier does. *)
Lemma add_model_new (self : ModelManager) (m : ModelInfo) :
  has_model_id self (get_model_id m) = false ->
  add_model self m =
    ({| models := models self ++ [(get_model_id m, m)];
        model_groups :=
          group_add
            (group_add (model_groups self)
               (String.append "task_" (task_type m)) (get_model_id m))
            (String.append "library_" (library m)) (get_model_id m) |}, true).
Proof. intros H. unfold add_model. rewrite H. reflexivity. Qed.

Lemma add_model_has_id (self : ModelManager) (m : ModelInfo) :
  has_model_id (add_model self m).1 (get_model_id m) = true.
Proof.
  destruct (has_model_id self (get_model_id m)) eqn:H.
  - unfold add_model. rewrite H. exact H.
  - rewrite (add_model_new self m H). cbn [fst].
    apply has_model_id_spec. cbn [models]. rewrite fmap_app.
    apply elem_of_app. right. apply list_elem_of_here.
Qed.

(** X13: add_model never replaces a descriptor: when the identifier is
    already managed it returns False and changes nothing, otherwise it
    returns True and puts the descriptor after the managed ones; adding the
    same descriptor a second time always returns False and changes nothing.
    After a successful call get_model finds a descriptor of that name, and
    the added one when no managed descriptor had the name before. *)
Theorem add_model_once (self : ModelManager) (m : ModelInfo) :
  add_model (add_model self m).1 m = ((add_model self m).1, false) /\
  ((add_model self m).2 = false ->
     (get_model_id m ∈ (models self).*1) /\ (add_model self m).1 = self) /\
  ((add_model self m).2 = true ->
     (get_model_id m ∉ (models self).*1) /\
     get_all_models (add_model self m).1 = get_all_models self ++ [m] /\
     exists found,
       get_model (add_model self m).1 (name m) = Some found /\
       name found = name m /\
       ((forall x, x ∈ get_all_models self -> name x <> name m) -> found = m)).
Proof.
  split; [|split].
  - pose proof (add_model_has_id self m) as H.
    unfold add_model at 1. rewrite H. reflexivity.
  - destruct (has_model_id self (get_model_id m)) eqn:H.
    + intros _. split; [apply has_model_id_spec; exact H|].
      unfold add_model. rewrite H. reflexivity.
    + rewrite (add_model_new self m H). discriminate.
  - destruct (has_model_id self (get_model_id m)) eqn:H.
    + unfold add_model. rewrite H. discriminate.
    + intros _. rewrite (add_model_new self m H). cbn [fst].
      split.
      { intros Hin. apply has_model_id_spec in Hin. congruence. }
      unfold get_all_models, get_model, find_by_name. cbn [models].
      split; [rewrite fmap_app; reflexivity|].
      rewrite find_app.
      destruct (List.find (fun kv : string * ModelInfo =>
                  String.eqb (name kv.2) (name m)) (models self))
        as [[k x]|] eqn:Hfind.
      * exists x. split; [reflexivity|].
        destruct (find_split _ _ _ Hfind) as (b & a & Hl & Hx & _).
        cbn [snd] in Hx. apply String.eqb_eq in Hx. split; [exact Hx|].
        intros Hnone. exfalso. apply (Hnone x); [|exact Hx].
        apply list_elem_of_fmap. exists (k, x). split; [reflexivity|].
        rewrite Hl. apply elem_of_app. right. apply list_elem_of_here.
      * exists m. cbn [List.find snd]. rewrite String.eqb_refl.
        split; [reflexivity|]. split; [reflexivity|]. reflexivity.
Qed.

Lemma add_model_once_witness :
  (add_model new_manager (descriptor "gpt2" "text-generation" None)).2 = true /\
  get_all_models
    (add_model new_manager (descriptor "gpt2" "text-generation" None)).1 =
    [ descriptor "gpt2" "text-generation" None ] /\
  get_model
    (add_model new_manager (descriptor "gpt2" "text-generation" None)).1 "gpt2" =
    Some (descriptor "gpt2" "text-generation" None) /\
  (add_model main_manager
     (new_ModelInfo "GPT2" "Text Generation" "transformers" None None None None)).2 =
    false /\
  (add_model main_manager
     (new_ModelInfo "GPT2" "Text Generation" "transformers" None None None None)).1 =
    main_manager.
Proof.
  assert (H1 : (add_model new_manager
                  (descriptor "gpt2" "text-generation" None)).2 = true)
    by reflexivity.
  assert (H2 : (add_model main_manager
                  (new_ModelInfo "GPT2" "Text Generation" "transformers"
                     None None None None)).2 = false) by reflexivity.
  destruct (add_model_once new_manager (descriptor "gpt2" "text-generation" None))
    as (_ & _ & Htrue).
  destruct (Htrue H1) as (_ & Hall & found & Hget & _ & Hsame).
  destruct (add_model_once main_manager
              (new_ModelInfo "GPT2" "Text Generation" "transformers"
                 None None None None)) as (_ & Hfalse & _).
  split; [exact H1|]. split; [exact Hall|]. split.
  - transitivity (Some found); [exact Hget|].
    f_equal. apply Hsame. intros x Hx. inversion Hx.
  - split; [exact H2|]. exact (proj2 (Hfalse H2)).
Defined.

Lemma cleanup_lookup (self : ModelManager) (g : string) :
  model_groups (cleanup_groups self) !! g =
  match model_groups self !! g with
  | Some ids => if is_empty_group self ids then None else Some ids
  | None => None
  end.
Proof.
  unfold cleanup_groups. cbn [model_groups].
  destruct (model_groups self !! g) as [ids|] eqn:E.
  - destruct (is_empty_group self ids) eqn:He.
    + apply map_lookup_filter_None. right. intros x Hx.
      assert (x = ids) by congruence. subst x. cbn [snd]. congruence.
    + apply map_lookup_filter_Some. split; [exact E|exact He].
  - apply map_lookup_filter_None. left. exact E.
Qed.

Lemma is_empty_group_stale (self : ModelManager) (ids : list string)
    (stale : string) :
  stale ∉ (models self).*1 ->
  is_empty_group self (ids ++ [stale]) = is_empty_group self ids.
Proof.
  intros Hs.
  destruct (is_empty_group self ids) eqn:E.
  - destruct (is_empty_group self (ids ++ [stale])) eqn:E'; [reflexivity|].
    apply is_empty_group_false in E'. destruct E' as (x & Hx & Hlive).
    apply elem_of_app in Hx. destruct Hx as [Hx|Hx].
    + assert (is_empty_group self ids = false)
        by (apply is_empty_group_false; exists x; tauto).
      congruence.
    + apply list_elem_of_singleton in Hx. subst x. contradiction.
  - apply is_empty_group_false in E. destruct E as (x & Hx & Hlive).
    apply is_empty_group_false. exists x. split; [|exact Hlive].
    apply elem_of_app. left. exact Hx.
Qed.

(** X14: adding a descriptor whose identifier and name are new and then
    removing it by name restores the managed descriptors, but not the
    groups: a group of the descriptor that existed before keeps the
    removed identifier at its end, a group that the call created is
    deleted, and every other group is as it was. *)
Theorem add_then_remove (self : ModelManager) (m : ModelInfo) :
  manager_wf self ->
  (forall x, x ∈ get_all_models self -> name x <> name m) ->
  get_model_id m ∉ (models self).*1 ->
  (remove_model (add_model self m).1 (name m)).2 = true /\
  models (remove_model (add_model self m).1 (name m)).1 = models self /\
  forall g,
    model_groups (remove_model (add_model self m).1 (name m)).1 !! g =
    if decide (g = String.append "task_" (task_type m) \/
               g = String.append "library_" (library m))
    then (fun ids => ids ++ [get_model_id m]) <$> model_groups self !! g
    else model_groups self !! g.
Proof.
  intros (Hnd & Hid & Hgrp & Hlive) Hname Hfresh.
  assert (Hhas : has_model_id self (get_model_id m) = false).
  { destruct (has_model_id self (get_model_id m)) eqn:E; [|reflexivity].
    apply has_model_id_spec in E. contradiction. }
  rewrite (add_model_new self m Hhas). cbn [fst].
  set (tg := String.append "task_" (task_type m)).
  set (lg := String.append "library_" (library m)).
  assert (Htl : tg <> lg) by (unfold tg, lg; discriminate).
  unfold remove_model, find_by_name. cbn [models].
  rewrite (find_first _ (models self) [] (get_model_id m, m)).
  2: { cbn [snd]. apply String.eqb_refl. }
  2: { intros [k x] Hin. cbn [snd]. apply String.eqb_neq. apply Hname.
       apply list_elem_of_fmap. exists (k, x). split; [reflexivity|exact Hin]. }
  cbn [fmap option_fmap option_map fst].
  rewrite get_model_id_nonempty. cbn [fst snd models].
  assert (Hnd' : NoDup (models self ++ [(get_model_id m, m)]).*1).
  { rewrite fmap_app. apply NoDup_app. split; [exact Hnd|]. split.
    - intros x Hx Hx'. cbn in Hx'. apply list_elem_of_singleton in Hx'.
      subst x. contradiction.
    - cbn. apply NoDup_singleton. }
  rewrite (filter_remove_key (models self) [] (get_model_id m) m Hnd'), app_nil_r.
  split; [reflexivity|]. split; [reflexivity|].
  intros g. rewrite cleanup_lookup. cbn [model_groups].
  set (self0 := {| models := models self;
                   model_groups := group_add (group_add (model_groups self) tg (get_model_id m)) lg
                       (get_model_id m) |}).
  assert (Hempty : forall ids, is_empty_group self0 ids = is_empty_group self ids)
    by reflexivity.
  assert (Hkeep : forall g0 ids, model_groups self !! g0 = Some ids ->
            is_empty_group self ids = false).
  { intros g0 ids Hg0. apply is_empty_group_false. exact (Hlive g0 ids Hg0). }
  rewrite !group_add_lookup.
  destruct (decide (g = lg)) as [->|Hlg].
  - destruct (decide (lg = tg)) as [E|_]; [congruence|].
    destruct (decide (lg = tg \/ lg = lg)) as [_|Hn]; [|tauto].
    rewrite Hempty, is_empty_group_stale by exact Hfresh.
    destruct (model_groups self !! lg) as [ids|] eqn:E; cbn [default from_option id fmap option_fmap option_map].
    + rewrite (Hkeep lg ids E). reflexivity.
    + reflexivity.
  - destruct (decide (g = tg)) as [->|Htg].
    + destruct (decide (tg = tg \/ tg = lg)) as [_|Hn]; [|tauto].
      rewrite Hempty, is_empty_group_stale by exact Hfresh.
      destruct (model_groups self !! tg) as [ids|] eqn:E; cbn [default from_option id fmap option_fmap option_map].
      * rewrite (Hkeep tg ids E). reflexivity.
      * reflexivity.
    + destruct (decide (g = tg \/ g = lg)) as [Hn|_]; [tauto|].
      destruct (model_groups self !! g) as [ids|] eqn:E; [|reflexivity].
      rewrite Hempty, (Hkeep g ids E). reflexivity.
Qed.

Lemma main_manager_models : get_all_models main_manager = main_models.
Proof. reflexivity. Qed.

Lemma add_then_remove_witness :
  manager_wf main_manager /\
  (forall x, x ∈ get_all_models main_manager -> name x <> name t5_small) /\
  (get_model_id t5_small ∉ (models main_manager).*1) /\
  models (remove_model (add_model main_manager t5_small).1 "t5-small").1 =
    models main_manager /\
  model_groups (remove_model (add_model main_manager t5_small).1 "t5-small").1
    !! "task_translation" = None /\
  model_groups (remove_model (add_model main_manager t5_small).1 "t5-small").1
    !! "library_transformers" =
    Some [ "bert-base-uncased_text-classification_transformers";
           "gpt2_text-generation_transformers";
           "distilbert-base-uncased_text-classification_transformers";
           "t5-small_translation_transformers" ].
Proof.
  pose proof main_manager_wf as Hwf.
  assert (Hname : forall x, x ∈ get_all_models main_manager ->
                            name x <> name t5_small).
  { intros x Hx. rewrite main_manager_models in Hx. unfold main_models in Hx.
    rewrite !elem_of_cons, elem_of_nil in Hx.
    destruct Hx as [->|[->|[->|[]]]]; discriminate. }
  assert (Hfresh : get_model_id t5_small ∉ (models main_manager).*1).
  { intros H. apply has_model_id_spec in H. vm_compute in H. discriminate H. }
  split; [exact Hwf|]. split; [exact Hname|]. split; [exact Hfresh|].
  destruct (add_then_remove main_manager t5_small Hwf Hname Hfresh)
    as (_ & Hmodels & Hgroups).
  split; [exact Hmodels|].
  split.
  - exact (eq_trans (Hgroups "task_translation") eq_refl).
  - exact (eq_trans (Hgroups "library_transformers") eq_refl).
Defined.

(** ** Statistics of the manager *)

Lemma histogram_total_empty : histogram_total ∅ = 0%nat.
Proof. unfold histogram_total. apply map_fold_empty. Qed.

Lemma count_key_lookup (key k : string) (counts : gmap string nat) :
  default 0%nat (count_key key counts !! k) =
  ((if decide (key = k) then 1 else 0) + default 0%nat (counts !! k))%nat.
Proof.
  unfold count_key. destruct (decide (key = k)) as [->|Hne].
  - rewrite lookup_insert_eq. cbn [default from_option id]. lia.
  - rewrite lookup_insert_ne by exact Hne. reflexivity.
Qed.

(** What the loop of [get_statistics] adds to its accumulators. *)
Lemma stat_fold (ms : list ModelInfo) (acc : StatLoop) :
  let r := fold_left stat_step ms acc in
  histogram_total (task_counts r) =
    (histogram_total (task_counts acc) + length ms)%nat /\
  histogram_total (library_counts r) =
    (histogram_total (library_counts acc) + length ms)%nat /\
  (forall t, default 0%nat (task_counts r !! t) =
     (default 0%nat (task_counts acc !! t) +
      length (filter (fun m => task_type m = t) ms))%nat) /\
  (forall l, default 0%nat (library_counts r !! l) =
     (default 0%nat (library_counts acc !! l) +
      length (filter (fun m => library m = l) ms))%nat) /\
  (large_models r =
     large_models acc +
     length (filter (fun m => opt_truthy (size_mb m) && is_large_model m = true) ms))%nat /\
  total_size r = total_from (total_size acc) (declared_sizes ms).
Proof.
  cbn zeta. revert acc. induction ms as [|m ms IH]; intros acc.
  - cbn [fold_left length]. rewrite !Nat.add_0_r.
    repeat split; intros; cbn; lia.
  - cbn [fold_left].
    destruct (IH (stat_step acc m)) as (H1 & H2 & H3 & H4 & H5 & H6).
    rewrite H1, H2, H5, H6.
    cbn [stat_step task_counts library_counts large_models total_size].
    unfold count_key at 1 2. rewrite !histogram_total_count. cbn [length].
    split; [lia|]. split; [lia|]. split; [|split; [|split]].
    + intros t. rewrite H3. cbn [stat_step task_counts].
      rewrite count_key_lookup, filter_cons.
      destruct (decide (task_type m = t)); cbn [length]; lia.
    + intros l. rewrite H4. cbn [stat_step library_counts].
      rewrite count_key_lookup, filter_cons.
      destruct (decide (library m = l)); cbn [length]; lia.
    + rewrite filter_cons.
      destruct (opt_truthy (size_mb m) && is_large_model m) eqn:E.
      * destruct (decide (true = true)) as [_|]; [|congruence]. cbn [length]. lia.
      * destruct (decide (false = true)) as [|_]; [congruence|]. lia.
    + unfold declared_sizes, opt_truthy. cbn [omap list_omap].
      destruct (size_mb m) as [size|]; [|reflexivity].
      destruct (Num.truthy size); reflexivity.
Qed.

(** X15: get_statistics returns the single entry total_models = 0 for a
    manager without descriptors; otherwise the number of descriptors, a
    task distribution and a library distribution whose counts each add up
    to that number and give, per task type and per library, the number of
    descriptors that have it, a count of large models that is the number
    of descriptors of more than 1024 MB and at most the number of
    descriptors, the total size as the float sum of the declared sizes
    that are not zero, in the order of the descriptors, and the average
    size as the float quotient of the total size by the number of
    descriptors. *)
Theorem get_statistics_rule (self : ModelManager) :
  (get_all_models self = [] -> get_statistics self = Some (NoModels 0)) /\
  (get_all_models self <> [] ->
     exists st,
       get_statistics self = Some (SomeModels st) /\
       total_models st = length (get_all_models self) /\
       histogram_total (task_distribution st) = total_models st /\
       histogram_total (library_distribution st) = total_models st /\
       (forall t, default 0%nat (task_distribution st !! t) =
          length (filter (fun m => task_type m = t) (get_all_models self))) /\
       (forall l, default 0%nat (library_distribution st !! l) =
          length (filter (fun m => library m = l) (get_all_models self))) /\
       large_models_count st =
         length (filter (fun m => is_large_model m = true) (get_all_models self)) /\
       (large_models_count st <= total_models st)%nat /\
       total_size_mb st = total (declared_sizes (get_all_models self)) /\
       average_size_mb st =
         Num.fdiv (total_size_mb st) (len (get_all_models self))).
Proof.
  unfold get_statistics. split.
  - intros ->. reflexivity.
  - intros Hne. generalize dependent (get_all_models self). intros all Hne.
    destruct (decide (all = [])) as [|_]; [contradiction|].
    pose proof (len_nonzero all Hne) as Hnz.
    rewrite (NumFacts.py_div_Some _ _ Hnz). cbn [mbind option_bind].
    eexists. split; [reflexivity|].
    cbn [total_models task_distribution library_distribution
         large_models_count average_size_mb total_size_mb].
    destruct (stat_fold all {| task_counts := ∅; library_counts := ∅;
                               total_size := 0; large_models := 0 |})
      as (H1 & H2 & H3 & H4 & H5 & H6).
    cbn [task_counts library_counts large_models total_size]
      in H1, H2, H3, H4, H5, H6.
    rewrite histogram_total_empty in H1, H2.
    split; [reflexivity|]. split; [exact H1|]. split; [exact H2|].
    split; [intros t; rewrite H3, lookup_empty; reflexivity|].
    split; [intros l; rewrite H4, lookup_empty; reflexivity|].
    assert (Hlarge : forall l : list ModelInfo,
      filter (fun m => opt_truthy (size_mb m) && is_large_model m = true) l =
      filter (fun m => is_large_model m = true) l).
    { intros l. induction l as [|m l IHl]; [reflexivity|].
      rewrite !filter_cons, IHl.
      assert (E : opt_truthy (size_mb m) && is_large_model m = is_large_model m).
      { unfold is_large_model, opt_truthy.
        destruct (size_mb m) as [s|]; [|reflexivity].
        destruct (Num.gtb s 1024) eqn:G; [|apply andb_false_r].
        rewrite andb_true_r. apply NumFacts.truthy_spec.
        apply NumFacts.gtb_spec in G. intros Hz. rewrite Hz in G.
        discriminate G. }
      rewrite E. reflexivity. }
    split; [rewrite H5, Hlarge; reflexivity|].
    split; [rewrite H5; cbn [plus]; apply length_filter|].
    split; [exact H6|reflexivity].
Qed.

Lemma get_statistics_rule_witness :
  get_statistics new_manager = Some (NoModels 0) /\
  (get_all_models main_manager <> [] /\
   exists st,
     get_statistics main_manager = Some (SomeModels st) /\
     total_models st = 3%nat /\
     histogram_total (task_distribution st) = 3%nat /\
     task_distribution st !! "text-classification" = Some 2%nat /\
     large_models_count st = 0%nat).
Proof.
  split; [exact (proj1 (get_statistics_rule new_manager) eq_refl)|].
  assert (Hne : get_all_models main_manager <> []) by discriminate.
  split; [exact Hne|].
  destruct (proj2 (get_statistics_rule main_manager) Hne)
    as (st & E & Ht & Hh & _ & _ & _ & Hl & _).
  exists st. split; [exact E|]. split; [exact Ht|].
  split; [rewrite Hh; exact Ht|].
  split; [|rewrite Hl; reflexivity].
  vm_compute in E. injection E as <-. reflexivity.
Defined.

(** ** Searching and adding in bulk *)

Lemma contains_empty (s : string) : contains "" s = true.
Proof. destruct s; reflexivity. Qed.

(** X16: search_models returns, in the order of the manager, exactly the
    managed descriptors whose lower-cased name, task type or library
    contains the lower-cased query; the case of the query does not matter,
    and the empty query returns every managed descriptor. *)
Theorem search_models_rule (manager : ModelManager) (query : string) :
  search_models manager "" = get_all_models manager /\
  search_models manager (lower query) = search_models manager query /\
  sublist (search_models manager query) (get_all_models manager) /\
  (forall m, m ∈ search_models manager query <->
     m ∈ get_all_models manager /\
     (occurs (lower query) (lower (name m)) \/
      occurs (lower query) (lower (task_type m)) \/
      occurs (lower query) (lower (library m)))).
Proof.
  unfold search_models. split; [|split; [|split]].
  - apply filter_all. intros m _. cbn [lower]. rewrite contains_empty.
    reflexivity.
  - rewrite lower_idem. reflexivity.
  - apply sublist_filter.
  - intros m. rewrite list_elem_of_filter, !orb_true_iff, !contains_spec.
    tauto.
Qed.

Section Bulk.

Lemma add_model_keeps_id (self : ModelManager) (m : ModelInfo) (k : string) :
  has_model_id self k = true -> has_model_id (add_model self m).1 k = true.
Proof.
  intros Hk. destruct (has_model_id self (get_model_id m)) eqn:H.
  - unfold add_model. rewrite H. exact Hk.
  - rewrite (add_model_new self m H). cbn [fst].
    apply has_model_id_spec. cbn [models]. rewrite fmap_app.
    apply elem_of_app. left. apply has_model_id_spec. exact Hk.
Qed.

Lemma bulk_keeps_id (ms : list ModelInfo) state (k : string) :
  has_model_id state.1 k = true ->
  has_model_id (fold_left bulk_step ms state).1 k = true.
Proof.
  revert state. induction ms as [|m ms IH]; intros state Hk; [exact Hk|].
  cbn [fold_left]. apply IH. cbn [bulk_step fst]. apply add_model_keeps_id.
  exact Hk.
Qed.

Lemma bulk_adds (ms : list ModelInfo) state (m : ModelInfo) :
  m ∈ ms -> has_model_id (fold_left bulk_step ms state).1 (get_model_id m) = true.
Proof.
  revert state. induction ms as [|x ms IH]; intros state Hin; [inversion Hin|].
  cbn [fold_left]. apply elem_of_cons in Hin. destruct Hin as [->|Hin].
  - apply bulk_keeps_id. cbn [bulk_step fst]. apply add_model_has_id.
  - apply IH. exact Hin.
Qed.

Lemma bulk_other_names (ms : list ModelInfo) state (n : string) :
  (forall x, x ∈ ms -> name x <> n) ->
  (fold_left bulk_step ms state).2 !! n = state.2 !! n.
Proof.
  revert state. induction ms as [|x ms IH]; intros state Hn; [reflexivity|].
  cbn [fold_left]. rewrite IH.
  - cbn [bulk_step snd]. apply lookup_insert_ne. apply Hn, list_elem_of_here.
  - intros y Hy. apply Hn. apply list_elem_of_further. exact Hy.
Qed.

Lemma bulk_add_models_repeated_aux (manager : ModelManager)
    (ms1 ms2 : list ModelInfo) (m : ModelInfo) :
  m ∈ ms1 ->
  (forall x, x ∈ ms2 -> name x <> name m) ->
  (bulk_add_models manager (ms1 ++ m :: ms2)).2 !! name m = Some false /\
  has_model_id (bulk_add_models manager (ms1 ++ m :: ms2)).1 (get_model_id m) =
    true.
Proof.
  intros Hin Hn. unfold bulk_add_models.
  rewrite fold_left_app. cbn [fold_left].
  set (s1 := fold_left bulk_step ms1 (manager, ∅)).
  assert (H1 : has_model_id s1.1 (get_model_id m) = true)
    by (apply bulk_adds; exact Hin).
  split.
  - rewrite bulk_other_names by exact Hn. cbn [bulk_step snd].
    rewrite lookup_insert_eq. unfold add_model. rewrite H1. reflexivity.
  - apply bulk_keeps_id. cbn [bulk_step fst]. apply add_model_keeps_id. exact H1.
Qed.

End Bulk.

(** X17: bulk_add_models reports one flag per name, the one of the last
    descriptor of the list with that name: a descriptor that occurs twice
    in the list, with no other descriptor of its name after the second
    occurrence, is reported as False although the manager holds it. *)
Theorem bulk_add_models_repeated (manager : ModelManager)
    (ms1 ms2 : list ModelInfo) (m : ModelInfo) :
  m ∈ ms1 ->
  (forall x, x ∈ ms2 -> name x <> name m) ->
  (bulk_add_models manager (ms1 ++ m :: ms2)).2 !! name m = Some false /\
  get_model_id m ∈ (models (bulk_add_models manager (ms1 ++ m :: ms2)).1).*1.
Proof.
  intros Hin Hn.
  destruct (bulk_add_models_repeated_aux manager ms1 ms2 m Hin Hn) as [H1 H2].
  split; [exact H1|]. apply has_model_id_spec. exact H2.
Qed.

Lemma bulk_add_models_repeated_witness :
  t5_small ∈ [ t5_small ] /\
  (forall x, x ∈ @nil ModelInfo -> name x <> name t5_small) /\
  (bulk_add_models new_manager [ t5_small; t5_small ]).2 !! "t5-small" =
    Some false /\
  get_all_models (bulk_add_models new_manager [ t5_small; t5_small ]).1 =
    [ t5_small ].
Proof.
  assert (H1 : t5_small ∈ [ t5_small ]) by apply list_elem_of_here.
  assert (H2 : forall x, x ∈ @nil ModelInfo -> name x <> name t5_small).
  { intros x Hx. inversion Hx. }
  split; [exact H1|]. split; [exact H2|].
  destruct (bulk_add_models_repeated new_manager [ t5_small ] [] t5_small H1 H2)
    as [Hres _].
  split; [exact Hres|reflexivity].
Defined.

(** X18: get_models_by_task ignores the case of the task type it is given,
    and the number of descriptors it returns is the count that
    get_statistics reports for the lower-cased task type (none when the
    task type has no entry); the same holds for get_models_by_library and
    the library distribution. *)
Theorem get_models_by_task_count (self : ModelManager) (t : string)
    (st : Statistics) :
  get_statistics self = Some (SomeModels st) ->
  get_models_by_task self (lower t) = get_models_by_task self t /\
  length (get_models_by_task self t) =
    default 0%nat (task_distribution st !! lower t) /\
  get_models_by_library self (lower t) = get_models_by_library self t /\
  length (get_models_by_library self t) =
    default 0%nat (library_distribution st !! lower t).
Proof.
  unfold get_statistics, get_models_by_task, get_models_by_library.
  rewrite lower_idem.
  destruct (decide (get_all_models self = [])) as [|Hne]; [discriminate|].
  rewrite (NumFacts.py_div_Some _ _ (len_nonzero _ Hne)).
  cbn [mbind option_bind]. intros H. injection H as <-.
  cbn [task_distribution library_distribution].
  destruct (stat_fold (get_all_models self)
              {| task_counts := ∅; library_counts := ∅;
                 total_size := 0; large_models := 0 |})
    as (_ & _ & H3 & H4 & _).
  cbn [task_counts library_counts] in H3, H4.
  split; [reflexivity|]. split; [rewrite H3, lookup_empty; reflexivity|].
  split; [reflexivity|]. rewrite H4, lookup_empty. reflexivity.
Qed.

Lemma get_models_by_task_count_witness :
  exists st,
    get_statistics main_manager = Some (SomeModels st) /\
    length (get_models_by_task main_manager "Text-Classification") = 2%nat /\
    task_distribution st !! "text-classification" = Some 2%nat.
Proof.
  destruct (get_statistics main_manager) as [[|st]|] eqn:E;
    [discriminate E| |discriminate E].
  exists st. split; [reflexivity|].
  destruct (get_models_by_task_count main_manager "Text-Classification" st E)
    as (_ & Hlen & _).
  assert (Hd : task_distribution st !! "text-classification" = Some 2%nat).
  { clear Hlen. vm_compute in E. injection E as <-. reflexivity. }
  split; [|exact Hd]. rewrite Hlen.
  change (lower "Text-Classification") with "text-classification".
  rewrite Hd. reflexivity.
Defined.
